(** * EAFA driving-safety classifier: the model lifecycle of
      [flutter_car_app/backend] ([cnn.py], [outputs.py])

    The Python sources are embedded shallowly.  Python exceptions are the
    [Raise] constructor of [result]; module globals and the world (files,
    standard output, torch's random generator) are explicit state; the
    libraries the code calls (PIL, torchvision's functional kernels, the
    ResNet-18 forward pass, the optimiser's update rule) are parameters of
    the sections that need them.  Scores and probabilities are real numbers:
    rounding of the float32 arithmetic is not modelled. *)

From Stdlib Require Import List String Ascii Bool Arith ZArith QArith Qminmax.
From Stdlib Require Import Lia.
From Stdlib Require Import Permutation Reals Lra Floats.
Import ListNotations.

Local Open Scope nat_scope.
Local Open Scope string_scope.
Local Open Scope list_scope.

(** ** Python values, exceptions and dictionaries *)

Module Py.

(** The exception classes that the modelled code can meet.  All of them
    derive from [Exception]; only [RuntimeError] is matched by the
    [except RuntimeError] clause of [load_model]. *)
Inductive exn : Type :=
| RuntimeError (msg : string)
| FileNotFoundError (msg : string)
| NotADirectoryError (msg : string)
| UnidentifiedImageError (msg : string)
| OSError (msg : string)
| ValueError (msg : string)
| IndexError (msg : string)
| TypeError (msg : string)
| AttributeError (msg : string)
| ZeroDivisionError (msg : string).

(** [str(e)] *)
Definition str (e : exn) : string :=
  match e with
  | RuntimeError m | FileNotFoundError m | NotADirectoryError m
  | UnidentifiedImageError m | OSError m | ValueError m | IndexError m
  | TypeError m | AttributeError m | ZeroDivisionError m => m
  end.

Definition is_RuntimeError (e : exn) : bool :=
  match e with RuntimeError _ => true | _ => false end.

(** The outcome of evaluating an expression: a value or a raised exception. *)
Inductive result (A : Type) : Type :=
| Return (a : A)
| Raise (e : exn).
Arguments Return {A} a.
Arguments Raise {A} e.

Definition bind {A B} (r : result A) (k : A -> result B) : result B :=
  match r with
  | Return a => k a
  | Raise e => Raise e
  end.

Definition raised {A} (r : result A) : bool :=
  match r with Return _ => false | Raise _ => true end.

(** A [dict] with string keys keeps insertion order; assigning to a key that
    is present replaces the value in place. *)
Definition dict (V : Type) : Type := list (string * V).

Fixpoint dict_set {V} (k : string) (v : V) (d : dict V) : dict V :=
  match d with
  | [] => [(k, v)]
  | (k', v') :: d' =>
      if String.eqb k k' then (k', v) :: d' else (k', v') :: dict_set k v d'
  end.

Fixpoint dict_get {V} (k : string) (d : dict V) : option V :=
  match d with
  | [] => None
  | (k', v) :: d' => if String.eqb k k' then Some v else dict_get k d'
  end.

(** [k in d] *)
Definition dict_has {V} (k : string) (d : dict V) : bool :=
  match dict_get k d with Some _ => true | None => false end.

(** [{k: v for k, v in pairs}] *)
Definition dict_of_pairs {V} (pairs : list (string * V)) : dict V :=
  fold_left (fun d kv => dict_set (fst kv) (snd kv) d) pairs [].

(** [zip] stops at the shorter argument. *)
Definition zip {A B} (l : list A) (l' : list B) : list (A * B) := combine l l'.

(** [s.endswith(suffix)] *)
Definition endswith (s suffix : string) : bool :=
  let n := String.length s in
  let m := String.length suffix in
  (m <=? n)%nat && String.eqb (substring (n - m) m s) suffix.

(** [s.endswith((suf1, suf2, ...))] *)
Definition endswith_any (s : string) (suffixes : list string) : bool :=
  existsb (endswith s) suffixes.

(** [needle in s] for strings *)
Fixpoint contains (needle s : string) : bool :=
  prefix needle s
  || match s with
     | EmptyString => false
     | String _ s' => contains needle s'
     end.

(** [os.path.join(a, b)] on POSIX. *)
Definition path_join (a b : string) : string :=
  if prefix "/" b then b
  else if String.eqb a "" || endswith a "/" then a ++ b
  else a ++ "/" ++ b.

End Py.
Import Py.

Notation "x <- c1 ;; c2" := (Py.bind c1 (fun x => c2))
  (at level 61, c1 at next level, right associativity).

(** ** torchvision transforms *)

Module Transforms.

(** The deterministic kernels of [torchvision.transforms.functional] that the
    two pipelines reach.  They are library code: their pixel arithmetic is a
    parameter ([Vision]), the parameters they receive are modelled. *)
Inductive functional : Type :=
| F_resize (h w : nat)
| F_crop (top left : Z) (height width : nat)
| F_hflip
| F_rotate (angle : Q)
| F_adjust_brightness (factor : Q)
| F_adjust_contrast (factor : Q)
| F_adjust_saturation (factor : Q)
| F_adjust_hue (factor : Q)
| F_rgb_to_grayscale (num_output_channels : nat).

Class Vision (Img Tensor : Type) : Type := {
  pil_apply : functional -> Img -> Img;
  tensor_apply : functional -> Tensor -> Tensor;
  (** [F.get_dimensions]: channels, height, width *)
  pil_dimensions : Img -> nat * nat * nat;
  tensor_dimensions : Tensor -> nat * nat * nat;
  to_tensor : Img -> Tensor;
  normalize : list Q -> list Q -> Tensor -> Tensor
}.

(** torch's global random generator, seen through the draws the transforms
    make.  Each draw returns the advanced generator. *)
Class TorchRandom (G : Type) : Type := {
  rand : G -> Q * G;                      (* torch.rand(1) *)
  randint : Z -> Z -> G -> Z * G;         (* torch.randint(lo, hi, (1,)) *)
  uniform : Q -> Q -> G -> Q * G;         (* torch.empty(1).uniform_(a, b) *)
  randperm : nat -> G -> list nat * G     (* torch.randperm(n) *)
}.

Inductive transform : Type :=
| Resize (h w : nat)
| RandomCrop (size : nat)
| RandomHorizontalFlip (p : Q)
| RandomRotation (degrees : Q)
| ColorJitter (brightness contrast saturation hue : Q)
| RandomGrayscale (p : Q)
| ToTensor
| Normalize (mean std : list Q).

(** Whether a transform draws from the random generator. *)
Definition is_random (t : transform) : bool :=
  match t with
  | Resize _ _ | ToTensor | Normalize _ _ => false
  | RandomCrop _ | RandomHorizontalFlip _ | RandomRotation _
  | ColorJitter _ _ _ _ | RandomGrayscale _ => true
  end.

Section Semantics.
Context {Img Tensor G : Type} `{V : Vision Img Tensor} `{RNG : TorchRandom G}.

(** What flows through a [Compose]: a PIL image until [ToTensor], a tensor
    after it. *)
Inductive pic : Type :=
| PIL (i : Img)
| Tens (t : Tensor).

Definition F (f : functional) (x : pic) : pic :=
  match x with
  | PIL i => PIL (pil_apply f i)
  | Tens t => Tens (tensor_apply f t)
  end.

Definition get_dimensions (x : pic) : nat * nat * nat :=
  match x with
  | PIL i => pil_dimensions i
  | Tens t => tensor_dimensions t
  end.

(** [ColorJitter.forward]: the four adjustments in the drawn order. *)
Definition jitter_step (b c s h : Q) (fn_id : nat) (x : pic) : pic :=
  match fn_id with
  | 0%nat => F (F_adjust_brightness b) x
  | 1%nat => F (F_adjust_contrast c) x
  | 2%nat => F (F_adjust_saturation s) x
  | 3%nat => F (F_adjust_hue h) x
  | _ => x
  end.

(** One transform's [forward]. *)
Definition apply_transform (t : transform) (x : pic) (g : G)
  : result pic * G :=
  match t with
  | Resize h w => (Return (F (F_resize h w) x), g)
  | RandomCrop size =>
      let '(_, h, w) := get_dimensions x in
      if (h <? size)%nat || (w <? size)%nat then
        (Raise (ValueError
                  "Required crop size is larger than input image size"), g)
      else if (w =? size)%nat && (h =? size)%nat then
        (Return (F (F_crop 0 0 h w) x), g)
      else
        let '(i, g1) := randint 0 (Z.of_nat (h - size) + 1)%Z g in
        let '(j, g2) := randint 0 (Z.of_nat (w - size) + 1)%Z g1 in
        (Return (F (F_crop i j size size) x), g2)
  | RandomHorizontalFlip p =>
      let '(u, g1) := rand g in
      if Qlt_le_dec u p then (Return (F F_hflip x), g1) else (Return x, g1)
  | RandomRotation degrees =>
      let '(angle, g1) := uniform (- degrees)%Q degrees g in
      (Return (F (F_rotate angle) x), g1)
  | ColorJitter brightness contrast saturation hue =>
      let '(fn_idx, g1) := randperm 4 g in
      let '(b, g2) :=
        uniform (Qmax 0 (1 - brightness))%Q (1 + brightness)%Q g1 in
      let '(c, g3) := uniform (Qmax 0 (1 - contrast))%Q (1 + contrast)%Q g2 in
      let '(s, g4) :=
        uniform (Qmax 0 (1 - saturation))%Q (1 + saturation)%Q g3 in
      let '(h, g5) := uniform (- hue)%Q hue g4 in
      (Return (fold_left (fun y fn_id => jitter_step b c s h fn_id y)
                         fn_idx x), g5)
  | RandomGrayscale p =>
      let '(num_output_channels, _, _) := get_dimensions x in
      let '(u, g1) := rand g in
      if Qlt_le_dec u p
      then (Return (F (F_rgb_to_grayscale num_output_channels) x), g1)
      else (Return x, g1)
  | ToTensor =>
      match x with
      | PIL i => (Return (Tens (to_tensor i)), g)
      | Tens _ =>
          (Raise (TypeError "pic should be PIL Image or ndarray"), g)
      end
  | Normalize mean std =>
      match x with
      | Tens t => (Return (Tens (normalize mean std t)), g)
      | PIL _ => (Raise (TypeError "img should be Tensor Image"), g)
      end
  end.

(** [transforms.Compose(ts)(x)] *)
Fixpoint compose (ts : list transform) (x : pic) (g : G) : result pic * G :=
  match ts with
  | [] => (Return x, g)
  | t :: ts' =>
      match apply_transform t x g with
      | (Return y, g') => compose ts' y g'
      | (Raise e, g') => (Raise e, g')
      end
  end.

End Semantics.

Arguments pic : clear implicits.

(** The per-channel statistics of the ImageNet-pretrained backbone. *)
Definition imagenet_mean : list Q := [0.485; 0.456; 0.406]%Q.
Definition imagenet_std : list Q := [0.229; 0.224; 0.225]%Q.

End Transforms.

(** ** The ResNet-18 classifier: parameter layout and score post-processing *)

Module ResNet.

(** One entry of a module's [state_dict]: its key, the tensor's shape, and
    whether it is a parameter ([named_parameters] lists it) or a buffer. *)
Record entry : Type := {
  name : string;
  shape : list nat;
  is_param : bool
}.

Definition param (n : string) (s : list nat) : entry :=
  {| name := n; shape := s; is_param := true |}.
Definition buffer (n : string) (s : list nat) : entry :=
  {| name := n; shape := s; is_param := false |}.

(** Layout of [torchvision.models.resnet18] (library code, written out from
    its module tree): a stem, four stages of two basic blocks, and [fc]. *)
Definition batch_norm (prefix : string) (c : nat) : list entry :=
  [ param (prefix ++ ".weight") [c];
    param (prefix ++ ".bias") [c];
    buffer (prefix ++ ".running_mean") [c];
    buffer (prefix ++ ".running_var") [c];
    buffer (prefix ++ ".num_batches_tracked") [] ].

Definition basic_block (prefix : string) (c_in c_out : nat)
    (downsample : bool) : list entry :=
  [ param (prefix ++ ".conv1.weight") [c_out; c_in; 3; 3] ]
  ++ batch_norm (prefix ++ ".bn1") c_out
  ++ [ param (prefix ++ ".conv2.weight") [c_out; c_out; 3; 3] ]
  ++ batch_norm (prefix ++ ".bn2") c_out
  ++ (if downsample then
        [ param (prefix ++ ".downsample.0.weight") [c_out; c_in; 1; 1] ]
        ++ batch_norm (prefix ++ ".downsample.1") c_out
      else []).

Definition stage (prefix : string) (c_in c_out : nat) (downsample : bool)
  : list entry :=
  basic_block (prefix ++ ".0") c_in c_out downsample
  ++ basic_block (prefix ++ ".1") c_out c_out false.

Definition stem : list entry :=
  [ param "conv1.weight" [64; 3; 7; 7] ] ++ batch_norm "bn1" 64.

Definition backbone : list entry :=
  stem
  ++ stage "layer1" 64 64 false
  ++ stage "layer2" 64 128 true
  ++ stage "layer3" 128 256 true
  ++ stage "layer4" 256 512 true.

(** What [model.fc] holds. *)
Inductive head : Type :=
| Linear1000        (* the stock [nn.Linear(512, 1000)] of [resnet18()] *)
| BareLinear        (* [nn.Linear(in_features, 3)] *)
| DropoutLinear.    (* [nn.Sequential(nn.Dropout(0.5), nn.Linear(.., 3))] *)

Definition in_features : nat := 512.

Definition out_features (h : head) : nat :=
  match h with
  | Linear1000 => 1000
  | BareLinear | DropoutLinear => 3
  end.

Definition head_entries (h : head) : list entry :=
  match h with
  | Linear1000 =>
      [ param "fc.weight" [1000; in_features]; param "fc.bias" [1000] ]
  | BareLinear =>
      [ param "fc.weight" [3; in_features]; param "fc.bias" [3] ]
  | DropoutLinear =>
      [ param "fc.1.weight" [3; in_features]; param "fc.1.bias" [3] ]
  end.

(** [model.state_dict()] as keys with shapes; the tensors' contents stay
    abstract. *)
Definition state_dict : Type := list (string * list nat).

Definition state_dict_of (h : head) : state_dict :=
  map (fun e => (name e, shape e)) (backbone ++ head_entries h).

(** [name for name, _ in model.named_parameters()] *)
Definition named_parameters (h : head) : list entry :=
  filter is_param (backbone ++ head_entries h).

Definition shape_eqb (s s' : list nat) : bool :=
  if list_eq_dec Nat.eq_dec s s' then true else false.

Definition has_entry (sd : state_dict) (kv : string * list nat) : bool :=
  existsb (fun kv' => String.eqb (fst kv) (fst kv')
                      && shape_eqb (snd kv) (snd kv')) sd.

(** [load_state_dict(sd, strict=True)] succeeds when there is no missing key,
    no unexpected key and no size mismatch. *)
Definition matches (expected sd : state_dict) : bool :=
  forallb (has_entry sd) expected && forallb (has_entry expected) sd.

End ResNet.

(** ** Scores to probabilities *)

Module Scores.

Local Open Scope R_scope.

Definition total (xs : list R) : R := fold_right Rplus 0 xs.

(** [torch.softmax(outputs, dim=1)] on one row. *)
Definition softmax (xs : list R) : list R :=
  map (fun x => exp x / total (map exp xs)) xs.

(** [torch.max(outputs, 1)]: the index of the largest score, the first one
    among equals. *)
Fixpoint argmax_from (best_i : nat) (best : R) (i : nat) (xs : list R) : nat :=
  match xs with
  | [] => best_i
  | x :: xs' =>
      if Rlt_dec best x then argmax_from i x (S i) xs'
      else argmax_from best_i best (S i) xs'
  end.

Definition argmax (xs : list R) : nat :=
  match xs with
  | [] => 0%nat
  | x :: xs' => argmax_from 0 x 1 xs'
  end.

End Scores.

(** ** [outputs.py]: the inference service *)

Module Outputs.

Import Transforms ResNet Scores.

Inductive device : Type := cuda | cpu.

(** How far [load_state_dict] got: it copies every matching tensor before it
    reports missing or unexpected keys. *)
Inductive weights : Type :=
| random_init
| partially_loaded (sd : state_dict)
| fully_loaded (sd : state_dict).

(** The [nn.Module] held in [MODEL]. *)
Record module : Type := {
  fc : head;
  params : weights;
  on_device : option device;
  training : bool
}.

(** [models.resnet18(weights=None)] *)
Definition resnet18 : module :=
  {| fc := Linear1000; params := random_init; on_device := None;
     training := true |}.

Definition set_fc (h : head) (m : module) : module :=
  {| fc := h; params := params m; on_device := on_device m;
     training := training m |}.

Definition set_params (w : weights) (m : module) : module :=
  {| fc := fc m; params := w; on_device := on_device m;
     training := training m |}.

(** [MODEL.to(DEVICE)] *)
Definition to (d : option device) (m : module) : module :=
  {| fc := fc m; params := params m; on_device := d; training := training m |}.

(** [MODEL.eval()] *)
Definition eval (m : module) : module :=
  {| fc := fc m; params := params m; on_device := on_device m;
     training := false |}.

(** [MODEL.load_state_dict(sd)] (strict). *)
Definition load_state_dict (sd : state_dict) (m : module)
  : result unit * module :=
  if matches (state_dict_of (fc m)) sd
  then (Return tt, set_params (fully_loaded sd) m)
  else (Raise (RuntimeError "Error(s) in loading state_dict for ResNet"),
        set_params (partially_loaded sd) m).

(** Python values that occur in a prediction result. *)
Inductive pyval : Type :=
| PyNone
| PyStr (s : string)
| PyFloat (x : R)
| PyDict (d : dict R).

(** What the process does to the outside world, in order. *)
Inductive io_event : Type :=
| ReadFile (path : string)
| Print (text : string) (args : list pyval).

(** [TRANSFORM] as [load_model] builds it. *)
Definition inference_transform : list transform :=
  [ Resize 224 224; ToTensor; Normalize imagenet_mean imagenet_std ].

Section Service.
Context {Img Tensor G : Type} `{V : Vision Img Tensor} `{RNG : TorchRandom G}.

(** PIL: [Image.open] on a path and on a byte buffer, and [convert('RGB')]
    (which forces the decode). *)
Variable Image_open : string -> result Img.
Variable Image_open_buffer : list Byte.byte -> result Img.
Variable convert_RGB : Img -> result Img.

(** The network's forward pass on one preprocessed image (the batch
    dimension added by [unsqueeze(0)] is left implicit): one score per
    output of the head. *)
Variable forward : module -> Tensor -> list R.

(** The module globals and the part of the world the service touches. *)
Record state : Type := {
  MODEL : option module;
  DEVICE : option device;
  TRANSFORM : option (list transform);
  cuda_is_available : bool;
  best_model_pth : option state_dict;   (* the checkpoint file, if present *)
  torch_rng : G;
  io : list io_event
}.

(** A fresh interpreter: nothing loaded yet. *)
Definition cold (cuda_ok : bool) (file : option state_dict) (g : G) : state :=
  {| MODEL := None; DEVICE := None; TRANSFORM := None;
     cuda_is_available := cuda_ok; best_model_pth := file;
     torch_rng := g; io := [] |}.

Definition set_MODEL (m : option module) (st : state) : state :=
  {| MODEL := m; DEVICE := DEVICE st; TRANSFORM := TRANSFORM st;
     cuda_is_available := cuda_is_available st;
     best_model_pth := best_model_pth st;
     torch_rng := torch_rng st; io := io st |}.

Definition set_DEVICE (d : option device) (st : state) : state :=
  {| MODEL := MODEL st; DEVICE := d; TRANSFORM := TRANSFORM st;
     cuda_is_available := cuda_is_available st;
     best_model_pth := best_model_pth st;
     torch_rng := torch_rng st; io := io st |}.

Definition set_TRANSFORM (t : option (list transform)) (st : state) : state :=
  {| MODEL := MODEL st; DEVICE := DEVICE st; TRANSFORM := t;
     cuda_is_available := cuda_is_available st;
     best_model_pth := best_model_pth st;
     torch_rng := torch_rng st; io := io st |}.

Definition set_rng (g : G) (st : state) : state :=
  {| MODEL := MODEL st; DEVICE := DEVICE st; TRANSFORM := TRANSFORM st;
     cuda_is_available := cuda_is_available st;
     best_model_pth := best_model_pth st;
     torch_rng := g; io := io st |}.

Definition emit (e : io_event) (st : state) : state :=
  {| MODEL := MODEL st; DEVICE := DEVICE st; TRANSFORM := TRANSFORM st;
     cuda_is_available := cuda_is_available st;
     best_model_pth := best_model_pth st;
     torch_rng := torch_rng st; io := io st ++ [e] |}.

(** Apply a method to the object [MODEL] refers to. *)
Definition on_MODEL (f : module -> module) (st : state) : state :=
  set_MODEL (option_map f (MODEL st)) st.

(** [torch.load('best_model.pth', map_location=DEVICE)] *)
Definition torch_load (st : state) : result state_dict * state :=
  match best_model_pth st with
  | None =>
      (Raise (FileNotFoundError
                "[Errno 2] No such file or directory: 'best_model.pth'"), st)
  | Some sd => (Return sd, emit (ReadFile "best_model.pth") st)
  end.

(** [MODEL.load_state_dict(torch.load('best_model.pth', ...))] *)
Definition restore (st : state) : result unit * state :=
  match torch_load st with
  | (Raise e, st') => (Raise e, st')
  | (Return sd, st') =>
      match MODEL st' with
      | None =>
          (Raise (AttributeError
                    "'NoneType' object has no attribute 'load_state_dict'"),
           st')
      | Some m =>
          let '(r, m') := load_state_dict sd m in (r, set_MODEL (Some m') st')
      end
  end.

(** Lines 19-21 of [load_model]: the device and a fresh network. *)
Definition begin_load (st : state) : state :=
  let st := set_DEVICE
              (Some (if cuda_is_available st then cuda else cpu)) st in
  set_MODEL (Some resnet18) st.

(** [MODEL.fc = <new head over MODEL.fc.in_features>]: only a linear layer
    has [in_features]. *)
Definition replace_fc (new_head : head) (st : state) : result unit * state :=
  match MODEL st with
  | None =>
      (Raise (AttributeError "'NoneType' object has no attribute 'fc'"), st)
  | Some m =>
      match fc m with
      | DropoutLinear =>
          (Raise (AttributeError
                    "'Sequential' object has no attribute 'in_features'"), st)
      | Linear1000 | BareLinear =>
          (Return tt, set_MODEL (Some (set_fc new_head m)) st)
      end
  end.

(** One attempt of [load_model]: replace the head, then restore. *)
Definition attempt (new_head : head) (st : state) : result unit * state :=
  match replace_fc new_head st with
  | (Raise e, st') => (Raise e, st')
  | (Return _, st') => restore st'
  end.

(** Lines 23-42 of [load_model]: the head, the weights, the pipeline. *)
Definition finish_load (st : state) : result unit * state :=
  let attempted :=
    (* try: *)
    match attempt BareLinear st with
    | (Raise (RuntimeError _), st') =>
        (* except RuntimeError: *)
        attempt DropoutLinear st'
    | other => other
    end in
  match attempted with
  | (Raise e, st') => (Raise e, st')
  | (Return _, st') =>
      let st' := on_MODEL (to (DEVICE st')) st' in
      let st' := on_MODEL eval st' in
      let st' := set_TRANSFORM (Some inference_transform) st' in
      (Return tt, emit (Print "✓ Model loaded successfully" []) st')
  end.

(** [load_model()] *)
Definition load_model (st : state) : result unit * state :=
  match MODEL st with
  | Some _ => (Return tt, st)                       (* Already loaded *)
  | None => finish_load (begin_load st)
  end.

(** The three representations [predict] accepts, and anything else. *)
Inductive image_input : Type :=
| Path (p : string)                  (* [str] *)
| Image (img : Img)                  (* [PIL.Image.Image] *)
| BytesIO (buf : list Byte.byte)     (* [io.BytesIO] *)
| Other.

(** The [isinstance] chain that yields the RGB image. *)
Definition decode (image_input0 : image_input) : result Img :=
  match image_input0 with
  | Path p => img <- Image_open p ;; convert_RGB img
  | Image img => convert_RGB img
  | BytesIO buf => img <- Image_open_buffer buf ;; convert_RGB img
  | Other => Raise (ValueError "Unsupported image input type")
  end.

(** [TRANSFORM(image)] followed by [.unsqueeze(0).to(DEVICE)].  The move to
    [DEVICE] is not modelled: wherever [load_model] has set [TRANSFORM],
    [DEVICE] is the device it moved [MODEL] to. *)
Definition preprocess (st : state) (image : Img) : result Tensor * state :=
  match TRANSFORM st with
  | None => (Raise (TypeError "'NoneType' object is not callable"), st)
  | Some ts =>
      match compose ts (PIL image) (torch_rng st) with
      | (Raise e, g) => (Raise e, set_rng g st)
      | (Return (Tens t), g) => (Return t, set_rng g st)
      | (Return (PIL _), g) =>
          (Raise (AttributeError "'Image' object has no attribute 'unsqueeze'"),
           set_rng g st)
      end
  end.

Definition success (predicted_class : string) (confidence : R)
    (all_probs : dict R) : dict pyval :=
  [ ("prediction", PyStr predicted_class);
    ("confidence", PyFloat confidence);
    ("all_probabilities", PyDict all_probs) ].

Definition failure (e : exn) : dict pyval :=
  [ ("error", PyStr (str e));
    ("prediction", PyNone);
    ("confidence", PyFloat 0);
    ("all_probabilities", PyDict []) ].

(** The body of the [try] block of [predict]. *)
Definition predict_try (st : state) (image_input0 : image_input)
    (classes : list string) : result (dict pyval) * state :=
  match decode image_input0 with
  | Raise e => (Raise e, st)
  | Return image =>
      match preprocess st image with
      | (Raise e, st') => (Raise e, st')
      | (Return image_tensor, st') =>
          match MODEL st' with
          | None => (Raise (TypeError "'NoneType' object is not callable"), st')
          | Some m =>
              let outputs := forward m image_tensor in
              let probabilities := softmax outputs in
              let predicted := argmax outputs in
              match nth_error classes predicted with
              | None => (Raise (IndexError "list index out of range"), st')
              | Some predicted_class =>
                  let confidence := nth predicted probabilities 0%R in
                  let all_probs := dict_of_pairs (zip classes probabilities) in
                  (Return (success predicted_class confidence all_probs), st')
              end
          end
      end
  end.

(** [if MODEL is None: load_model()] *)
Definition ensure_loaded (st : state) : result unit * state :=
  match MODEL st with
  | None => load_model st
  | Some _ => (Return tt, st)
  end.

(** [predict(image_input, classes)] *)
Definition predict (st : state) (image_input0 : image_input)
    (classes : list string) : result (dict pyval) * state :=
  let '(loaded, st) := ensure_loaded st in
  match loaded with
  | Raise e => (Raise e, st)      (* raised before the [try] is entered *)
  | Return _ =>
      match predict_try st image_input0 classes with
      | (Return d, st') => (Return d, st')
      | (Raise e, st') => (Return (failure e), st')   (* except Exception *)
      end
  end.

(** [main(image_obj, classes)] *)
Definition main (st : state) (image_obj : image_input)
    (classes : list string) : result (dict pyval) * state :=
  match predict st image_obj classes with
  | (Raise e, st') => (Raise e, st')
  | (Return result0, st') =>
      let st' :=
        if dict_has "error" result0 then
          emit (Print "Error: {}"
                  (match dict_get "error" result0 with
                   | Some v => [v] | None => [] end)) st'
        else
          let field k := match dict_get k result0 with
                         | Some v => [v] | None => [] end in
          let st' := emit (Print "Prediction: {}" (field "prediction")) st' in
          let st' :=
            emit (Print "Confidence: {:.3f}" (field "confidence")) st' in
          let st' := emit (Print "All probabilities:" []) st' in
          match dict_get "all_probabilities" result0 with
          | Some (PyDict probs) =>
              fold_left (fun s kv =>
                           emit (Print "  {}: {:.3f}"
                                   [PyStr (fst kv); PyFloat (snd kv)]) s)
                        probs st'
          | _ => st'
          end in
      (Return result0, st')
  end.

(** *** Two callers in one process

    Where a thread stands in the load step of [predict]; another thread may
    run between any two of these points. *)
Inductive position : Type :=
| at_predict_test                 (* line 59: [if MODEL is None] *)
| at_load_test                    (* line 16: [if MODEL is not None] *)
| at_begin_load                   (* lines 19-21 *)
| at_finish_load                  (* lines 23-42 *)
| at_try (loaded : result unit).  (* the load step is over *)

Definition load_step (pc : position) (st : state) : position * state :=
  match pc with
  | at_predict_test =>
      (match MODEL st with
       | None => at_load_test
       | Some _ => at_try (Return tt)
       end, st)
  | at_load_test =>
      (match MODEL st with
       | Some _ => at_try (Return tt)
       | None => at_begin_load
       end, st)
  | at_begin_load => (at_finish_load, begin_load st)
  | at_finish_load =>
      let '(r, st') := finish_load st in (at_try r, st')
  | at_try r => (at_try r, st)
  end.

(** Two threads over the shared globals; a schedule says who moves next
    ([false] the first thread, [true] the second). *)
Fixpoint interleave (schedule : list bool) (pc1 pc2 : position) (st : state)
  : position * position * state :=
  match schedule with
  | [] => (pc1, pc2, st)
  | false :: rest =>
      let '(pc1', st') := load_step pc1 st in interleave rest pc1' pc2 st'
  | true :: rest =>
      let '(pc2', st') := load_step pc2 st in interleave rest pc1 pc2' st'
  end.

(** The states of a process that calls [predict] one call after another. *)
Inductive reachable : state -> Prop :=
| reach_cold (cuda_ok : bool) (file : option state_dict) (g : G) :
    reachable (cold cuda_ok file g)
| reach_predict (st : state) (image_input0 : image_input)
    (classes : list string) :
    reachable st -> reachable (snd (predict st image_input0 classes)).

End Service.

(** How often the checkpoint file was read. *)
Definition count_reads (trace : list io_event) : nat :=
  List.length (filter (fun e => match e with
                                | ReadFile _ => true
                                | Print _ _ => false
                                end) trace).

End Outputs.

(** ** [cnn.py]: dataset indexing, splitting and the training loop *)

Module Cnn.

Import Transforms ResNet Scores.

(** *** The dataset directory *)

(** What [os.path.exists] and [os.listdir] see at a path. *)
Inductive node : Type :=
| RegularFile
| Directory (entries : list string).

(** A file system maps a path to what is there, if anything. *)
Definition filesystem : Type := string -> option node.

Definition image_extensions : list string := [".jpg"; ".jpeg"; ".png"].

(** [os.listdir(path)] *)
Definition listdir (fs : filesystem) (path : string) : result (list string) :=
  match fs path with
  | Some (Directory entries) => Return entries
  | Some RegularFile => Raise (NotADirectoryError "[Errno 20] Not a directory")
  | None => Raise (FileNotFoundError "[Errno 2] No such file or directory")
  end.

(** [os.path.exists(path)] *)
Definition exists_ (fs : filesystem) (path : string) : bool :=
  match fs path with Some _ => true | None => false end.

Record SimpleDataset : Type := {
  transform : list Transforms.transform;
  images : list string;
  labels : list nat;
  classes : list string
}.

(** The body of the loop over [enumerate(self.classes)]: the samples one
    class contributes. *)
Definition scan_class (fs : filesystem) (data_dir : string) (class_idx : nat)
    (class_name : string) : result (list (string * nat)) :=
  let class_path := path_join data_dir class_name in
  if exists_ fs class_path then
    files <- listdir fs class_path ;;
    Return (map (fun img_file => (path_join class_path img_file, class_idx))
                (filter (fun img_file => endswith_any img_file image_extensions)
                        files))
  else Return [].

Fixpoint scan_classes (fs : filesystem) (data_dir : string) (class_idx : nat)
    (class_names : list string) : result (list (string * nat)) :=
  match class_names with
  | [] => Return []
  | class_name :: rest =>
      found <- scan_class fs data_dir class_idx class_name ;;
      others <- scan_classes fs data_dir (S class_idx) rest ;;
      Return (found ++ others)
  end.

(** What the training script prints or writes. *)
Inductive event (Snapshot : Type) : Type :=
| PrintFound (n : nat)                          (* "Found {n} images" *)
| PrintSplit (train_size test_size : nat)       (* "Train: .., Val: .." *)
| PrintTrainable (trainable total : Z)         (* "Trainable params: .. / .." *)
| PrintEpoch (i epochs : nat)                   (* "Epoch {i+1}/{epochs}:" *)
| PrintAccuracy (train_acc val_acc : Q)
| Save (sd : Snapshot)            (* torch.save(state_dict, 'best_model.pth') *)
| PrintNewBest (best_acc : Q)
| PrintDone (best_acc : Q).
Arguments PrintFound {Snapshot} n.
Arguments PrintSplit {Snapshot} train_size test_size.
Arguments PrintTrainable {Snapshot} trainable total.
Arguments PrintEpoch {Snapshot} i epochs.
Arguments PrintAccuracy {Snapshot} train_acc val_acc.
Arguments Save {Snapshot} sd.
Arguments PrintNewBest {Snapshot} best_acc.
Arguments PrintDone {Snapshot} best_acc.

(** [SimpleDataset.__init__]: the dataset and the number it reports. *)
Definition SimpleDataset_init (fs : filesystem) (data_dir : string)
    (class_names : list string) (tr : list Transforms.transform)
  : result (SimpleDataset * nat) :=
  samples <- scan_classes fs data_dir 0 class_names ;;
  let ds := {| transform := tr; images := map fst samples;
               labels := map snd samples; classes := class_names |} in
  Return (ds, List.length (images ds)).

(** [len(dataset)] *)
Definition len (ds : SimpleDataset) : nat := List.length (images ds).

(** *** Splitting *)

(** [int(0.8 * n)].  The double nearest to 0.8 exceeds 4/5 by a factor of
    [1 + 2^-54], so the rounded product truncates to the floor of [4n/5] for
    every length below [2^52]. *)
Definition train_size_of (n : nat) : nat := Z.to_nat (4 * Z.of_nat n / 5).

(** The same in binary64 arithmetic, for comparison: the product with the
    double nearest to 0.8, truncated towards zero. *)
Definition float_trunc (x : float) : Z :=
  match Prim2SF x with
  | S754_finite negative m e =>
      let magnitude :=
        if (0 <=? e)%Z then (Z.pos m * 2 ^ e)%Z
        else (Z.pos m / 2 ^ (- e))%Z in
      if negative then (- magnitude)%Z else magnitude
  | _ => 0%Z
  end.

Definition train_size_binary64 (n : nat) : nat :=
  Z.to_nat (float_trunc
              (0x1.999999999999ap-1 * of_uint63 (Uint63.of_Z (Z.of_nat n)))).


(** Consecutive slices of the shuffled indices, one per requested length. *)
Fixpoint slices (lengths : list nat) (indices : list nat) : list (list nat) :=
  match lengths with
  | [] => []
  | l :: ls => firstn l indices :: slices ls (skipn l indices)
  end.

Section Split.
Context {G : Type} `{RNG : TorchRandom G}.

(** [torch.utils.data.random_split(dataset, lengths)] with integer lengths:
    each subset is a list of indices into the dataset. *)
Definition random_split (dataset_len : nat) (lengths : list nat) (g : G)
  : result (list (list nat)) * G :=
  if (list_sum lengths =? dataset_len)%nat then
    let '(indices, g') := randperm (list_sum lengths) g in
    (Return (slices lengths indices), g')
  else
    (Raise (ValueError
       "Sum of input lengths does not equal the length of the input dataset!"),
     g).

(** A [DataLoader] over a subset of the dataset. *)
Record DataLoader : Type := {
  subset : list nat;
  batch_size : nat;
  shuffle : bool
}.

(** [DataLoader(subset, batch_size=.., shuffle=..)].  A shuffling loader
    builds a [RandomSampler], which refuses a subset without samples; every
    loader builds a [BatchSampler], which refuses a batch size of 0. *)
Definition no_samples_error : exn :=
  ValueError ("num_samples should be a positive integer value, "
              ++ "but got num_samples=0").

Definition batch_size_error : exn :=
  ValueError ("batch_size should be a positive integer value, "
              ++ "but got batch_size=0").

Definition DataLoader_init (subset0 : list nat) (batch_size0 : nat)
    (shuffle0 : bool) : result DataLoader :=
  if shuffle0 && (List.length subset0 =? 0)%nat then Raise no_samples_error
  else if (batch_size0 =? 0)%nat then Raise batch_size_error
  else
    Return {| subset := subset0; batch_size := batch_size0;
              shuffle := shuffle0 |}.

(** [Model.setup_data(batch_size)]: the two loaders and the sizes printed. *)
Definition setup_data (fs : filesystem) (dir_path : string)
    (class_names : list string) (tr : list Transforms.transform)
    (batch_size0 : nat) (g : G)
  : result (SimpleDataset * DataLoader * DataLoader * (nat * nat)) * G :=
  match SimpleDataset_init fs dir_path class_names tr with
  | Raise e => (Raise e, g)
  | Return (dataset, _) =>
      let train_size := train_size_of (len dataset) in
      let test_size := len dataset - train_size in
      match random_split (len dataset) [train_size; test_size] g with
      | (Return [train; test], g') =>
          match DataLoader_init train batch_size0 true with
          | Raise e => (Raise e, g')
          | Return train_loader =>
              match DataLoader_init test batch_size0 false with
              | Raise e => (Raise e, g')
              | Return val_loader =>
                  (Return (dataset, train_loader, val_loader,
                           (train_size, test_size)), g')
              end
          end
      | (Return _, g') =>
          (Raise (ValueError "not enough values to unpack"), g')
      | (Raise e, g') => (Raise e, g')
      end
  end.

(** The samples a loader draws from. *)
Definition samples_of (ds : SimpleDataset) (indices : list nat)
  : list (string * nat) :=
  map (fun i => (nth i (images ds) "", nth i (labels ds) 0)) indices.

End Split.

(** [self.transform] of [Model.__init__]: the augmenting pipeline. *)
Definition training_transform : list Transforms.transform :=
  [ Resize 256 256;
    RandomCrop 224;
    RandomHorizontalFlip 0.5%Q;
    RandomRotation 15%Q;
    ColorJitter 0.4%Q 0.4%Q 0.4%Q 0.1%Q;
    RandomGrayscale 0.1%Q;
    ToTensor;
    Normalize imagenet_mean imagenet_std ].

(** *** The model, its parameters and the optimiser *)

Section Training.
(** Tensor contents, gradients and mini-batches are torch's. *)
Context {D Gr B : Type}.

Record parameter : Type := {
  p_name : string;
  p_shape : list nat;
  requires_grad : bool;
  data : D;
  grad : option Gr
}.

Definition network : Type := list parameter.

Definition set_requires_grad (b : bool) (p : parameter) : parameter :=
  {| p_name := p_name p; p_shape := p_shape p; requires_grad := b;
     data := data p; grad := grad p |}.

Definition set_grad (g : option Gr) (p : parameter) : parameter :=
  {| p_name := p_name p; p_shape := p_shape p;
     requires_grad := requires_grad p; data := data p; grad := g |}.

Definition set_data (d : D) (p : parameter) : parameter :=
  {| p_name := p_name p; p_shape := p_shape p;
     requires_grad := requires_grad p; data := d; grad := grad p |}.

(** [models.resnet18(weights='IMAGENET1K_V1')] with [fc] replaced by
    dropout and a three-way linear layer; [initial] gives each tensor's
    starting contents.  Every parameter starts out trainable. *)
Definition Model_network (initial : string -> D) : network :=
  map (fun e => {| p_name := name e; p_shape := shape e;
                   requires_grad := true; data := initial (name e);
                   grad := None |})
      (named_parameters DropoutLinear).

(** [p.numel()] *)
Definition numel (p : parameter) : Z :=
  fold_right Z.mul 1%Z (map Z.of_nat (p_shape p)).

Definition total_numel (net : network) : Z :=
  fold_right Z.add 0%Z (map numel net).

(** The test of [freeze_layers] on a parameter's name. *)
Definition unfrozen (param_name : string) : bool :=
  contains "layer4" param_name || contains "fc" param_name.

(** [Model.freeze_layers()]: the new flags and the two counts it prints. *)
Definition freeze_layers (net : network) : network * (Z * Z) :=
  let net' := map (fun p => set_requires_grad (unfrozen (p_name p)) p) net in
  let trainable := total_numel (filter requires_grad net') in
  let total := total_numel net' in
  (net', (trainable, total)).

(** [torch.optim.Adam(params, lr)]: the optimiser refers to the parameter
    objects it was given, here by name. *)
Record Adam : Type := {
  param_group : list string;
  lr : Q
}.

(** [torch.optim.Adam(self.model.parameters(), lr=0.0001)] *)
Definition make_optimizer (net : network) : Adam :=
  {| param_group := map p_name net; lr := 0.0001%Q |}.

Definition in_group (opt : Adam) (p : parameter) : bool :=
  existsb (String.eqb (p_name p)) (param_group opt).

(** [optimizer.zero_grad()] *)
Definition zero_grad (opt : Adam) (net : network) : network :=
  map (fun p => if in_group opt p then set_grad None p else p) net.

(** [loss.backward()]: a gradient reaches exactly the parameters that
    require one. *)
Definition backward (gradient : network -> B -> string -> Gr) (batch : B)
    (net : network) : network :=
  map (fun p => if requires_grad p
                then set_grad (Some (gradient net batch (p_name p))) p
                else p) net.

(** [optimizer.step()]: a parameter without gradient is skipped.  Adam's
    running moments are part of [adam_update]. *)
Definition step (adam_update : Q -> D -> Gr -> D) (opt : Adam) (net : network)
  : network :=
  map (fun p =>
         if in_group opt p then
           match grad p with
           | None => p
           | Some g => set_data (adam_update (lr opt) (data p) g) p
           end
         else p) net.

(** [self.model.state_dict()] restricted to the parameters. *)
Definition snapshot : Type := list (string * D).

Definition state_dict (net : network) : snapshot :=
  map (fun p => (p_name p, data p)) net.

(** *** The training loop *)

(** What torch computes for the loop: gradients, the update rule, the
    batches each pass over a loader yields (reshuffled and re-augmented per
    epoch), and per batch its size, its loss and its number of correct
    predictions under the current weights and mode. *)
Record Torch : Type := {
  gradient : network -> B -> string -> Gr;
  adam_update : Q -> D -> Gr -> D;
  train_loader : nat -> list B;
  val_loader : nat -> list B;
  size : B -> nat;                       (* labels.size(0) *)
  loss_item : network -> B -> Q;         (* loss.item() *)
  correct : bool -> network -> B -> nat (* (predicted == labels).sum().item() *)
}.

Variable torch : Torch.

(** The training pass of one epoch (lines 124-146). *)
Definition train_batch (opt : Adam) (acc : network * Q * nat * nat) (batch : B)
  : network * Q * nat * nat :=
  let '(net, train_loss, train_total, train_correct) := acc in
  let net := zero_grad opt net in
  let pred_correct := correct torch true net batch in
  let loss := loss_item torch net batch in
  let net' := step (adam_update torch) opt
                   (backward (gradient torch) batch net) in
  (net', (train_loss + loss)%Q, train_total + size torch batch,
   train_correct + pred_correct).

Definition train_pass (opt : Adam) (i : nat) (net : network)
  : network * Q * nat * nat :=
  fold_left (train_batch opt) (train_loader torch i) (net, 0%Q, 0, 0).

(** The evaluation pass (lines 148-161): totals and correct predictions. *)
Definition eval_pass (i : nat) (net : network) : nat * nat :=
  fold_left (fun acc batch =>
               (fst acc + size torch batch,
                snd acc + correct torch false net batch))
            (val_loader torch i) (0, 0).

(** [100 * correct / total] on Python integers. *)
Definition accuracy (n_correct n_total : nat) : result Q :=
  match n_total with
  | 0 => Raise (ZeroDivisionError "division by zero")
  | S _ => Return (100 * Z.of_nat n_correct # Pos.of_nat n_total)
  end.

(** The weights, the loop's [best_acc], the checkpoint file and the output. *)
Record tstate : Type := {
  net : network;
  training_mode : bool;
  best_acc : Q;
  best_model_pth : option snapshot;
  out : list (event snapshot)
}.

Definition emit (es : list (event snapshot)) (st : tstate) : tstate :=
  {| net := net st; training_mode := training_mode st;
     best_acc := best_acc st; best_model_pth := best_model_pth st;
     out := out st ++ es |}.

Definition with_net (n : network) (mode : bool) (st : tstate) : tstate :=
  {| net := n; training_mode := mode; best_acc := best_acc st;
     best_model_pth := best_model_pth st; out := out st |}.

(** The end of an epoch (lines 163-173). *)
Definition end_of_epoch (epochs i : nat)
    (train_correct train_total val_correct val_total : nat) (st : tstate)
  : result unit * tstate :=
  match accuracy train_correct train_total with
  | Raise e => (Raise e, st)
  | Return train_acc =>
      match accuracy val_correct val_total with
      | Raise e => (Raise e, st)
      | Return val_acc =>
          let st := emit [PrintEpoch (i + 1) epochs;
                          PrintAccuracy train_acc val_acc] st in
          if Qlt_le_dec (best_acc st) val_acc then
            (Return tt,
             {| net := net st; training_mode := training_mode st;
                best_acc := val_acc;
                best_model_pth := Some (state_dict (net st));
                out := out st ++ [Save (state_dict (net st));
                                  PrintNewBest val_acc] |})
          else (Return tt, st)
      end
  end.

(** One iteration of [for i in range(epochs)]. *)
Definition epoch (opt : Adam) (epochs i : nat) (st : tstate)
  : result unit * tstate :=
  let '(net1, _, train_total, train_correct) := train_pass opt i (net st) in
  let '(val_total, val_correct) := eval_pass i net1 in
  end_of_epoch epochs i train_correct train_total val_correct val_total
               (with_net net1 false st).

(** Iterations [i, i+1, ...] of the loop, [todo] of them. *)
Fixpoint epochs_from (opt : Adam) (epochs todo i : nat) (st : tstate)
  : result unit * tstate :=
  match todo with
  | 0 => (Return tt, st)
  | S todo' =>
      match epoch opt epochs i st with
      | (Raise e, st') => (Raise e, st')
      | (Return _, st') => epochs_from opt epochs todo' (S i) st'
      end
  end.

(** [Model.train(epochs)], started on weights [net0] with the checkpoint
    file holding [file]. *)
Definition train (epochs : nat) (net0 : network) (file : option snapshot)
  : result unit * tstate :=
  let '(frozen, (trainable, total)) := freeze_layers net0 in
  let optimizer := make_optimizer frozen in
  let st := {| net := frozen; training_mode := true; best_acc := 0%Q;
               best_model_pth := file;
               out := [PrintTrainable trainable total] |} in
  match epochs_from optimizer epochs epochs 0 st with
  | (Raise e, st') => (Raise e, st')
  | (Return _, st') => (Return tt, emit [PrintDone (best_acc st')] st')
  end.

End Training.

(** *** [Model.predict] *)

Section Predict.
Context {Img Tensor G : Type} `{V : Vision Img Tensor} `{RNG : TorchRandom G}.
Context {D Gr : Type}.

Variable Image_open : string -> result Img.
Variable convert_RGB : Img -> result Img.
Variable forward : @network D Gr -> Tensor -> list R.

(** [self.transform(image)]: the pipeline built in [__init__]. *)
Definition Model_transform (image : Img) (g : G) : result Tensor * G :=
  match compose training_transform (PIL image) g with
  | (Raise e, g') => (Raise e, g')
  | (Return (Tens t), g') => (Return t, g')
  | (Return (PIL _), g') =>
      (Raise (AttributeError "'Image' object has no attribute 'unsqueeze'"), g')
  end.

(** [Model.predict(image_path)] *)
Definition Model_predict (net0 : @network D Gr) (class_names : list string)
    (image_path : string) (g : G) : result (string * R) * G :=
  match (img <- Image_open image_path ;; convert_RGB img) with
  | Raise e => (Raise e, g)
  | Return image =>
      match Model_transform image g with
      | (Raise e, g') => (Raise e, g')
      | (Return image_tensor, g') =>
          let outputs := forward net0 image_tensor in
          let predicted := argmax outputs in
          let probs := softmax outputs in
          match nth_error class_names predicted with
          | None => (Raise (IndexError "list index out of range"), g')
          | Some result0 => (Return (result0, nth predicted probs 0%R), g')
          end
      end
  end.

End Predict.

(** *** [SimpleDataset.__getitem__] *)

Section Items.
Context {Img Tensor G : Type} `{V : Vision Img Tensor} `{RNG : TorchRandom G}.

Variable Image_open : string -> result Img.
Variable convert_RGB : Img -> result Img.

(** [dataset[idx]] for an index counted from the front: the decoded and
    transformed image with its label.  The dataset's transform is always a
    [Compose], which is truthy, so it is always applied. *)
Definition getitem (ds : SimpleDataset) (idx : nat) (g : G)
  : result (pic Img Tensor * nat) * G :=
  match nth_error (images ds) idx with
  | None => (Raise (IndexError "list index out of range"), g)
  | Some path =>
      match (img <- Image_open path ;; convert_RGB img) with
      | Raise e => (Raise e, g)
      | Return image =>
          match nth_error (labels ds) idx with
          | None => (Raise (IndexError "list index out of range"), g)
          | Some label =>
              match compose (transform ds) (PIL image) g with
              | (Raise e, g') => (Raise e, g')
              | (Return x, g') => (Return (x, label), g')
              end
          end
      end
  end.

End Items.

(** *** The script's [main] *)

(** [fs] with [n] at [path]. *)
Definition put (path : string) (n : node) (fs : filesystem) : filesystem :=
  fun p => if String.eqb p path then Some n else fs p.

(** [os.mkdir(os.path.join(head, tail))] inside the directory [head], which
    lists [entries], as [os.makedirs] with [exist_ok=True] runs it: an
    existing directory is left alone, an existing regular file is an error
    ([FileExistsError], an [OSError]), otherwise an empty directory appears
    and [head] lists it. *)
Definition mkdir_in (fs : filesystem) (head : string) (entries : list string)
    (tail : string) : result filesystem :=
  match fs (path_join head tail) with
  | Some (Directory _) => Return fs
  | Some RegularFile => Raise (OSError "[Errno 17] File exists")
  | None =>
      Return (put (path_join head tail) (Directory [])
                  (put head (Directory (entries ++ [tail])) fs))
  end.

(** [os.makedirs(os.path.join(head, tail), exist_ok=True)] for a relative
    [head] of one component: [head] is created when it is missing, and a
    regular file in its place is an error. *)
Definition makedirs (fs : filesystem) (head tail : string)
  : result filesystem :=
  match fs head with
  | Some RegularFile =>
      Raise (NotADirectoryError "[Errno 20] Not a directory")
  | Some (Directory entries) => mkdir_in fs head entries tail
  | None => mkdir_in (put head (Directory []) fs) head [] tail
  end.

(** The first loop of [main]; what was created stays when a later folder
    fails. *)
Fixpoint makedirs_all (fs : filesystem) (data_dir : string)
    (folders : list string) : result unit * filesystem :=
  match folders with
  | [] => (Return tt, fs)
  | folder :: rest =>
      match makedirs fs data_dir folder with
      | Raise e => (Raise e, fs)
      | Return fs' => makedirs_all fs' data_dir rest
      end
  end.

(** What [main] prints before it trains. *)
Inductive notice : Type :=
| Line (text : string)
| CountLine (folder : string) (count : nat).   (* "{folder}: {count} images" *)

(** The counting loop of [main], from a running total: the total, or the
    error that ends the loop, and the lines printed until then. *)
Fixpoint count_images (fs : filesystem) (data_dir : string)
    (folders : list string) (total_images : nat)
  : result nat * list notice :=
  match folders with
  | [] => (Return total_images, [])
  | folder :: rest =>
      let path := path_join data_dir folder in
      if exists_ fs path then
        match listdir fs path with
        | Raise e => (Raise e, [])
        | Return files =>
            let count :=
              List.length
                (filter (fun f => endswith_any f image_extensions) files) in
            let '(r, lines) :=
              count_images fs data_dir rest (total_images + count) in
            (r, CountLine folder count :: lines)
        end
      else count_images fs data_dir rest total_images
  end.

Definition main_classes : list string := ["Safe"; "Cautious"; "Dangerous"].

Definition main_banner : list notice :=
  [ Line "Put your images in:";
    Line "  data/safe/       - safe distance images";
    Line "  data/too_close/  - too close images";
    Line "  data/danger/     - danger images";
    Line "" ].

Definition main_epilogue : list notice :=
  [ Line "";
    Line "Model saved as 'best_model.pth'";
    Line "Test it:";
    Line "result, confidence = model.predict('test.jpg')" ].

Section Script.
(** What happens from [Model(data_dir, classes)] on, given the file system
    [main] has prepared: the model is built and trained for 12 epochs. *)
Context {World : Type}.
Variable build_and_train :
  filesystem -> string -> list string -> World -> result unit * World.

(** [cnn.main()]: the file system it leaves, the lines [main] itself
    printed, and whether it went on to build and train. *)
Definition main (fs : filesystem) (w : World)
  : result bool * filesystem * list notice * World :=
  match makedirs_all fs "data" main_classes with
  | (Raise e, fs1) => (Raise e, fs1, [], w)
  | (Return _, fs1) =>
      match count_images fs1 "data" main_classes 0 with
      | (Raise e, counts) => (Raise e, fs1, main_banner ++ counts, w)
      | (Return total_images, counts) =>
          if (total_images =? 0)%nat then
            (Return false, fs1,
             main_banner ++ counts
             ++ [Line "No images found! Add some images first."], w)
          else
            match build_and_train fs1 "data" main_classes w with
            | (Raise e, w') => (Raise e, fs1, main_banner ++ counts, w')
            | (Return _, w') =>
                (Return true, fs1,
                 main_banner ++ counts ++ main_epilogue, w')
            end
      end
  end.

End Script.


End Cnn.

(** ** [app.py]: the HTTP endpoints *)

Module App.

Import Transforms ResNet Scores Outputs.

(** An uploaded file of a multipart request. *)
Record file_storage : Type := {
  filename : option string;
  content : list Byte.byte
}.

(** The part of [flask.request] the handler reads. *)
Record request : Type := {
  files : dict file_storage
}.

(** A JSON body with its status code.  The body is the dictionary handed to
    [jsonify]; the order of its keys is the dictionary's, not that of the
    serialised text, in which Flask sorts them. *)
Record response : Type := {
  body : dict pyval;
  status : nat
}.

(** [jsonify({'error': message}), code] *)
Definition error_response (message : string) (code : nat) : response :=
  {| body := [("error", PyStr message)]; status := code |}.

(** [health_check()] *)
Definition health_check : response :=
  {| body := [("status", PyStr "healthy")]; status := 200 |}.

(** The labels the handler passes on. *)
Definition classes : list string := ["safe"; "too_close"; "danger"].

Section Handler.
Context {Img Tensor G : Type} `{V : Vision Img Tensor} `{RNG : TorchRandom G}.
Variable Image_open : string -> result Img.
Variable Image_open_buffer : list Byte.byte -> result Img.
Variable convert_RGB : Img -> result Img.
Variable forward : module -> Tensor -> list R.

(** [analyze_image()]: the response, and the service's globals afterwards. *)
Definition analyze_image (st : @state G) (req : request)
  : response * @state G :=
  match dict_get "image" (files req) with
  | None => (error_response "No image provided" 400, st)
  | Some file =>
      match filename file with
      | Some "" => (error_response "No file selected" 400, st)
      | _ =>
          let image_bytes := content file in
          match Image_open_buffer image_bytes with
          | Raise e => (error_response (str e) 500, st)
          | Return image =>
              match main Image_open Image_open_buffer convert_RGB forward
                         st (Image image) classes with
              | (Raise e, st') => (error_response (str e) 500, st')
              | (Return result0, st') =>
                  ({| body := result0; status := 200 |}, st')
              end
          end
      end
  end.

End Handler.

End App.

(** ** Reference descriptions used in the statements *)

Module Spec.

Import Cnn.

(** The samples one class subdirectory holds: its image files in listing
    order, labelled with the class index; nothing when the subdirectory is
    not there. *)
Definition class_samples (fs : filesystem) (data_dir : string)
    (class_idx : nat) (class_name : string) : list (string * nat) :=
  match fs (path_join data_dir class_name) with
  | Some (Directory files) =>
      map (fun f => (path_join (path_join data_dir class_name) f, class_idx))
          (filter (fun f => endswith_any f image_extensions) files)
  | _ => []
  end.

(** The index of a dataset directory: the classes' samples, class by class,
    numbered from [class_idx]. *)
Fixpoint index_from (fs : filesystem) (data_dir : string) (class_idx : nat)
    (class_names : list string) : list (string * nat) :=
  match class_names with
  | [] => []
  | c :: rest =>
      class_samples fs data_dir class_idx c
      ++ index_from fs data_dir (S class_idx) rest
  end.

(** The best validation accuracy among the epochs seen, starting from the
    loop's initial record of 0. *)
Definition best_so_far (seen : list Q) : Q := fold_left Qmax seen 0%Q.

(** What [Model.train] computes epoch by epoch, whatever it records. *)
Section TrainingSpec.
Context {D Gr B : Type}.
Variable torch : @Torch D Gr B.

Record observation : Type := {
  weights_after : @network D Gr;      (* after the epoch's training pass *)
  train_accuracy : result Q;
  val_accuracy : result Q
}.

Definition observe (opt : Adam) (i : nat) (net0 : @network D Gr)
  : observation :=
  let '(net1, _, train_total, train_correct) := train_pass torch opt i net0 in
  let '(val_total, val_correct) := eval_pass torch i net1 in
  {| weights_after := net1;
     train_accuracy := accuracy train_correct train_total;
     val_accuracy := accuracy val_correct val_total |}.

(** The observations of epochs [i, i+1, ...], [todo] of them. *)
Fixpoint observations (opt : Adam) (todo i : nat) (net0 : @network D Gr)
  : list observation :=
  match todo with
  | 0 => []
  | S todo' =>
      let o := observe opt i net0 in
      o :: observations opt todo' (S i) (weights_after o)
  end.

(** The epochs that reach their end: those before the first one whose
    training or validation pass saw no sample. *)
Fixpoint completed (obs : list observation)
  : list (@network D Gr * Q * Q) :=
  match obs with
  | [] => []
  | o :: rest =>
      match train_accuracy o, val_accuracy o with
      | Return train_acc, Return val_acc =>
          (weights_after o, train_acc, val_acc) :: completed rest
      | _, _ => []
      end
  end.

(** What the completed epochs print and write: the checkpoint is saved in an
    epoch exactly when its validation accuracy is strictly above the best of
    the epochs [seen] before it. *)
Fixpoint expected_out (epochs i : nat) (seen : list Q)
    (done : list (@network D Gr * Q * Q)) : list (event (@snapshot D)) :=
  match done with
  | [] => []
  | (net1, train_acc, val_acc) :: rest =>
      [PrintEpoch (i + 1) epochs; PrintAccuracy train_acc val_acc]
      ++ (if Qlt_le_dec (best_so_far seen) val_acc
          then [Save (state_dict net1); PrintNewBest val_acc]
          else [])
      ++ expected_out epochs (S i) (seen ++ [val_acc]) rest
  end.

(** The checkpoint file after the completed epochs: the weights of the last
    epoch that improved on all before it, else what was there. *)
Fixpoint expected_file (file : option (@snapshot D)) (seen : list Q)
    (done : list (@network D Gr * Q * Q)) : option (@snapshot D) :=
  match done with
  | [] => file
  | (net1, _, val_acc) :: rest =>
      expected_file (if Qlt_le_dec (best_so_far seen) val_acc
                     then Some (state_dict net1) else file)
                    (seen ++ [val_acc]) rest
  end.

(** [after] has the parameters of [before], one for one and under the same
    names and shapes, flagged by the freezing rule, and with the contents of
    [before] wherever the rule freezes. *)
Definition agrees_when_frozen (before after : @network D Gr) : Prop :=
  Forall2 (fun p p' =>
             p_name p' = p_name p
             /\ p_shape p' = p_shape p
             /\ requires_grad p' = unfrozen (p_name p)
             /\ (unfrozen (p_name p) = false -> data p' = data p))
          before after.

End TrainingSpec.

(** Names for the states and outcomes of the inference service. *)
Section ServiceSpec.
Import Transforms ResNet Outputs.
Context {Img Tensor G : Type} `{V : Vision Img Tensor}.

(** The module [load_model] leaves in [MODEL] after a successful restore. *)
Definition restored (h : head) (sd : state_dict) (d : device) : module :=
  {| fc := h; params := fully_loaded sd; on_device := Some d;
     training := false |}.

Definition shape_error : exn :=
  RuntimeError "Error(s) in loading state_dict for ResNet".

Definition missing_file_error : exn :=
  FileNotFoundError "[Errno 2] No such file or directory: 'best_model.pth'".

(** The tensor [TRANSFORM] makes of a decoded image. *)
Definition inference_tensor (image : Img) : Tensor :=
  normalize imagenet_mean imagenet_std
            (to_tensor (pil_apply (F_resize 224 224) image)).

(** The device [load_model] selects. *)
Definition chosen_device (st : @Outputs.state G) : device :=
  if cuda_is_available st then cuda else cpu.

(** [load_model] has succeeded: a three-way head and the preprocessing
    pipeline are in place. *)
Definition ready (st : @Outputs.state G) : Prop :=
  exists m, MODEL st = Some m
            /\ out_features (fc m) = 3
            /\ TRANSFORM st = Some inference_transform.

(** Nothing is loaded yet and the checkpoint file holds one of the two head
    shapes. *)
Definition loadable (st : @Outputs.state G) : Prop :=
  MODEL st = None
  /\ exists sd, best_model_pth st = Some sd
                /\ (matches (state_dict_of BareLinear) sd = true
                    \/ matches (state_dict_of DropoutLinear) sd = true).

Definition serviceable (st : @Outputs.state G) : Prop :=
  ready st \/ loadable st.

(** [MODEL] is set, and [TRANSFORM] is unset or the inference pipeline. *)
Definition settled (st : @Outputs.state G) : Prop :=
  MODEL st <> None
  /\ (TRANSFORM st = None \/ TRANSFORM st = Some inference_transform).

(** How often the load step reads a checkpoint file. *)
Definition reads_of (file : option state_dict) : nat :=
  match file with
  | None => 0
  | Some sd => if matches (state_dict_of BareLinear) sd then 1 else 2
  end.

(** The lines [main] prints for a result. *)
Definition report (result0 : dict pyval) : list io_event :=
  match dict_get "error" result0 with
  | Some message => [Print "Error: {}" [message]]
  | None =>
      [ Print "Prediction: {}"
              (match dict_get "prediction" result0 with
               | Some v => [v] | None => [] end);
        Print "Confidence: {:.3f}"
              (match dict_get "confidence" result0 with
               | Some v => [v] | None => [] end);
        Print "All probabilities:" [] ]
      ++ match dict_get "all_probabilities" result0 with
         | Some (PyDict probs) =>
             map (fun kv => Print "  {}: {:.3f}"
                                  [PyStr (fst kv); PyFloat (snd kv)]) probs
         | _ => []
         end
  end.

(** A request that carries, under [image], a named file that PIL opens. *)
Definition valid_upload (Image_open_buffer : list Byte.byte -> result Img)
    (req : App.request) (image : Img) : Prop :=
  exists file,
    dict_get "image" (App.files req) = Some file
    /\ App.filename file <> Some ""
    /\ Image_open_buffer (App.content file) = Return image.

End ServiceSpec.

End Spec.

(** ** Concrete inputs for the examples *)

Module Examples.

Import Transforms ResNet Cnn.

(** The three class directories that [cnn.main] creates, before any image
    is put into them. *)
Definition empty_corpus : filesystem :=
  fun path =>
    if String.eqb path "data/Safe" then Some (Directory ["notes.txt"])
    else if String.eqb path "data/Cautious" then Some (Directory [])
    else if String.eqb path "data/Dangerous" then Some (Directory [])
    else None.

(** A corpus where one class directory is missing, one is empty and one
    holds two images and a text file. *)
Definition small_corpus : filesystem :=
  fun path =>
    if String.eqb path "data/safe"
    then Some (Directory ["a.jpg"; "readme.txt"; "b.png"])
    else if String.eqb path "data/danger" then Some (Directory [])
    else None.

(** A generator whose permutations are the reversed ranges. *)
#[export] Instance reversing_rng : TorchRandom unit := {
  rand := fun g => (0%Q, g);
  randint := fun lo _ g => (lo, g);
  uniform := fun a _ g => (a, g);
  randperm := fun n g => (rev (seq 0 n), g)
}.

(** One class directory with a hundred images. *)
Definition hundred_files : list string :=
  map (fun i => String (ascii_of_nat (97 + i / 10))
                       (String (ascii_of_nat (97 + i mod 10)) ".jpg"))
      (seq 0 100).

Definition hundred_corpus : filesystem :=
  fun path =>
    if String.eqb path "data/safe" then Some (Directory hundred_files)
    else None.

Definition hundred_dataset : SimpleDataset :=
  {| transform := training_transform;
     images := map (path_join "data/safe") hundred_files;
     labels := repeat 0 100;
     classes := ["safe"] |}.

(** A run of four epochs with validation accuracies 50, 50, 75 and 0: the
    checkpoint is saved after the first and the third only. *)
Definition four_epochs : @Torch unit unit nat :=
  {| gradient := fun _ _ _ => tt;
     adam_update := fun _ d _ => d;
     train_loader := fun _ => [4];
     val_loader := fun i => [nth i [2; 2; 3; 0] 0];
     size := fun _ => 4;
     loss_item := fun _ _ => 0%Q;
     correct := fun _ _ n_correct => n_correct |}.

(** Images as grids of grey levels on which only the horizontal flip acts;
    every image counts as 256 by 256. *)
#[export] Instance grid_vision : Vision (list (list nat)) (list (list nat)) := {
  pil_apply := fun f img => match f with
                            | F_hflip => map (@rev nat) img
                            | _ => img
                            end;
  tensor_apply := fun _ t => t;
  pil_dimensions := fun _ => (3, 256, 256);
  tensor_dimensions := fun _ => (3, 224, 224);
  to_tensor := fun img => img;
  normalize := fun _ _ t => t
}.

(** A generator that hands out the numbers of a list, then zeros. *)
Definition next_draw (g : list Q) : Q * list Q := (hd 0%Q g, tl g).

#[export] Instance queue_rng : TorchRandom (list Q) := {
  rand := next_draw;
  randint := fun lo _ g => (lo, snd (next_draw g));
  uniform := fun a _ g => (a, snd (next_draw g));
  randperm := fun n g => (seq 0 n, g)
}.

(** A decoder that accepts every path and every [PIL] image, and no byte
    buffer. *)
Definition open_any (path : string) : result (list (list nat)) :=
  Return [[1; 2]; [3; 4]].

Definition open_none (buf : list Byte.byte) : result (list (list nat)) :=
  Raise (UnidentifiedImageError "cannot identify image file").

Definition keep_RGB (img : list (list nat)) : result (list (list nat)) :=
  Return img.

(** A network whose scores are all zero. *)
Definition flat_scores (m : Outputs.module) (x : list (list nat)) : list R :=
  repeat 0%R (out_features (Outputs.fc m)).

(** The labels [app.py] passes. *)
Definition app_labels : list string := ["safe"; "too_close"; "danger"].

(** The checkpoint [cnn.py] saves: its head is the dropout-wrapped one. *)
Definition trained_checkpoint : ResNet.state_dict :=
  state_dict_of DropoutLinear.

(** A process that has not predicted yet, next to that checkpoint. *)
Definition fresh_process : @Outputs.state (list Q) :=
  Outputs.cold false (Some trained_checkpoint) [].

(** [predict] and [main] over these collaborators. *)
Definition demo_predict :=
  @Outputs.predict _ _ _ grid_vision queue_rng
                   open_any open_none keep_RGB flat_scores.

Definition demo_main :=
  @Outputs.main _ _ _ grid_vision queue_rng
                open_any open_none keep_RGB flat_scores.

Definition demo_predict_try :=
  @Outputs.predict_try _ _ _ grid_vision queue_rng
                       open_any open_none keep_RGB flat_scores.

(** What PIL says of bytes that are no image. *)
Definition not_an_image : exn :=
  UnidentifiedImageError "cannot identify image file".

(** A decoder for byte buffers that accepts everything. *)
Definition open_every (buf : list Byte.byte) : result (list (list nat)) :=
  Return [[1; 2]; [3; 4]].

(** An upload named [road.jpg]. *)
Definition road_upload : App.request :=
  {| App.files := [("image", {| App.filename := Some "road.jpg";
                                App.content := [] |})] |}.


(** A process that has not predicted yet, with no checkpoint file. *)
Definition no_checkpoint_process : @Outputs.state (list Q) :=
  Outputs.cold false None [].

(** What [SimpleDataset] makes of [small_corpus]. *)
Definition small_dataset : SimpleDataset :=
  {| transform := training_transform;
     images := ["data/safe/a.jpg"; "data/safe/b.png"];
     labels := [0; 0];
     classes := ["safe"; "too_close"; "danger"] |}.





(** A trained network, as [Model.predict] sees it, whose scores are all
    zero. *)
Definition even_scores (n : @network unit unit) (x : list (list nat))
  : list R :=
  [0%R; 0%R; 0%R].

End Examples.

(** ** Facts about [cnn.py] *)

Module CnnFacts.

Import Transforms ResNet Cnn Spec Examples.

(** *** Indexing *)

Lemma scan_class_spec fs data_dir class_idx class_name :
  fs (path_join data_dir class_name) <> Some RegularFile ->
  scan_class fs data_dir class_idx class_name
  = Return (class_samples fs data_dir class_idx class_name).
Proof.
  intros Hdir. unfold scan_class, class_samples, exists_, listdir.
  destruct (fs (path_join data_dir class_name)) as [[|files]|]; simpl;
    [congruence | reflexivity | reflexivity].
Qed.

Lemma scan_classes_spec fs data_dir class_names :
  (forall c, In c class_names ->
             fs (path_join data_dir c) <> Some RegularFile) ->
  forall class_idx,
    scan_classes fs data_dir class_idx class_names
    = Return (index_from fs data_dir class_idx class_names).
Proof.
  induction class_names as [|c rest IH]; intros Hdirs class_idx; simpl.
  - reflexivity.
  - rewrite scan_class_spec by (apply Hdirs; now left). simpl.
    rewrite IH by (intros c' Hc'; apply Hdirs; now right).
    reflexivity.
Qed.

Lemma combine_fst_snd {A B} (l : list (A * B)) :
  combine (map fst l) (map snd l) = l.
Proof.
  induction l as [|[a b] l IH]; simpl; [reflexivity | now rewrite IH].
Qed.

(** A class whose entry is a regular file is the one way indexing fails. *)
Lemma scan_class_on_regular_file fs data_dir class_idx class_name :
  fs (path_join data_dir class_name) = Some RegularFile ->
  scan_class fs data_dir class_idx class_name
  = Raise (NotADirectoryError "[Errno 20] Not a directory").
Proof.
  intros Hfile. unfold scan_class, exists_, listdir. now rewrite Hfile.
Qed.

(** C4, as stated, fails: indexing a corpus without a single image raises
    nothing and returns a dataset of length 0. *)
Lemma empty_corpus_is_indexed_without_error :
  exists ds,
    SimpleDataset_init empty_corpus "data" ["Safe"; "Cautious"; "Dangerous"]
                       training_transform
    = Return (ds, 0)
    /\ len ds = 0.
Proof.
  eexists. split; [vm_compute; reflexivity | reflexivity].
Qed.

(** C4 (amended): indexing never fails for want of samples.  Whenever no
    class entry is a regular file, [SimpleDataset.__init__] returns a dataset
    whose samples are the image files of the class subdirectories that
    exist, in class order; a missing subdirectory contributes nothing, and
    when nothing is found the dataset is empty, not an error. *)
Theorem indexing_skips_missing_and_accepts_empty
    (fs : filesystem) (data_dir : string) (class_names : list string)
    (tr : list Transforms.transform) :
  (forall c, In c class_names ->
             fs (path_join data_dir c) <> Some RegularFile) ->
  exists ds,
    SimpleDataset_init fs data_dir class_names tr
    = Return (ds, List.length (images ds))
    /\ combine (images ds) (labels ds) = index_from fs data_dir 0 class_names
    /\ List.length (labels ds) = List.length (images ds)
    /\ (forall c i, fs (path_join data_dir c) = None ->
                    class_samples fs data_dir i c = [])
    /\ (index_from fs data_dir 0 class_names = [] -> len ds = 0).
Proof.
  intros Hdirs. unfold SimpleDataset_init.
  rewrite (scan_classes_spec fs data_dir class_names Hdirs 0). simpl.
  set (found := index_from fs data_dir 0 class_names).
  exists {| transform := tr; images := map fst found;
            labels := map snd found; classes := class_names |}.
  split; [reflexivity|]. simpl.
  split; [apply combine_fst_snd|].
  split; [now rewrite !length_map|].
  split.
  - intros c i Hmissing. unfold class_samples. now rewrite Hmissing.
  - intros Hnone. unfold len. simpl. fold found in Hnone. now rewrite Hnone.
Qed.

Lemma indexing_skips_missing_and_accepts_empty_witness :
  exists ds,
    SimpleDataset_init small_corpus "data" ["safe"; "too_close"; "danger"]
                       training_transform
    = Return (ds, List.length (images ds))
    /\ combine (images ds) (labels ds)
       = index_from small_corpus "data" 0 ["safe"; "too_close"; "danger"]
    /\ List.length (labels ds) = List.length (images ds)
    /\ (forall c i, small_corpus (path_join "data" c) = None ->
                    class_samples small_corpus "data" i c = [])
    /\ (index_from small_corpus "data" 0 ["safe"; "too_close"; "danger"] = []
        -> len ds = 0).
Proof.
  apply (indexing_skips_missing_and_accepts_empty
           small_corpus "data" ["safe"; "too_close"; "danger"]
           training_transform).
  intros c [<- | [<- | [<- | []]]]; vm_compute; discriminate.
Defined.

Example small_corpus_index :
  index_from small_corpus "data" 0 ["safe"; "too_close"; "danger"]
  = [("data/safe/a.jpg", 0); ("data/safe/b.png", 0)].
Proof. reflexivity. Qed.

(** *** Splitting *)

Lemma train_size_le (n : nat) : train_size_of n <= n.
Proof.
  unfold train_size_of.
  assert (H : (4 * Z.of_nat n / 5 <= Z.of_nat n)%Z)
    by (apply Z.div_le_upper_bound; lia).
  lia.
Qed.

(** The training subset is empty exactly for fewer than two images. *)
Lemma train_size_small (n : nat) : train_size_of n = 0 <-> n < 2.
Proof.
  unfold train_size_of.
  pose proof (Z.div_mod (4 * Z.of_nat n) 5 ltac:(lia)) as Hdiv.
  pose proof (Z.mod_pos_bound (4 * Z.of_nat n) 5 ltac:(lia)) as Hmod.
  assert (0 <= 4 * Z.of_nat n / 5)%Z by (apply Z.div_pos; lia).
  lia.
Qed.

Lemma slices_two (a b : nat) (indices : list nat) :
  List.length indices = a + b ->
  slices [a; b] indices = [firstn a indices; skipn a indices].
Proof.
  intros Hlen. simpl. f_equal. f_equal.
  apply firstn_all2. rewrite length_skipn. lia.
Qed.

Lemma nth_pairs_of_seq {A B} (xs : list A) (ys : list B) (dx : A) (dy : B) :
  List.length ys = List.length xs ->
  map (fun i => (nth i xs dx, nth i ys dy)) (seq 0 (List.length xs))
  = combine xs ys.
Proof.
  revert ys. induction xs as [|x xs IH]; intros [|y ys] Hlen;
    simpl in *; try discriminate; [reflexivity|].
  f_equal. rewrite <- seq_shift, map_map. apply IH. lia.
Qed.

Section SplitFacts.
Context {G : Type} `{RNG : TorchRandom G}.

(** [torch.randperm(n)] returns the numbers below [n] in some order. *)
Hypothesis randperm_permutes :
  forall n g, Permutation (fst (randperm n g)) (seq 0 n).

Lemma random_split_two (n a : nat) (g : G) :
  a <= n ->
  exists indices g',
    randperm n g = (indices, g')
    /\ random_split n [a; n - a] g
       = (Return [firstn a indices; skipn a indices], g').
Proof.
  intros Ha. unfold random_split.
  replace (list_sum [a; n - a]) with n by (simpl; lia).
  rewrite Nat.eqb_refl.
  destruct (randperm n g) as [indices g'] eqn:Hperm.
  exists indices, g'. split; [reflexivity|].
  rewrite slices_two; [reflexivity|].
  pose proof (randperm_permutes n g) as Hp. rewrite Hperm in Hp. simpl in Hp.
  apply Permutation_length in Hp. rewrite length_seq in Hp. lia.
Qed.

(** C8: once the directory is indexed, the split inside [setup_data] cuts
    the dataset's indices into a training and a validation subset that are
    disjoint and together are all indices, so that their samples together
    are exactly the dataset's samples; the training subset has
    [int(0.8 * n)] members and the validation subset the rest, which is 80
    and 20 for 100 samples.  [setup_data] returns loaders over these two
    subsets; it raises instead, after the split, when the training subset is
    empty (fewer than two images) or the batch size is 0. *)
Theorem setup_data_splits_into_partition
    (fs : filesystem) (dir_path : string) (class_names : list string)
    (tr : list Transforms.transform) (batch_size0 : nat) (g : G)
    (ds : SimpleDataset) (found : nat) :
  SimpleDataset_init fs dir_path class_names tr = Return (ds, found) ->
  exists train val g',
    random_split (len ds)
                 [train_size_of (len ds); len ds - train_size_of (len ds)] g
    = (Return [train; val], g')
    /\ NoDup (train ++ val)
    /\ Permutation (train ++ val) (seq 0 (len ds))
    /\ Permutation (samples_of ds train ++ samples_of ds val)
                   (combine (images ds) (labels ds))
    /\ List.length train = train_size_of (len ds)
    /\ List.length val = len ds - train_size_of (len ds)
    /\ (len ds = 100 -> List.length train = 80 /\ List.length val = 20)
    /\ setup_data fs dir_path class_names tr batch_size0 g
       = if (len ds <? 2)%nat then
           (Raise no_samples_error, g')
         else if (batch_size0 =? 0)%nat then
           (Raise batch_size_error, g')
         else
           (Return (ds,
                    {| subset := train; batch_size := batch_size0;
                       shuffle := true |},
                    {| subset := val; batch_size := batch_size0;
                       shuffle := false |},
                    (train_size_of (len ds),
                     len ds - train_size_of (len ds))), g').
Proof.
  intros Hinit. unfold setup_data. rewrite Hinit.
  destruct (random_split_two (len ds) (train_size_of (len ds)) g
              (train_size_le _)) as (indices & g' & Hperm & Hsplit).
  rewrite Hsplit.
  pose proof (randperm_permutes (len ds) g) as Hp.
  rewrite Hperm in Hp. simpl in Hp.
  assert (Hlen : List.length indices = len ds)
    by (apply Permutation_length in Hp; now rewrite length_seq in Hp).
  do 3 eexists. split; [reflexivity|].
  rewrite firstn_skipn.
  assert (Hlabels : List.length (labels ds) = List.length (images ds)).
  { unfold SimpleDataset_init in Hinit.
    destruct (scan_classes fs dir_path 0 class_names) as [samples|];
      simpl in Hinit; [|discriminate].
    injection Hinit as <- _. simpl. now rewrite !length_map. }
  assert (Htrain : List.length (firstn (train_size_of (len ds)) indices)
                   = train_size_of (len ds)).
  { rewrite length_firstn, Hlen. pose proof (train_size_le (len ds)). lia. }
  assert (Hval : List.length (skipn (train_size_of (len ds)) indices)
                 = len ds - train_size_of (len ds)).
  { rewrite length_skipn, Hlen. reflexivity. }
  split; [apply (Permutation_NoDup (Permutation_sym Hp)), seq_NoDup|].
  split; [exact Hp|].
  split.
  { unfold samples_of. rewrite <- map_app, firstn_skipn.
    rewrite <- (nth_pairs_of_seq (images ds) (labels ds) "" 0 Hlabels).
    apply Permutation_map. exact Hp. }
  split; [exact Htrain|]. split; [exact Hval|].
  split; [intros H; rewrite Htrain, Hval, H; split; reflexivity|].
  unfold DataLoader_init. rewrite Htrain. cbn [andb].
  pose proof (train_size_small (len ds)) as Hsmall.
  destruct (Nat.ltb_spec (len ds) 2) as [Hlt | Hge].
  - rewrite (proj2 Hsmall Hlt). reflexivity.
  - destruct (Nat.eqb_spec (train_size_of (len ds)) 0) as [Hzero | _];
      [apply Hsmall in Hzero; lia|].
    now destruct (batch_size0 =? 0)%nat.
Qed.

End SplitFacts.

Lemma setup_data_splits_into_partition_witness :
  exists train val g',
    random_split (len hundred_dataset)
                 [train_size_of (len hundred_dataset);
                  len hundred_dataset - train_size_of (len hundred_dataset)]
                 tt
    = (Return [train; val], g')
    /\ NoDup (train ++ val)
    /\ Permutation (train ++ val) (seq 0 (len hundred_dataset))
    /\ Permutation
         (samples_of hundred_dataset train ++ samples_of hundred_dataset val)
         (combine (images hundred_dataset) (labels hundred_dataset))
    /\ List.length train = train_size_of (len hundred_dataset)
    /\ List.length val
       = len hundred_dataset - train_size_of (len hundred_dataset)
    /\ (len hundred_dataset = 100 ->
        List.length train = 80 /\ List.length val = 20)
    /\ setup_data hundred_corpus "data" ["safe"] training_transform 16 tt
       = if (len hundred_dataset <? 2)%nat then
           (Raise no_samples_error, g')
         else if (16 =? 0)%nat then
           (Raise batch_size_error, g')
         else
           (Return (hundred_dataset,
                    {| subset := train; batch_size := 16; shuffle := true |},
                    {| subset := val; batch_size := 16; shuffle := false |},
                    (train_size_of (len hundred_dataset),
                     len hundred_dataset
                     - train_size_of (len hundred_dataset))), g').
Proof.
  apply (@setup_data_splits_into_partition unit reversing_rng
           (fun n g => Permutation_sym (Permutation_rev (seq 0 n)))
           hundred_corpus "data" ["safe"] training_transform 16 tt
           hundred_dataset 100).
  vm_compute. reflexivity.
Defined.

Example hundred_dataset_length : len hundred_dataset = 100.
Proof. reflexivity. Qed.

Example train_size_of_100 : train_size_of 100 = 80.
Proof. reflexivity. Qed.

(** The integer formula agrees with the binary64 computation on every
    dataset size up to 4000. *)
Example train_size_agrees_with_binary64 :
  forallb (fun n => (train_size_binary64 n =? train_size_of n)%nat)
          (seq 0 4001)
  = true.
Proof. vm_compute. reflexivity. Qed.

(** *** Freezing and the optimiser *)

Section FreezeFacts.
Context {D Gr B : Type}.

Lemma freeze_layers_flags (net : @network D Gr) (p : parameter) :
  In p (fst (freeze_layers net)) ->
  requires_grad p = unfrozen (p_name p).
Proof.
  unfold freeze_layers. simpl. rewrite in_map_iff.
  intros (q & <- & _). reflexivity.
Qed.

(** One optimisation step ([zero_grad], [backward], [step]) maps over the
    parameters and keeps the contents of those that need no gradient. *)
Lemma step_keeps_frozen (gradient : @network D Gr -> B -> string -> Gr)
    (adam_update : Q -> D -> Gr -> D) (opt : Adam) (batch : B)
    (net : @network D Gr) (p' : parameter) :
  In p' (step adam_update opt (backward gradient batch (zero_grad opt net))) ->
  requires_grad p' = false ->
  exists p, In p net /\ p_name p' = p_name p /\ data p' = data p.
Proof.
  unfold step, backward, zero_grad.
  set (gr := gradient _ batch). clearbody gr.
  rewrite !map_map, in_map_iff. intros (p & Hp' & Hin) Hfrozen.
  exists p. split; [exact Hin|]. subst p'. revert Hfrozen.
  unfold in_group, set_grad, set_data.
  destruct (existsb (String.eqb (p_name p)) (param_group opt)) eqn:Hgroup;
    destruct (requires_grad p) eqn:Hrg; cbn;
    rewrite ?Hgroup, ?Hrg; cbn; rewrite ?Hgroup; cbn;
    try discriminate; auto.
Qed.

Lemma Model_network_data (initial : string -> D) (p : parameter) :
  In p (fst (freeze_layers (@Model_network D Gr initial))) ->
  data p = initial (p_name p).
Proof.
  unfold freeze_layers, Model_network. cbn [fst].
  rewrite map_map, in_map_iff. intros (e & <- & _). reflexivity.
Qed.

(** C6 (amended): [freeze_layers] leaves trainable exactly the parameters of
    the last backbone stage ([layer4]) and of the new head ([fc]), and
    freezes the stem and the stages [layer1] to [layer3]; the optimiser is
    Adam with learning rate 0.0001 over all 62 parameters of the model,
    frozen ones included, and a step of it never changes a frozen parameter
    (a parameter without gradient is skipped). *)
Theorem freeze_policy_and_optimizer (initial : string -> D) :
  let frozen := fst (freeze_layers (@Model_network D Gr initial)) in
  let optimizer := make_optimizer frozen in
  map p_name (filter requires_grad frozen)
  = map name (filter is_param
                (stage "layer4" 256 512 true ++ head_entries DropoutLinear))
  /\ map p_name (filter (fun p => negb (requires_grad p)) frozen)
     = map name (filter is_param
                   (stem ++ stage "layer1" 64 64 false
                    ++ stage "layer2" 64 128 true
                    ++ stage "layer3" 128 256 true))
  /\ snd (freeze_layers (@Model_network D Gr initial))
     = (8395267%Z, 11178051%Z)
  /\ param_group optimizer = map p_name frozen
  /\ List.length (param_group optimizer) = 62
  /\ lr optimizer = 0.0001%Q
  /\ forall (gradient : @network D Gr -> B -> string -> Gr)
            (adam_update : Q -> D -> Gr -> D) (batch : B) (p : parameter),
       In p (step adam_update optimizer
               (backward gradient batch (zero_grad optimizer frozen))) ->
       requires_grad p = false ->
       data p = initial (p_name p).
Proof.
  cbv zeta.
  split; [reflexivity|]. split; [reflexivity|]. split; [reflexivity|].
  split; [reflexivity|]. split; [reflexivity|]. split; [reflexivity|].
  intros gradient adam_update batch p Hin Hfrozen.
  destruct (step_keeps_frozen gradient adam_update _ batch _ p Hin Hfrozen)
    as (q & Hq & Hname & Hdata).
  rewrite Hdata, Hname. now apply Model_network_data.
Qed.

End FreezeFacts.

(** C6, as stated, fails: the optimiser is built from
    [self.model.parameters()], so its group holds frozen parameters too,
    here the first convolution of the stem. *)
Lemma optimizer_group_holds_frozen_parameter :
  let frozen := fst (freeze_layers (@Model_network unit unit (fun _ => tt))) in
  ~ (forall p, In p frozen ->
               in_group (make_optimizer frozen) p = true ->
               requires_grad p = true).
Proof.
  cbv zeta. intros Hall.
  specialize (Hall {| p_name := "conv1.weight"; p_shape := [64; 3; 7; 7];
                      requires_grad := false; data := tt; grad := None |}).
  assert (Hgoal : false = true); [|discriminate].
  apply Hall; [left; reflexivity | reflexivity].
Qed.

(** *** The training loop and the checkpoint *)

Lemma Qmax_by_cases (best val_acc : Q) :
  Qmax best val_acc = if Qlt_le_dec best val_acc then val_acc else best.
Proof.
  unfold Qmax, GenericMinMax.gmax.
  destruct (Qlt_le_dec best val_acc) as [Hlt | Hle].
  - destruct (best ?= val_acc)%Q eqn:Hcmp; try reflexivity;
      apply (proj1 (Qlt_alt _ _)) in Hlt; congruence.
  - destruct (best ?= val_acc)%Q eqn:Hcmp; try reflexivity.
    apply Qlt_alt in Hcmp. exfalso. exact (Qle_not_lt _ _ Hle Hcmp).
Qed.

Lemma best_so_far_snoc (seen : list Q) (val_acc : Q) :
  best_so_far (seen ++ [val_acc]) = Qmax (best_so_far seen) val_acc.
Proof. unfold best_so_far. now rewrite fold_left_app. Qed.

(** [best_so_far] is the maximum of 0 and the accuracies seen. *)
Lemma best_so_far_is_maximum (seen : list Q) :
  (0 <= best_so_far seen)%Q
  /\ (forall a, In a seen -> (a <= best_so_far seen)%Q)
  /\ (best_so_far seen = 0%Q \/ In (best_so_far seen) seen).
Proof.
  induction seen as [|a seen IH] using rev_ind.
  - split; [apply Qle_refl|]. split; [intros a []|now left].
  - destruct IH as (H0 & Hub & Hmem).
    rewrite best_so_far_snoc, Qmax_by_cases.
    destruct (Qlt_le_dec (best_so_far seen) a) as [Hlt | Hle].
    + split; [apply Qlt_le_weak; eapply Qle_lt_trans; eassumption|].
      split.
      * intros b Hb. apply in_app_or in Hb. destruct Hb as [Hb | [<- | []]].
        -- apply Qlt_le_weak. eapply Qle_lt_trans; [apply Hub, Hb | exact Hlt].
        -- apply Qle_refl.
      * right. apply in_or_app. right. now left.
    + split; [exact H0|]. split.
      * intros b Hb. apply in_app_or in Hb. destruct Hb as [Hb | [<- | []]].
        -- now apply Hub.
        -- exact Hle.
      * destruct Hmem as [Hz | Hin]; [now left|].
        right. apply in_or_app. now left.
Qed.

Section TrainFacts.
Context {D Gr B : Type}.
Variable torch : @Torch D Gr B.

Lemma epochs_from_spec (opt : Adam) (epochs : nat) :
  forall (todo i : nat) (st : tstate) (seen : list Q),
    best_acc st = best_so_far seen ->
    let done := completed (observations torch opt todo i (net st)) in
    let run := epochs_from torch opt epochs todo i st in
    (fst run = Return tt <-> List.length done = todo)
    /\ out (snd run) = out st ++ expected_out epochs i seen done
    /\ best_model_pth (snd run)
       = expected_file (best_model_pth st) seen done
    /\ best_acc (snd run) = best_so_far (seen ++ map snd done).
Proof.
  induction todo as [|todo IH]; intros i st seen Hbest; cbn zeta.
  - simpl. rewrite !app_nil_r. repeat split; auto.
  - cbn [observations epochs_from completed]. unfold epoch, observe.
    destruct (train_pass torch opt i (net st))
      as [[[net1 train_loss] train_total] train_correct].
    destruct (eval_pass torch i net1) as [val_total val_correct].
    cbn [weights_after train_accuracy val_accuracy].
    unfold end_of_epoch.
    destruct (accuracy train_correct train_total) as [train_acc | e].
    2:{ simpl. rewrite !app_nil_r. repeat split; auto; discriminate. }
    destruct (accuracy val_correct val_total) as [val_acc | e].
    2:{ simpl. rewrite !app_nil_r. repeat split; auto; discriminate. }
    cbn [emit with_net best_acc net training_mode best_model_pth out].
    rewrite Hbest.
    destruct (Qlt_le_dec (best_so_far seen) val_acc) as [Hlt | Hle].
    + set (st1 := {| net := net1; training_mode := false;
                     best_acc := val_acc;
                     best_model_pth := Some (state_dict net1);
                     out := _ |}).
      assert (Hbest1 : best_acc st1 = best_so_far (seen ++ [val_acc])).
      { rewrite best_so_far_snoc, Qmax_by_cases.
        destruct (Qlt_le_dec (best_so_far seen) val_acc) as [_ | Hle];
          [reflexivity|].
        exfalso. exact (Qle_not_lt _ _ Hle Hlt). }
      specialize (IH (S i) st1 (seen ++ [val_acc]) Hbest1).
      cbn zeta in IH. change (net st1) with net1 in IH.
      destruct IH as (Hret & Hout & Hfile & Hacc).
      cbn [expected_out expected_file List.length map snd].
      destruct (Qlt_le_dec (best_so_far seen) val_acc) as [_ | Hle];
        [|exfalso; exact (Qle_not_lt _ _ Hle Hlt)].
      destruct (epochs_from torch opt epochs todo (S i) st1) as [[[]|e] st2];
        cbn [fst snd] in *.
      * repeat split; auto.
        -- intros _. f_equal. now apply Hret.
        -- rewrite Hout. subst st1. cbn [out]. now rewrite <- !app_assoc.
        -- rewrite Hacc. now rewrite <- app_assoc.
      * repeat split; auto.
        -- discriminate.
        -- intros Hlen. injection Hlen as Hlen. apply Hret in Hlen.
           discriminate.
        -- rewrite Hout. subst st1. cbn [out]. now rewrite <- !app_assoc.
        -- rewrite Hacc. now rewrite <- app_assoc.
    + set (st1 := emit _ (with_net net1 false st)).
      assert (Hbest1 : best_acc st1 = best_so_far (seen ++ [val_acc])).
      { change (best_acc st1) with (best_acc st).
        rewrite Hbest, best_so_far_snoc, Qmax_by_cases.
        destruct (Qlt_le_dec (best_so_far seen) val_acc) as [Hlt | _];
          [|reflexivity].
        exfalso. exact (Qle_not_lt _ _ Hle Hlt). }
      specialize (IH (S i) st1 (seen ++ [val_acc]) Hbest1).
      cbn zeta in IH. change (net st1) with net1 in IH.
      change (best_model_pth st1) with (best_model_pth st) in IH.
      destruct IH as (Hret & Hout & Hfile & Hacc).
      cbn [expected_out expected_file List.length map snd].
      destruct (Qlt_le_dec (best_so_far seen) val_acc) as [Hlt | _];
        [exfalso; exact (Qle_not_lt _ _ Hle Hlt)|].
      destruct (epochs_from torch opt epochs todo (S i) st1) as [[[]|e] st2];
        cbn [fst snd] in *.
      * repeat split; auto.
        -- intros _. f_equal. now apply Hret.
        -- rewrite Hout. subst st1. cbn [out emit with_net].
           now rewrite <- !app_assoc.
        -- rewrite Hacc. now rewrite <- app_assoc.
      * repeat split; auto.
        -- discriminate.
        -- intros Hlen. injection Hlen as Hlen. apply Hret in Hlen.
           discriminate.
        -- rewrite Hout. subst st1. cbn [out emit with_net].
           now rewrite <- !app_assoc.
        -- rewrite Hacc. now rewrite <- app_assoc.
Qed.

(** C7: over a whole run of [Model.train], the checkpoint is saved at the
    end of an epoch exactly when that epoch's validation accuracy is strictly
    above the best of the epochs before it (the record starts at 0), the
    record is raised to it in the same step, and nothing else writes the
    file: the output is, epoch by epoch, the two report lines followed by a
    save and its notice under that condition only; the file ends as the
    weights of the last improving epoch, or untouched if there is none; the
    record ends as the best accuracy of the run.  A run stops at the first
    epoch whose loaders yield no sample. *)
Theorem checkpoint_saved_iff_strict_improvement
    (epochs : nat) (net0 : @network D Gr) (file : option (@snapshot D)) :
  let frozen := fst (freeze_layers net0) in
  let done :=
    completed (observations torch (make_optimizer frozen) epochs 0 frozen) in
  let run := train torch epochs net0 file in
  (fst run = Return tt <-> List.length done = epochs)
  /\ out (snd run)
     = [PrintTrainable (fst (snd (freeze_layers net0)))
                       (snd (snd (freeze_layers net0)))]
       ++ expected_out epochs 0 [] done
       ++ (if raised (fst run) then []
           else [PrintDone (best_so_far (map snd done))])
  /\ best_model_pth (snd run) = expected_file file [] done
  /\ best_acc (snd run) = best_so_far (map snd done).
Proof.
  cbn zeta. unfold train.
  destruct (freeze_layers net0) as [frozen [trainable total]] eqn:Hfreeze.
  cbn [fst snd].
  set (st0 := {| net := frozen; training_mode := true; best_acc := 0%Q;
                 best_model_pth := file;
                 out := [PrintTrainable trainable total] |}).
  destruct (epochs_from_spec (make_optimizer frozen) epochs epochs 0 st0 []
              eq_refl) as (Hret & Hout & Hfile & Hacc).
  cbn zeta in *. change (net st0) with frozen in *.
  destruct (epochs_from torch (make_optimizer frozen) epochs epochs 0 st0)
    as [[[]|e] st1]; cbn [fst snd raised emit out best_model_pth best_acc] in *.
  - repeat split; auto.
    + apply Hret.
    + rewrite Hout, Hacc. subst st0. cbn [out app]. reflexivity.
  - repeat split; auto.
    + discriminate.
    + intros Hlen. apply Hret in Hlen. discriminate.
    + rewrite Hout. subst st0. cbn [out app]. now rewrite app_nil_r.
Qed.

End TrainFacts.

Example four_epochs_run :
  out (snd (train four_epochs 4 [] None))
  = [ PrintTrainable 0 0;
      PrintEpoch 1 4; PrintAccuracy (400 # 4) (200 # 4);
      Save []; PrintNewBest (200 # 4);
      PrintEpoch 2 4; PrintAccuracy (400 # 4) (200 # 4);
      PrintEpoch 3 4; PrintAccuracy (400 # 4) (300 # 4);
      Save []; PrintNewBest (300 # 4);
      PrintEpoch 4 4; PrintAccuracy (400 # 4) (0 # 4);
      PrintDone (300 # 4) ].
Proof. reflexivity. Qed.

(** A validation subset without samples stops the run with a division by
    zero and leaves the checkpoint file as it was. *)
Example empty_validation_run :
  let torch := {| gradient := fun _ _ _ => tt;
                  adam_update := fun (_ : Q) (d : unit) (_ : unit) => d;
                  train_loader := fun _ => [4];
                  val_loader := fun _ => [];
                  size := fun _ : nat => 4;
                  loss_item := fun _ _ => 0%Q;
                  correct := fun _ _ n_correct => n_correct |} in
  fst (train torch 3 [] (Some [("fc.1.bias", tt)]))
  = Raise (ZeroDivisionError "division by zero")
  /\ best_model_pth (snd (train torch 3 [] (Some [("fc.1.bias", tt)])))
     = Some [("fc.1.bias", tt)].
Proof. split; reflexivity. Qed.

(** *** Preprocessing in [Model.predict] *)

Section FlipFacts.
Context {Img Tensor G : Type} `{V : Vision Img Tensor} `{RNG : TorchRandom G}.

(** Whether [RandomHorizontalFlip] mirrors the image is decided by a draw. *)
Lemma random_flip_follows_draw (p : Q) (x : pic Img Tensor) (g : G) :
  apply_transform (RandomHorizontalFlip p) x g
  = (Return (if Qlt_le_dec (fst (rand g)) p then F F_hflip x else x),
     snd (rand g)).
Proof.
  simpl. destruct (rand g) as [u g1]. simpl.
  now destruct (Qlt_le_dec u p).
Qed.

End FlipFacts.

(** C5 (the code departs from it): [Model.predict] preprocesses with
    [self.transform], the augmenting pipeline of training, so the same image
    yields different tensors under different states of the random generator:
    here mirrored when the flip's draw is 0 and unchanged when it is 1. *)
Theorem model_predict_preprocessing_is_randomized :
  existsb is_random training_transform = true
  /\ fst (Model_transform [[1; 2]; [3; 4]] [0; 0; 0]%Q)
     = Return [[2; 1]; [4; 3]]
  /\ fst (Model_transform [[1; 2]; [3; 4]] [0; 0; 1]%Q)
     = Return [[1; 2]; [3; 4]].
Proof. repeat split. Qed.

End CnnFacts.

(** ** Facts about dictionaries and scores *)

Module PyFacts.

Lemma dict_set_fresh {V} (k : string) (v : V) (d : dict V) :
  ~ In k (map fst d) -> dict_set k v d = d ++ [(k, v)].
Proof.
  induction d as [|[k' v'] d IH]; simpl; intros Hfresh; [reflexivity|].
  destruct (String.eqb_spec k k') as [-> | Hne].
  - exfalso. apply Hfresh. now left.
  - rewrite IH; [reflexivity|]. intros Hin. apply Hfresh. now right.
Qed.

Lemma fold_dict_set_distinct {V} (pairs : list (string * V)) :
  forall d : dict V,
    NoDup (map fst d ++ map fst pairs) ->
    fold_left (fun d kv => dict_set (fst kv) (snd kv) d) pairs d = d ++ pairs.
Proof.
  induction pairs as [|[k v] pairs IH]; intros d Hnodup; simpl.
  - now rewrite app_nil_r.
  - simpl in Hnodup. rewrite dict_set_fresh.
    + rewrite IH.
      * now rewrite <- app_assoc.
      * rewrite map_app. simpl. rewrite <- app_assoc. exact Hnodup.
    + apply NoDup_remove_2 in Hnodup. intros Hin. apply Hnodup.
      apply in_or_app. now left.
Qed.

(** A comprehension over pairs with distinct keys keeps every pair. *)
Lemma dict_of_pairs_distinct {V} (pairs : list (string * V)) :
  NoDup (map fst pairs) -> dict_of_pairs pairs = pairs.
Proof.
  intros Hnodup. unfold dict_of_pairs.
  now rewrite fold_dict_set_distinct.
Qed.

(** A comprehension never has more entries than pairs. *)
Lemma dict_set_length {V} (k : string) (v : V) (d : dict V) :
  List.length (dict_set k v d) <= S (List.length d).
Proof.
  induction d as [|[k' v'] d IH]; simpl; [lia|].
  destruct (String.eqb k k'); simpl; lia.
Qed.

Lemma dict_of_pairs_length {V} (pairs : list (string * V)) :
  List.length (dict_of_pairs pairs) <= List.length pairs.
Proof.
  unfold dict_of_pairs.
  assert (H : forall d : dict V,
             List.length (fold_left
                            (fun d kv => dict_set (fst kv) (snd kv) d) pairs d)
             <= List.length d + List.length pairs).
  { induction pairs as [|kv pairs IH]; intros d; simpl; [lia|].
    specialize (IH (dict_set (fst kv) (snd kv) d)).
    pose proof (dict_set_length (fst kv) (snd kv) d). lia. }
  apply (H []).
Qed.

Lemma dict_get_in {V} (k : string) (v : V) (d : dict V) :
  NoDup (map fst d) -> In (k, v) d -> dict_get k d = Some v.
Proof.
  induction d as [|[k' v'] d IH]; simpl; intros Hnodup Hin; [easy|].
  inversion Hnodup as [|? ? Hfresh Hrest]; subst.
  destruct Hin as [Heq | Hin].
  - injection Heq as -> ->. now rewrite String.eqb_refl.
  - destruct (String.eqb_spec k k') as [-> | Hne].
    + exfalso. apply Hfresh. apply (in_map fst) in Hin. exact Hin.
    + now apply IH.
Qed.

Example endswith_examples :
  endswith "road.jpg" ".jpg" = true
  /\ endswith "jpg" ".jpg" = false
  /\ endswith_any "road.JPG" [".jpg"; ".jpeg"; ".png"] = false
  /\ endswith_any "road.jpeg" [".jpg"; ".jpeg"; ".png"] = true.
Proof. repeat split. Qed.

Example contains_examples :
  contains "fc" "fc.1.weight" = true
  /\ contains "layer4" "layer4.0.bn1.bias" = true
  /\ contains "layer4" "layer3.1.conv2.weight" = false
  /\ contains "fc" "conv1.weight" = false.
Proof. repeat split. Qed.

Example path_join_examples :
  path_join "data" "safe" = "data/safe"
  /\ path_join "data/" "safe" = "data/safe"
  /\ path_join "data" "/abs" = "/abs"
  /\ path_join "" "safe" = "safe".
Proof. repeat split. Qed.

End PyFacts.

Module ScoresFacts.

Import Scores.
Local Open Scope R_scope.

Lemma total_scaled (f : R -> R) (s : R) (xs : list R) :
  total (map (fun x => f x / s) xs) = total (map f xs) / s.
Proof.
  induction xs as [|x xs IH]; simpl.
  - unfold Rdiv. now rewrite Rmult_0_l.
  - rewrite IH. unfold Rdiv. now rewrite Rmult_plus_distr_r.
Qed.

Lemma total_exp_positive (xs : list R) :
  xs <> [] -> 0 < total (map exp xs).
Proof.
  destruct xs as [|x xs]; [congruence|]. intros _. simpl.
  assert (H : 0 <= total (map exp xs)).
  { induction xs as [|y ys IH]; simpl; [lra|].
    pose proof (exp_pos y). lra. }
  pose proof (exp_pos x). lra.
Qed.

Lemma softmax_length (xs : list R) :
  List.length (softmax xs) = List.length xs.
Proof. unfold softmax. apply length_map. Qed.

(** The probabilities of a non-empty row of scores sum to one. *)
Lemma softmax_total (xs : list R) : xs <> [] -> total (softmax xs) = 1.
Proof.
  intros Hne. unfold softmax. rewrite total_scaled.
  pose proof (total_exp_positive xs Hne). field. lra.
Qed.

Lemma argmax_from_monotone (f : R -> R) :
  (forall a b, a < b <-> f a < f b) ->
  forall xs best_i best i,
    argmax_from best_i (f best) i (map f xs) = argmax_from best_i best i xs.
Proof.
  intros Hmono. induction xs as [|x xs IH]; intros best_i best i; simpl;
    [reflexivity|].
  destruct (Rlt_dec (f best) (f x)) as [Hlt | Hnlt];
    destruct (Rlt_dec best x) as [Hlt' | Hnlt']; try apply IH.
  - exfalso. apply Hnlt'. exact (proj2 (Hmono best x) Hlt).
  - exfalso. apply Hnlt. exact (proj1 (Hmono best x) Hlt').
Qed.

(** The largest probability sits where the largest score does. *)
Lemma argmax_softmax (xs : list R) : argmax (softmax xs) = argmax xs.
Proof.
  destruct xs as [|x xs]; [reflexivity|].
  unfold softmax, argmax. cbn [map].
  set (s := total (map exp (x :: xs))).
  assert (Hs : 0 < s) by (apply total_exp_positive; congruence).
  apply (argmax_from_monotone (fun y => exp y / s)).
  intros a b. split.
  - intros Hab. apply Rmult_lt_compat_r; [now apply Rinv_0_lt_compat|].
    now apply exp_increasing.
  - intros Hfab. apply exp_lt_inv.
    apply (Rmult_lt_reg_r (/ s)); [now apply Rinv_0_lt_compat | exact Hfab].
Qed.

Lemma argmax_from_spec (xs : list R) :
  forall best_i best i,
    let k := argmax_from best_i best i xs in
    (k = best_i /\ forall x, In x xs -> x <= best)
    \/ ((i <= k < i + List.length xs)%nat
        /\ best < nth (k - i) xs 0
        /\ forall x, In x xs -> x <= nth (k - i) xs 0).
Proof.
  induction xs as [|x xs IH]; intros best_i best i; cbn zeta; simpl.
  - left. split; [reflexivity | intros x []].
  - destruct (Rlt_dec best x) as [Hlt | Hnlt].
    + right. destruct (IH i x (S i)) as [[Hk Hall] | (Hk & Hbest & Hall)].
      * rewrite Hk, Nat.sub_diag. cbn [nth].
        split; [lia|]. split; [exact Hlt|].
        intros y [<- | Hy]; [lra | now apply Hall].
      * replace (argmax_from i x (S i) xs - i)%nat
          with (S (argmax_from i x (S i) xs - S i)) by lia.
        cbn [nth]. split; [lia|]. split; [lra|].
        intros y [<- | Hy]; [lra | now apply Hall].
    + destruct (IH best_i best (S i)) as [[Hk Hall] | (Hk & Hbest & Hall)].
      * left. split; [exact Hk|]. intros y [<- | Hy]; [lra | now apply Hall].
      * right.
        replace (argmax_from best_i best (S i) xs - i)%nat
          with (S (argmax_from best_i best (S i) xs - S i)) by lia.
        cbn [nth]. split; [lia|]. split; [exact Hbest|].
        intros y [<- | Hy]; [lra | now apply Hall].
Qed.

(** [argmax] of a non-empty row is an index of the row, and no entry is
    larger than the entry there. *)
Lemma argmax_is_maximal (xs : list R) :
  xs <> [] ->
  (argmax xs < List.length xs)%nat
  /\ forall x, In x xs -> x <= nth (argmax xs) xs 0.
Proof.
  destruct xs as [|x xs]; [congruence|]. intros _. unfold argmax.
  destruct (argmax_from_spec xs 0%nat x 1%nat)
    as [[Hk Hall] | (Hk & Hbest & Hall)]; cbn zeta in *.
  - rewrite Hk. split; [simpl; lia|].
    intros y [<- | Hy]; simpl; [lra | now apply Hall].
  - set (k := argmax_from 0 x 1 xs) in *.
    assert (Hnth : nth k (x :: xs) 0 = nth (k - 1) xs 0).
    { destruct k as [|k']; [lia|]. simpl. now rewrite Nat.sub_0_r. }
    rewrite Hnth. split; [simpl; lia|].
    intros y [<- | Hy]; [lra | now apply Hall].
Qed.

End ScoresFacts.

(** ** Facts about the transforms *)

Module TransformsFacts.

Import Transforms.

Section Determinism.
Context {Img Tensor G : Type} `{V : Vision Img Tensor} `{RNG : TorchRandom G}.

(** A transform that is not random neither reads nor advances the random
    generator. *)
Lemma apply_transform_ignores_generator (t : transform) (x : pic Img Tensor)
    (g g0 : G) :
  is_random t = false ->
  apply_transform t x g = (fst (apply_transform t x g0), g).
Proof.
  destruct t; simpl; try discriminate; intros _;
    try reflexivity; destruct x; reflexivity.
Qed.

(** A pipeline without random transform computes the same result whatever
    the generator's state, and leaves that state alone. *)
Lemma compose_ignores_generator (ts : list transform) :
  forallb (fun t => negb (is_random t)) ts = true ->
  forall (x : pic Img Tensor) (g g0 : G),
    compose ts x g = (fst (compose ts x g0), g).
Proof.
  induction ts as [|t ts IH]; simpl; intros Hdet x g g0; [reflexivity|].
  apply andb_prop in Hdet. destruct Hdet as [Ht Hts].
  apply negb_true_iff in Ht.
  rewrite (apply_transform_ignores_generator t x g g0 Ht).
  rewrite (apply_transform_ignores_generator t x g0 g0 Ht).
  destruct (fst (apply_transform t x g0)) as [y | e]; simpl.
  - apply IH. exact Hts.
  - reflexivity.
Qed.

End Determinism.

End TransformsFacts.

(** ** Facts about [outputs.py] *)

Module OutputsFacts.

Import Transforms ResNet Scores Outputs Spec.

Section ServiceFacts.
Context {Img Tensor G : Type} `{V : Vision Img Tensor} `{RNG : TorchRandom G}.
Variable Image_open : string -> result Img.
Variable Image_open_buffer : list Byte.byte -> result Img.
Variable convert_RGB : Img -> result Img.
Variable forward : module -> Tensor -> list R.

Local Abbreviation decode :=
  (decode Image_open Image_open_buffer convert_RGB).
Local Abbreviation predict_try :=
  (predict_try Image_open Image_open_buffer convert_RGB forward).
Local Abbreviation predict :=
  (predict Image_open Image_open_buffer convert_RGB forward).
Local Abbreviation main :=
  (main Image_open Image_open_buffer convert_RGB forward).
Local Abbreviation reachable :=
  (reachable Image_open Image_open_buffer convert_RGB forward).

Lemma state_eta (st : @state G) :
  {| MODEL := MODEL st; DEVICE := DEVICE st; TRANSFORM := TRANSFORM st;
     cuda_is_available := cuda_is_available st;
     best_model_pth := best_model_pth st;
     torch_rng := torch_rng st; io := io st |} = st.
Proof. now destruct st. Qed.

(** *** Restoring the checkpoint *)

Lemma restore_missing (st : @state G) :
  best_model_pth st = None ->
  restore st = (Raise missing_file_error, st).
Proof. intros Hfile. unfold restore, torch_load. now rewrite Hfile. Qed.

Lemma restore_matching (st : @state G) (m : module) (sd : state_dict) :
  MODEL st = Some m ->
  best_model_pth st = Some sd ->
  matches (state_dict_of (fc m)) sd = true ->
  restore st
  = (Return tt,
     set_MODEL (Some (set_params (fully_loaded sd) m))
               (emit (ReadFile "best_model.pth") st)).
Proof.
  intros Hmodel Hfile Hmatch. unfold restore, torch_load. rewrite Hfile.
  cbn [emit MODEL]. rewrite Hmodel. unfold load_state_dict.
  now rewrite Hmatch.
Qed.

Lemma restore_mismatch (st : @state G) (m : module) (sd : state_dict) :
  MODEL st = Some m ->
  best_model_pth st = Some sd ->
  matches (state_dict_of (fc m)) sd = false ->
  restore st
  = (Raise shape_error,
     set_MODEL (Some (set_params (partially_loaded sd) m))
               (emit (ReadFile "best_model.pth") st)).
Proof.
  intros Hmodel Hfile Hmatch. unfold restore, torch_load. rewrite Hfile.
  cbn [emit MODEL]. rewrite Hmodel. unfold load_state_dict.
  now rewrite Hmatch.
Qed.

(** The checkpoint has the bare-linear head: one read, no fallback. *)
Lemma load_model_bare (st : @state G) (sd : state_dict) :
  MODEL st = None ->
  best_model_pth st = Some sd ->
  matches (state_dict_of BareLinear) sd = true ->
  load_model st
  = (Return tt,
     {| MODEL := Some (restored BareLinear sd (chosen_device st));
        DEVICE := Some (chosen_device st);
        TRANSFORM := Some inference_transform;
        cuda_is_available := cuda_is_available st;
        best_model_pth := best_model_pth st;
        torch_rng := torch_rng st;
        io := (io st ++ [ReadFile "best_model.pth"])
              ++ [Print "✓ Model loaded successfully" []] |}).
Proof.
  intros Hmodel Hfile Hmatch.
  unfold load_model, finish_load, begin_load, attempt. rewrite Hmodel.
  cbn [replace_fc MODEL set_MODEL set_DEVICE fc resnet18].
  rewrite (restore_matching _ (set_fc BareLinear resnet18) sd);
    [reflexivity | reflexivity | exact Hfile | exact Hmatch].
Qed.

(** The checkpoint has the dropout-wrapped head: the bare-linear attempt
    fails on the head's keys and the fallback succeeds, after a second read
    of the file. *)
Lemma load_model_fallback (st : @state G) (sd : state_dict) :
  MODEL st = None ->
  best_model_pth st = Some sd ->
  matches (state_dict_of BareLinear) sd = false ->
  matches (state_dict_of DropoutLinear) sd = true ->
  load_model st
  = (Return tt,
     {| MODEL := Some (restored DropoutLinear sd (chosen_device st));
        DEVICE := Some (chosen_device st);
        TRANSFORM := Some inference_transform;
        cuda_is_available := cuda_is_available st;
        best_model_pth := best_model_pth st;
        torch_rng := torch_rng st;
        io := ((io st ++ [ReadFile "best_model.pth"])
               ++ [ReadFile "best_model.pth"])
              ++ [Print "✓ Model loaded successfully" []] |}).
Proof.
  intros Hmodel Hfile Hbare Hwrapped.
  unfold load_model, finish_load, begin_load, attempt. rewrite Hmodel.
  cbn [replace_fc MODEL set_MODEL set_DEVICE fc resnet18].
  rewrite (restore_mismatch _ (set_fc BareLinear resnet18) sd);
    [| reflexivity | exact Hfile | exact Hbare].
  cbn [shape_error].
  cbn [replace_fc MODEL set_MODEL set_DEVICE emit fc set_params set_fc].
  rewrite (restore_matching _
             (set_fc DropoutLinear
                (set_params (partially_loaded sd) (set_fc BareLinear resnet18)))
             sd);
    [reflexivity | reflexivity | exact Hfile | exact Hwrapped].
Qed.

(** Neither head shape matches: the error of the second attempt leaves
    [load_model], with [MODEL] set and [TRANSFORM] not. *)
Lemma load_model_no_match (st : @state G) (sd : state_dict) :
  MODEL st = None ->
  best_model_pth st = Some sd ->
  matches (state_dict_of BareLinear) sd = false ->
  matches (state_dict_of DropoutLinear) sd = false ->
  load_model st
  = (Raise shape_error,
     {| MODEL := Some {| fc := DropoutLinear; params := partially_loaded sd;
                         on_device := None; training := true |};
        DEVICE := Some (chosen_device st);
        TRANSFORM := TRANSFORM st;
        cuda_is_available := cuda_is_available st;
        best_model_pth := best_model_pth st;
        torch_rng := torch_rng st;
        io := (io st ++ [ReadFile "best_model.pth"])
              ++ [ReadFile "best_model.pth"] |}).
Proof.
  intros Hmodel Hfile Hbare Hwrapped.
  unfold load_model, finish_load, begin_load, attempt. rewrite Hmodel.
  cbn [replace_fc MODEL set_MODEL set_DEVICE fc resnet18].
  rewrite (restore_mismatch _ (set_fc BareLinear resnet18) sd);
    [| reflexivity | exact Hfile | exact Hbare].
  cbn [shape_error].
  cbn [replace_fc MODEL set_MODEL set_DEVICE emit fc set_params set_fc].
  rewrite (restore_mismatch _
             (set_fc DropoutLinear
                (set_params (partially_loaded sd) (set_fc BareLinear resnet18)))
             sd);
    [reflexivity | reflexivity | exact Hfile | exact Hwrapped].
Qed.

(** No checkpoint file: [torch.load] raises, which is no [RuntimeError]. *)
Lemma load_model_missing (st : @state G) :
  MODEL st = None ->
  best_model_pth st = None ->
  load_model st
  = (Raise missing_file_error,
     {| MODEL := Some {| fc := BareLinear; params := random_init;
                         on_device := None; training := true |};
        DEVICE := Some (chosen_device st);
        TRANSFORM := TRANSFORM st;
        cuda_is_available := cuda_is_available st;
        best_model_pth := best_model_pth st;
        torch_rng := torch_rng st;
        io := io st |}).
Proof.
  intros Hmodel Hfile.
  unfold load_model, finish_load, begin_load, attempt. rewrite Hmodel.
  cbn [replace_fc MODEL set_MODEL set_DEVICE fc resnet18].
  rewrite restore_missing by exact Hfile. reflexivity.
Qed.

(** *** States in which a prediction can be made *)

Lemma ensure_loaded_ready (st : @state G) :
  ready st -> ensure_loaded st = (Return tt, st).
Proof.
  intros (m & Hmodel & _). unfold ensure_loaded. now rewrite Hmodel.
Qed.

Lemma ensure_loaded_loadable (st : @state G) :
  loadable st ->
  exists st', ensure_loaded st = (Return tt, st') /\ ready st'.
Proof.
  intros (Hmodel & sd & Hfile & Hshape). unfold ensure_loaded.
  rewrite Hmodel.
  destruct (matches (state_dict_of BareLinear) sd) eqn:Hbare.
  - rewrite (load_model_bare st sd Hmodel Hfile Hbare).
    eexists. split; [reflexivity|].
    eexists. cbn [MODEL TRANSFORM]. repeat split.
  - destruct Hshape as [Habs | Hwrapped]; [discriminate|].
    rewrite (load_model_fallback st sd Hmodel Hfile Hbare Hwrapped).
    eexists. split; [reflexivity|].
    eexists. cbn [MODEL TRANSFORM]. repeat split.
Qed.

Lemma ensure_loaded_serviceable (st : @state G) :
  serviceable st ->
  exists st', ensure_loaded st = (Return tt, st') /\ ready st'.
Proof.
  intros [Hready | Hload].
  - exists st. split; [now apply ensure_loaded_ready | exact Hready].
  - now apply ensure_loaded_loadable.
Qed.

(** *** The [try] block *)

Lemma preprocess_inference (st : @state G) (image : Img) :
  TRANSFORM st = Some inference_transform ->
  preprocess st image = (Return (inference_tensor image), st).
Proof.
  intros Htransform. unfold preprocess. rewrite Htransform.
  cbn. unfold set_rng. now rewrite state_eta.
Qed.

Lemma preprocess_unset (st : @state G) (image : Img) :
  TRANSFORM st = None ->
  preprocess st image
  = (Raise (TypeError "'NoneType' object is not callable"), st).
Proof. intros Htransform. unfold preprocess. now rewrite Htransform. Qed.

Lemma predict_try_decode_failure (st : @state G) (image_input0 : image_input)
    (classes : list string) (e : exn) :
  decode image_input0 = Raise e ->
  predict_try st image_input0 classes = (Raise e, st).
Proof. intros Hdecode. unfold Outputs.predict_try. now rewrite Hdecode. Qed.

Lemma predict_try_ready (st : @state G) (m : module)
    (image_input0 : image_input) (image : Img) (classes : list string) :
  MODEL st = Some m ->
  TRANSFORM st = Some inference_transform ->
  decode image_input0 = Return image ->
  predict_try st image_input0 classes
  = (let outputs := forward m (inference_tensor image) in
     match nth_error classes (argmax outputs) with
     | None => Raise (IndexError "list index out of range")
     | Some predicted_class =>
         Return (success predicted_class
                         (nth (argmax outputs) (softmax outputs) 0%R)
                         (dict_of_pairs (zip classes (softmax outputs))))
     end, st).
Proof.
  intros Hmodel Htransform Hdecode. unfold Outputs.predict_try.
  rewrite Hdecode, (preprocess_inference st image Htransform), Hmodel.
  cbn zeta.
  now destruct
        (nth_error classes (argmax (forward m (inference_tensor image)))).
Qed.

(** The whole of [predict] once the model is, or can be, loaded. *)
Lemma predict_serviceable (st : @state G) (image_input0 : image_input)
    (image : Img) (classes : list string) :
  serviceable st ->
  decode image_input0 = Return image ->
  exists m,
    out_features (fc m) = 3
    /\ fst (predict st image_input0 classes)
       = let outputs := forward m (inference_tensor image) in
         match nth_error classes (argmax outputs) with
         | None => Return (failure (IndexError "list index out of range"))
         | Some predicted_class =>
             Return (success predicted_class
                             (nth (argmax outputs) (softmax outputs) 0%R)
                             (dict_of_pairs (zip classes (softmax outputs))))
         end.
Proof.
  intros Hst Hdecode.
  destruct (ensure_loaded_serviceable st Hst)
    as (st' & Hload & m & Hmodel & Hout & Htransform).
  exists m. split; [exact Hout|].
  unfold Outputs.predict. rewrite Hload.
  rewrite (predict_try_ready st' m image_input0 image classes
             Hmodel Htransform Hdecode).
  cbn zeta.
  now destruct
        (nth_error classes (argmax (forward m (inference_tensor image)))).
Qed.

(** A decode failure is reported as a structured failure whenever the load
    step does not raise. *)
Lemma decode_failure_is_reported (st : @state G)
    (image_input0 : image_input) (classes : list string) (e : exn) :
  fst (ensure_loaded st) = Return tt ->
  decode image_input0 = Raise e ->
  fst (predict st image_input0 classes) = Return (failure e).
Proof.
  intros Hload Hdecode. unfold Outputs.predict.
  destruct (ensure_loaded st) as [r st']. cbn [fst] in Hload. subst r.
  now rewrite (predict_try_decode_failure st' image_input0 classes e Hdecode).
Qed.

(** *** C1: the distribution and its arg-max *)

Lemma combine_fst {A B} (l : list A) (l' : list B) :
  List.length l = List.length l' -> map fst (combine l l') = l.
Proof.
  revert l'. induction l as [|a l IH]; intros [|b l'] Hlen; simpl in *;
    try discriminate; [reflexivity|]. f_equal. apply IH. lia.
Qed.

Lemma combine_snd {A B} (l : list A) (l' : list B) :
  List.length l = List.length l' -> map snd (combine l l') = l'.
Proof.
  revert l'. induction l as [|a l IH]; intros [|b l'] Hlen; simpl in *;
    try discriminate; [reflexivity|]. f_equal. apply IH. lia.
Qed.

(** C1 (amended): for every image that decodes and every sequence of exactly
    three pairwise distinct labels, on a service whose model is loaded or
    can be loaded, [predict] returns a result whose [all_probabilities] has
    one entry per label, in order, with values summing to 1 (within 1e-4),
    whose [prediction] is the label at the arg-max index of that
    distribution, and whose [confidence] is the probability of that label,
    the largest of all. *)
Theorem predict_distribution_over_three_labels
    (st : @state G) (image_input0 : image_input) (image : Img)
    (classes : list string) :
  (forall m x, List.length (forward m x) = out_features (fc m)) ->
  serviceable st ->
  decode image_input0 = Return image ->
  List.length classes = 3 ->
  NoDup classes ->
  exists predicted_class confidence all_probs,
    fst (predict st image_input0 classes)
    = Return (success predicted_class confidence all_probs)
    /\ map fst all_probs = classes
    /\ List.length all_probs = List.length classes
    /\ (Rabs (total (map snd all_probs) - 1) <= 1 / 10000)%R
    /\ nth_error classes (argmax (map snd all_probs)) = Some predicted_class
    /\ dict_get predicted_class all_probs = Some confidence
    /\ (forall k p, In (k, p) all_probs -> (p <= confidence)%R).
Proof.
  intros Hforward Hst Hdecode Hlen Hdistinct.
  destruct (predict_serviceable st image_input0 image classes Hst Hdecode)
    as (m & Hout & Hpredict).
  cbn zeta in Hpredict.
  set (outputs := forward m (inference_tensor image)) in *.
  assert (Houtputs : List.length outputs = 3)
    by (unfold outputs; now rewrite Hforward).
  assert (Hne : outputs <> []) by (intros E; now rewrite E in Houtputs).
  set (probs := softmax outputs) in *.
  assert (Hprobs : List.length probs = 3)
    by (unfold probs; now rewrite ScoresFacts.softmax_length).
  assert (Hpne : probs <> []) by (intros E; now rewrite E in Hprobs).
  assert (Hargmax : argmax probs = argmax outputs)
    by apply ScoresFacts.argmax_softmax.
  destruct (ScoresFacts.argmax_is_maximal probs Hpne) as [Hk Hmax].
  rewrite Hargmax in Hk, Hmax.
  destruct (nth_error classes (argmax outputs)) as [predicted_class|] eqn:Hnth.
  2:{ apply nth_error_None in Hnth. lia. }
  assert (Hzip : dict_of_pairs (zip classes probs) = combine classes probs).
  { apply PyFacts.dict_of_pairs_distinct. unfold zip.
    rewrite combine_fst by lia. exact Hdistinct. }
  exists predicted_class, (nth (argmax outputs) probs 0%R),
         (combine classes probs).
  rewrite Hzip in Hpredict.
  split; [exact Hpredict|].
  split; [apply combine_fst; lia|].
  split; [rewrite length_combine; lia|].
  rewrite combine_snd by lia.
  split.
  { unfold probs. rewrite ScoresFacts.softmax_total by exact Hne.
    replace (1 - 1)%R with 0%R by lra. rewrite Rabs_R0. lra. }
  split; [now rewrite Hargmax|].
  split.
  - apply PyFacts.dict_get_in.
    + rewrite combine_fst by lia. exact Hdistinct.
    + apply nth_error_nth with (d := "") in Hnth. rewrite <- Hnth.
      rewrite <- (combine_nth classes probs (argmax outputs) "" 0%R) by lia.
      apply nth_In. rewrite length_combine. lia.
  - intros k p Hin. apply in_combine_r in Hin. now apply Hmax.
Qed.

(** *** The load step is outside the [try] block *)

Lemma predict_propagates_load_error (st st' : @state G)
    (image_input0 : image_input) (classes : list string) (e : exn) :
  ensure_loaded st = (Raise e, st') ->
  predict st image_input0 classes = (Raise e, st').
Proof. intros Hload. unfold Outputs.predict. now rewrite Hload. Qed.

(** C2 (the code departs from it): on a cold service without checkpoint file
    [predict] raises [FileNotFoundError] for every input, the ones that do
    not decode included, instead of returning a structured failure. *)
Theorem predict_raises_when_checkpoint_is_missing
    (cuda_ok : bool) (g : G) (image_input0 : image_input)
    (classes : list string) :
  fst (predict (cold cuda_ok None g) image_input0 classes)
  = Raise missing_file_error.
Proof.
  erewrite predict_propagates_load_error; [reflexivity|].
  unfold ensure_loaded. cbn [cold MODEL].
  apply load_model_missing; reflexivity.
Qed.

(** C3 (the code departs from it): on a cold service whose checkpoint
    matches neither head shape (here a stock 1000-class ResNet-18), the
    bare-linear attempt and the dropout-wrapped fallback both fail, after
    two reads of the file, and the second [RuntimeError] leaves [predict]
    instead of becoming a structured failure. *)
Theorem predict_raises_on_unmatched_checkpoint
    (cuda_ok : bool) (g : G) (image_input0 : image_input)
    (classes : list string) :
  fst (predict (cold cuda_ok (Some (state_dict_of Linear1000)) g)
               image_input0 classes)
  = Raise shape_error
  /\ count_reads
       (io (snd (predict (cold cuda_ok (Some (state_dict_of Linear1000)) g)
                         image_input0 classes))) = 2.
Proof.
  erewrite predict_propagates_load_error.
  2:{ unfold ensure_loaded. cbn [cold MODEL].
      apply (load_model_no_match _ (state_dict_of Linear1000));
        [reflexivity | reflexivity | vm_compute; reflexivity
         | vm_compute; reflexivity]. }
  split; reflexivity.
Qed.

(** The same failures are reported as structured results by the next call:
    [MODEL] is set by then, the load step is skipped, and the unset
    [TRANSFORM] fails inside the [try] block. *)
Lemma call_after_failed_load_is_reported
    (cuda_ok : bool) (g : G) (first second : image_input)
    (classes : list string) (image : Img) :
  decode second = Return image ->
  fst (predict (snd (predict (cold cuda_ok None g) first classes))
               second classes)
  = Return (failure (TypeError "'NoneType' object is not callable")).
Proof.
  intros Hdecode.
  rewrite (predict_propagates_load_error (cold cuda_ok None g) _ first classes
             missing_file_error
             (load_model_missing (cold cuda_ok None g) eq_refl eq_refl)).
  cbn [snd]. unfold Outputs.predict, ensure_loaded. cbn [MODEL].
  unfold Outputs.predict_try. rewrite Hdecode.
  rewrite preprocess_unset by reflexivity. reflexivity.
Qed.

(** *** Sequential use: one load *)

Lemma count_reads_app (a b : list io_event) :
  count_reads (a ++ b) = count_reads a + count_reads b.
Proof. unfold count_reads. now rewrite filter_app, length_app. Qed.

Lemma predict_try_settled (st : @state G) (image_input0 : image_input)
    (classes : list string) :
  settled st -> snd (predict_try st image_input0 classes) = st.
Proof.
  intros [Hmodel Htransform]. unfold Outputs.predict_try.
  destruct (decode image_input0) as [image | e]; [|reflexivity].
  destruct Htransform as [Hnone | Hsome].
  - now rewrite preprocess_unset.
  - rewrite preprocess_inference by exact Hsome.
    destruct (MODEL st) as [m|]; [|congruence].
    now destruct (nth_error classes _).
Qed.

Lemma predict_settled (st : @state G) (image_input0 : image_input)
    (classes : list string) :
  settled st -> snd (predict st image_input0 classes) = st.
Proof.
  intros Hst. pose proof (predict_try_settled st image_input0 classes Hst) as H.
  destruct Hst as [Hmodel _].
  unfold Outputs.predict, ensure_loaded.
  destruct (MODEL st) as [m|]; [|congruence].
  destruct (predict_try st image_input0 classes) as [[d | e] st'];
    cbn [snd] in *; exact H.
Qed.

Lemma ensure_loaded_cold (st : @state G) :
  MODEL st = None ->
  TRANSFORM st = None ->
  settled (snd (ensure_loaded st))
  /\ count_reads (io (snd (ensure_loaded st)))
     = count_reads (io st) + reads_of (best_model_pth st).
Proof.
  intros Hmodel Htransform. unfold ensure_loaded, settled, reads_of.
  rewrite Hmodel.
  destruct (best_model_pth st) as [sd|] eqn:Hfile.
  - destruct (matches (state_dict_of BareLinear) sd) eqn:Hbare.
    + rewrite (load_model_bare st sd Hmodel Hfile Hbare).
      cbn [snd MODEL TRANSFORM io]. rewrite !count_reads_app.
      repeat split; [discriminate | now right | cbn; lia].
    + destruct (matches (state_dict_of DropoutLinear) sd) eqn:Hwrapped.
      * rewrite (load_model_fallback st sd Hmodel Hfile Hbare Hwrapped).
        cbn [snd MODEL TRANSFORM io]. rewrite !count_reads_app.
        repeat split; [discriminate | now right | cbn; lia].
      * rewrite (load_model_no_match st sd Hmodel Hfile Hbare Hwrapped).
        cbn [snd MODEL TRANSFORM io]. rewrite !count_reads_app.
        repeat split; [discriminate | now left | cbn; lia].
  - rewrite (load_model_missing st Hmodel Hfile).
    cbn [snd MODEL TRANSFORM io].
    repeat split; [discriminate | now left | lia].
Qed.

Lemma predict_cold (st : @state G) (image_input0 : image_input)
    (classes : list string) :
  MODEL st = None ->
  TRANSFORM st = None ->
  settled (snd (predict st image_input0 classes))
  /\ count_reads (io (snd (predict st image_input0 classes)))
     = count_reads (io st) + reads_of (best_model_pth st).
Proof.
  intros Hmodel Htransform.
  destruct (ensure_loaded_cold st Hmodel Htransform) as [Hsettled Hreads].
  unfold Outputs.predict.
  destruct (ensure_loaded st) as [[[]|e] st1]; cbn [snd] in *.
  - pose proof (predict_try_settled st1 image_input0 classes Hsettled) as H.
    destruct (predict_try st1 image_input0 classes) as [[d | e] st2];
      cbn [snd] in *; subst st2; now split.
  - now split.
Qed.

Lemma reads_of_le (file : option state_dict) : reads_of file <= 2.
Proof.
  unfold reads_of. destruct file as [sd|]; [|lia].
  destruct (matches (state_dict_of BareLinear) sd); lia.
Qed.

Lemma reachable_invariant (st : @state G) :
  reachable st ->
  (MODEL st = None /\ TRANSFORM st = None /\ io st = [])
  \/ (settled st /\ count_reads (io st) <= 2).
Proof.
  induction 1 as [cuda_ok file g | st image_input0 classes Hreach IH].
  - left. repeat split.
  - right. destruct IH as [(Hmodel & Htransform & Hio) | [Hsettled Hreads]].
    + destruct (predict_cold st image_input0 classes Hmodel Htransform)
        as [Hsettled Hreads].
      split; [exact Hsettled|]. rewrite Hreads, Hio.
      pose proof (reads_of_le (best_model_pth st)). cbn. lia.
    + rewrite (predict_settled st image_input0 classes Hsettled). now split.
Qed.

(** When calls follow one another, the load step runs at most once per
    process.  A call that finds [MODEL] unset runs it and sets
    [MODEL]; it reads the checkpoint file once when the file has the
    bare-linear head, twice otherwise (the fallback reads it again), and not
    at all when there is no file.  A call that finds [MODEL] set reads
    nothing and leaves the globals, the generator and the output as they
    were.  So no process reads the file more than twice. *)
Theorem sequential_calls_load_once (st : @state G) :
  reachable st ->
  count_reads (io st) <= 2
  /\ (MODEL st <> None ->
      forall image_input0 classes,
        snd (predict st image_input0 classes) = st)
  /\ (MODEL st = None ->
      forall image_input0 classes,
        MODEL (snd (predict st image_input0 classes)) <> None
        /\ count_reads (io (snd (predict st image_input0 classes)))
           = reads_of (best_model_pth st)).
Proof.
  intros Hreach.
  destruct (reachable_invariant st Hreach)
    as [(Hmodel & Htransform & Hio) | [Hsettled Hreads]].
  - split; [rewrite Hio; cbn; lia|]. split; [congruence|].
    intros _ image_input0 classes.
    destruct (predict_cold st image_input0 classes Hmodel Htransform)
      as [[Hset _] Hreads].
    split; [exact Hset|]. rewrite Hreads, Hio. reflexivity.
  - split; [exact Hreads|]. split.
    + intros _ image_input0 classes. now apply predict_settled.
    + intros Hmodel. destruct Hsettled as [Hset _]. congruence.
Qed.

(** *** The shape of the result *)

Lemma predict_try_returns_success (st st' : @state G)
    (image_input0 : image_input) (classes : list string) (d : dict pyval) :
  predict_try st image_input0 classes = (Return d, st') ->
  exists predicted_class confidence all_probs,
    d = success predicted_class confidence all_probs
    /\ In predicted_class classes.
Proof.
  unfold Outputs.predict_try.
  destruct (decode image_input0) as [image | e]; [|discriminate].
  destruct (preprocess st image) as [[image_tensor | e] st1]; [|discriminate].
  destruct (MODEL st1) as [m|]; [|discriminate].
  destruct (nth_error classes (argmax (forward m image_tensor)))
    as [predicted_class|] eqn:Hnth; [|discriminate].
  intros Heq. injection Heq as <- _.
  do 3 eexists. split; [reflexivity|]. eapply nth_error_In, Hnth.
Qed.

(** C10: whatever [predict] returns has the keys [prediction], [confidence]
    and [all_probabilities]; it has the key [error] exactly when the [try]
    block raised, and then [prediction] is [None], [confidence] is 0.0 and
    [all_probabilities] is empty, while without [error] the prediction is one
    of the given labels; [main] hands the same value on. *)
Theorem predict_result_keys (st : @state G) (image_input0 : image_input)
    (classes : list string) (d : dict pyval) :
  fst (predict st image_input0 classes) = Return d ->
  dict_has "prediction" d = true
  /\ dict_has "confidence" d = true
  /\ dict_has "all_probabilities" d = true
  /\ (dict_has "error" d = true
      <-> raised (fst (predict_try (snd (ensure_loaded st))
                                   image_input0 classes)) = true)
  /\ (dict_has "error" d = true ->
      dict_get "prediction" d = Some PyNone
      /\ dict_get "confidence" d = Some (PyFloat 0)
      /\ dict_get "all_probabilities" d = Some (PyDict []))
  /\ (dict_has "error" d = false ->
      exists predicted_class confidence all_probs,
        d = success predicted_class confidence all_probs
        /\ In predicted_class classes)
  /\ fst (main st image_input0 classes) = Return d.
Proof.
  unfold Outputs.main, Outputs.predict.
  destruct (ensure_loaded st) as [[[]|e] st1]; cbn [fst snd];
    [|discriminate].
  destruct (predict_try st1 image_input0 classes) as [[d' | e] st2] eqn:Htry;
    cbn [fst snd raised]; intros Heq; injection Heq as <-.
  - destruct (predict_try_returns_success st1 st2 image_input0 classes d' Htry)
      as (predicted_class & confidence & all_probs & -> & Hin).
    cbn. repeat split; try reflexivity; try discriminate.
    intros _. now exists predicted_class, confidence, all_probs.
  - cbn. repeat split; try reflexivity; try discriminate.
Qed.

(** *** Preprocessing in the inference service *)

(** The pipeline [load_model] installs has no random transform: it resizes
    to 224 by 224, converts and normalises, giving the same tensor for the
    same image and leaving the random generator untouched. *)
Theorem inference_transform_is_deterministic (image : Img) (g : G) :
  existsb is_random inference_transform = false
  /\ compose inference_transform (PIL image) g
     = (Return (Tens (inference_tensor image)), g).
Proof. split; reflexivity. Qed.

(** The loader tries the bare-linear head first and falls back to the
    dropout-wrapped head when the keys do not match. *)
Theorem loader_tries_bare_then_wrapped (cuda_ok : bool) (g : G) :
  (let st := cold cuda_ok (Some (state_dict_of BareLinear)) g in
   fst (load_model st) = Return tt
   /\ MODEL (snd (load_model st))
      = Some (restored BareLinear (state_dict_of BareLinear)
                       (chosen_device st))
   /\ count_reads (io (snd (load_model st))) = 1)
  /\ (let st := cold cuda_ok (Some (state_dict_of DropoutLinear)) g in
      fst (load_model st) = Return tt
      /\ MODEL (snd (load_model st))
         = Some (restored DropoutLinear (state_dict_of DropoutLinear)
                          (chosen_device st))
      /\ count_reads (io (snd (load_model st))) = 2).
Proof.
  cbn zeta. split.
  - rewrite (load_model_bare _ (state_dict_of BareLinear));
      [| reflexivity | reflexivity | vm_compute; reflexivity].
    repeat split.
  - rewrite (load_model_fallback _ (state_dict_of DropoutLinear));
      [| reflexivity | reflexivity | vm_compute; reflexivity
       | vm_compute; reflexivity].
    repeat split.
Qed.

(** Once the model is, or can be, loaded, an input that does not decode
    (unreadable file or bytes, failed conversion, unsupported type) gets a
    structured failure with confidence 0.0 and an empty distribution. *)
Theorem undecodable_input_gives_structured_failure
    (st : @state G) (image_input0 : image_input) (classes : list string)
    (e : exn) :
  serviceable st ->
  decode image_input0 = Raise e ->
  fst (predict st image_input0 classes) = Return (failure e)
  /\ dict_get "error" (failure e) = Some (PyStr (str e))
  /\ dict_get "confidence" (failure e) = Some (PyFloat 0)
  /\ dict_get "all_probabilities" (failure e) = Some (PyDict []).
Proof.
  intros Hst Hdecode. repeat split.
  apply decode_failure_is_reported; [|exact Hdecode].
  destruct (ensure_loaded_serviceable st Hst) as (st' & Hload & _).
  now rewrite Hload.
Qed.

End ServiceFacts.


(** *** Callers that overlap *)

Section RaceFacts.
Context {G : Type}.

(** A thread that runs its load step without interruption does what
    [ensure_loaded] does. *)
Lemma load_steps_uninterrupted (st : @state G) (pc2 : position) :
  interleave [false; false; false; false] at_predict_test pc2 st
  = (at_try (fst (ensure_loaded st)), pc2, snd (ensure_loaded st)).
Proof.
  unfold ensure_loaded, load_model. cbn [interleave load_step].
  destruct (MODEL st) as [m|] eqn:Hmodel; cbn [interleave load_step fst snd].
  - reflexivity.
  - rewrite Hmodel. cbn [interleave load_step].
    now destruct (finish_load (begin_load st)).
Qed.

(** Nothing keeps a second caller out of the load step: when both callers
    test [MODEL] before either assigns it, both load the checkpoint, and a
    file that one caller alone reads once is read twice. *)
Theorem overlapping_first_calls_both_load (cuda_ok : bool) (g : G) :
  count_reads
    (io (snd (ensure_loaded
                (cold cuda_ok (Some (state_dict_of BareLinear)) g)))) = 1
  /\ interleave [false; true; false; true; false; false; true; true]
                at_predict_test at_predict_test
                (cold cuda_ok (Some (state_dict_of BareLinear)) g)
     = (at_try (Return tt), at_try (Return tt),
        {| MODEL := Some (restored BareLinear (state_dict_of BareLinear)
                                   (if cuda_ok then cuda else cpu));
           DEVICE := Some (if cuda_ok then cuda else cpu);
           TRANSFORM := Some inference_transform;
           cuda_is_available := cuda_ok;
           best_model_pth := Some (state_dict_of BareLinear);
           torch_rng := g;
           io := [ ReadFile "best_model.pth";
                   Print "✓ Model loaded successfully" [];
                   ReadFile "best_model.pth";
                   Print "✓ Model loaded successfully" [] ] |}).
Proof.
  split.
  - unfold ensure_loaded. cbn [cold MODEL].
    rewrite (load_model_bare _ (state_dict_of BareLinear));
      [reflexivity | reflexivity | reflexivity | vm_compute; reflexivity].
  - vm_compute. reflexivity.
Qed.

(** What a load does to the checkpoint file and to the count of reads, on
    any state without a model. *)
Lemma load_model_reads (st : @state G) :
  MODEL st = None ->
  count_reads (io (snd (load_model st)))
  = count_reads (io st) + reads_of (best_model_pth st)
  /\ best_model_pth (snd (load_model st)) = best_model_pth st.
Proof.
  intros Hmodel. unfold reads_of.
  destruct (best_model_pth st) as [sd|] eqn:Hfile.
  - destruct (matches (state_dict_of BareLinear) sd) eqn:Hbare.
    + rewrite (load_model_bare st sd Hmodel Hfile Hbare).
      cbn [snd io best_model_pth]. rewrite !count_reads_app.
      split; [cbn; lia | exact Hfile].
    + destruct (matches (state_dict_of DropoutLinear) sd) eqn:Hwrapped.
      * rewrite (load_model_fallback st sd Hmodel Hfile Hbare Hwrapped).
        cbn [snd io best_model_pth]. rewrite !count_reads_app.
        split; [cbn; lia | exact Hfile].
      * rewrite (load_model_no_match st sd Hmodel Hfile Hbare Hwrapped).
        cbn [snd io best_model_pth]. rewrite !count_reads_app.
        split; [cbn; lia | exact Hfile].
  - rewrite (load_model_missing st Hmodel Hfile).
    cbn [snd io best_model_pth]. split; [lia | exact Hfile].
Qed.

(** Two first callers that both test [MODEL] before either assigns it: the
    first loads as if it were alone, and then the second loads again, from
    scratch. *)
Lemma both_callers_load (st : @state G) :
  MODEL st = None ->
  interleave [false; true; false; true; false; false; true; true]
             at_predict_test at_predict_test st
  = (at_try (fst (load_model st)),
     at_try (fst (load_model (set_MODEL None (snd (load_model st))))),
     snd (load_model (set_MODEL None (snd (load_model st))))).
Proof.
  intros Hmodel. unfold load_model. rewrite Hmodel.
  cbn [interleave load_step]. rewrite Hmodel. cbn [interleave load_step].
  rewrite Hmodel. cbn [interleave load_step].
  destruct (finish_load (begin_load st)) as [r1 st1].
  cbn [interleave load_step fst snd set_MODEL MODEL].
  change (begin_load (set_MODEL None st1)) with (begin_load st1).
  now destruct (finish_load (begin_load st1)) as [r2 st2].
Qed.

(** C9 (the code departs from it): the load step has no guard.  On a cold
    service, in the interleaving where two first callers both evaluate
    [MODEL is None] and [MODEL is not None] before either assigns [MODEL],
    both run the load to its end: the checkpoint is read twice as often as a
    single caller reads it, so at least twice whenever there is a file, and
    never exactly once. *)
Theorem concurrent_first_callers_each_load
    (cuda_ok : bool) (file : option state_dict) (g : G) :
  let st := cold cuda_ok file g in
  let run := interleave [false; true; false; true; false; false; true; true]
                        at_predict_test at_predict_test st in
  (exists r1 r2, fst run = (at_try r1, at_try r2))
  /\ count_reads (io (snd (ensure_loaded st))) = reads_of file
  /\ count_reads (io (snd run)) = 2 * reads_of file
  /\ count_reads (io (snd run)) <> 1
  /\ (file <> None -> 2 <= count_reads (io (snd run))).
Proof.
  cbn zeta. set (st := cold cuda_ok file g).
  assert (Hmodel : MODEL st = None) by reflexivity.
  rewrite (both_callers_load st Hmodel). cbn [fst snd].
  destruct (load_model_reads st Hmodel) as [Hreads Hfile].
  assert (Hmodel1 : MODEL (set_MODEL None (snd (load_model st))) = None)
    by reflexivity.
  destruct (load_model_reads _ Hmodel1) as [Hreads1 _].
  cbn [set_MODEL io best_model_pth] in Hreads1.
  rewrite Hfile, Hreads in Hreads1.
  change (io st) with (@nil io_event) in *.
  change (best_model_pth st) with file in *.
  change (count_reads []) with 0 in *.
  assert (Halone : count_reads (io (snd (ensure_loaded st))) = reads_of file).
  { unfold ensure_loaded. rewrite Hmodel. rewrite Hreads. lia. }
  split; [now do 2 eexists|]. split; [exact Halone|].
  split; [lia|]. split; [lia|].
  intros Hsome. unfold reads_of in *. destruct file as [sd|]; [|congruence].
  destruct (matches (state_dict_of BareLinear) sd); lia.
Qed.

End RaceFacts.

Import Examples.

Lemma argmax_flat : argmax [0; 0; 0]%R = 0.
Proof.
  unfold argmax, argmax_from.
  destruct (Rlt_dec 0 0) as [Hlt | _]; [exfalso; lra | reflexivity].
Qed.

Lemma fresh_process_serviceable : serviceable fresh_process.
Proof.
  right. split; [reflexivity|].
  exists trained_checkpoint. split; [reflexivity|].
  right. vm_compute. reflexivity.
Qed.

Lemma flat_scores_length (m : module) (x : list (list nat)) :
  List.length (flat_scores m x) = out_features (fc m).
Proof. unfold flat_scores. apply repeat_length. Qed.

Lemma app_labels_distinct : NoDup app_labels.
Proof. repeat constructor; cbn; intuition discriminate. Qed.

(** C1, as stated, fails: the head has three outputs whatever the number of
    app_labels, so with four app_labels the distribution has three entries. *)
Lemma four_labels_get_three_probabilities :
  exists predicted_class confidence all_probs,
    fst (demo_predict fresh_process (Path "photo.jpg")
                      ["safe"; "too_close"; "danger"; "unknown"])
    = Return (success predicted_class confidence all_probs)
    /\ List.length all_probs = 3
    /\ List.length all_probs
       <> List.length ["safe"; "too_close"; "danger"; "unknown"].
Proof.
  destruct (predict_serviceable open_any open_none keep_RGB flat_scores
              fresh_process (Path "photo.jpg") [[1; 2]; [3; 4]]
              ["safe"; "too_close"; "danger"; "unknown"]
              fresh_process_serviceable eq_refl)
    as (m & Hout & Hpredict).
  cbn zeta in Hpredict. unfold flat_scores in Hpredict.
  rewrite Hout in Hpredict. cbn [repeat] in Hpredict.
  rewrite argmax_flat in Hpredict. cbn [nth_error] in Hpredict.
  assert (Hlen : List.length
                   (dict_of_pairs
                      (zip ["safe"; "too_close"; "danger"; "unknown"]
                           (softmax [0; 0; 0]%R))) = 3).
  { rewrite PyFacts.dict_of_pairs_distinct.
    - reflexivity.
    - cbn. repeat constructor; cbn; intuition discriminate. }
  do 3 eexists. split; [exact Hpredict|]. split; [exact Hlen|].
  rewrite Hlen. cbn. discriminate.
Qed.

Lemma predict_distribution_over_three_labels_witness :
  exists predicted_class confidence all_probs,
    fst (demo_predict fresh_process (Path "photo.jpg") app_labels)
    = Return (success predicted_class confidence all_probs)
    /\ map fst all_probs = app_labels
    /\ List.length all_probs = List.length app_labels
    /\ (Rabs (total (map snd all_probs) - 1) <= 1 / 10000)%R
    /\ nth_error app_labels (argmax (map snd all_probs)) = Some predicted_class
    /\ dict_get predicted_class all_probs = Some confidence
    /\ (forall k p, In (k, p) all_probs -> (p <= confidence)%R).
Proof.
  exact (predict_distribution_over_three_labels
           open_any open_none keep_RGB flat_scores
           fresh_process (Path "photo.jpg") [[1; 2]; [3; 4]] app_labels
           flat_scores_length fresh_process_serviceable eq_refl eq_refl
           app_labels_distinct).
Defined.

(** A single call on a cold service whose checkpoint is the one [cnn.py]
    saves (dropout-wrapped head) reads the file twice. *)
Lemma cold_call_reads_training_checkpoint_twice :
  count_reads
    (io (snd (demo_predict fresh_process (Path "photo.jpg") app_labels)))
  = 2.
Proof.
  unfold demo_predict.
  rewrite (proj2 (predict_cold open_any open_none keep_RGB flat_scores
                    fresh_process (Path "photo.jpg") app_labels
                    eq_refl eq_refl)).
  vm_compute. reflexivity.
Qed.

Lemma sequential_calls_load_once_witness :
  let st := snd (demo_predict fresh_process (Path "photo.jpg") app_labels) in
  count_reads (io st) <= 2
  /\ (MODEL st <> None ->
      forall image_input0 classes,
        snd (demo_predict st image_input0 classes) = st)
  /\ (MODEL st = None ->
      forall image_input0 classes,
        MODEL (snd (demo_predict st image_input0 classes)) <> None
        /\ count_reads (io (snd (demo_predict st image_input0 classes)))
           = reads_of (best_model_pth st)).
Proof.
  exact (sequential_calls_load_once open_any open_none keep_RGB flat_scores
           (snd (demo_predict fresh_process (Path "photo.jpg") app_labels))
           (reach_predict open_any open_none keep_RGB flat_scores
              fresh_process (Path "photo.jpg") app_labels
              (reach_cold open_any open_none keep_RGB flat_scores
                 false (Some trained_checkpoint) []))).
Defined.

Lemma upload_that_is_no_image :
  fst (demo_predict fresh_process (BytesIO []) app_labels)
  = Return (failure not_an_image).
Proof.
  apply decode_failure_is_reported; [|reflexivity].
  destruct (ensure_loaded_serviceable _ fresh_process_serviceable)
    as (st' & Hload & _).
  now rewrite Hload.
Qed.

Lemma predict_result_keys_witness :
  dict_has "prediction" (failure not_an_image) = true
  /\ dict_has "confidence" (failure not_an_image) = true
  /\ dict_has "all_probabilities" (failure not_an_image) = true
  /\ (dict_has "error" (failure not_an_image) = true
      <-> raised (fst (demo_predict_try (snd (ensure_loaded fresh_process))
                                        (BytesIO []) app_labels)) = true)
  /\ (dict_has "error" (failure not_an_image) = true ->
      dict_get "prediction" (failure not_an_image) = Some PyNone
      /\ dict_get "confidence" (failure not_an_image) = Some (PyFloat 0)
      /\ dict_get "all_probabilities" (failure not_an_image)
         = Some (PyDict []))
  /\ (dict_has "error" (failure not_an_image) = false ->
      exists predicted_class confidence all_probs,
        failure not_an_image = success predicted_class confidence all_probs
        /\ In predicted_class app_labels)
  /\ fst (demo_main fresh_process (BytesIO []) app_labels)
     = Return (failure not_an_image).
Proof.
  exact (predict_result_keys open_any open_none keep_RGB flat_scores
           fresh_process (BytesIO []) app_labels (failure not_an_image)
           upload_that_is_no_image).
Defined.

Lemma undecodable_input_gives_structured_failure_witness :
  fst (demo_predict fresh_process Other app_labels)
  = Return (failure (ValueError "Unsupported image input type"))
  /\ dict_get "error" (failure (ValueError "Unsupported image input type"))
     = Some (PyStr (str (ValueError "Unsupported image input type")))
  /\ dict_get "confidence"
              (failure (ValueError "Unsupported image input type"))
     = Some (PyFloat 0)
  /\ dict_get "all_probabilities"
              (failure (ValueError "Unsupported image input type"))
     = Some (PyDict []).
Proof.
  exact (undecodable_input_gives_structured_failure
           open_any open_none keep_RGB flat_scores
           fresh_process Other app_labels
           (ValueError "Unsupported image input type")
           fresh_process_serviceable eq_refl).
Defined.

End OutputsFacts.

(** ** Bounds on the reported probabilities *)

Module ScoreBounds.

Import Scores ScoresFacts.
Local Open Scope R_scope.

Lemma softmax_positive (xs : list R) (p : R) : In p (softmax xs) -> 0 < p.
Proof.
  unfold softmax. rewrite in_map_iff. intros (x & <- & Hx).
  assert (Hne : xs <> []) by (intros E; now rewrite E in Hx).
  pose proof (total_exp_positive xs Hne). pose proof (exp_pos x).
  now apply Rdiv_lt_0_compat.
Qed.

Lemma total_firstn_le (ps : list R) (k : nat) :
  (forall p, In p ps -> 0 < p) ->
  total (firstn k ps) <= total ps
  /\ ((k < List.length ps)%nat -> total (firstn k ps) < total ps).
Proof.
  revert k. induction ps as [|p ps IH]; intros k Hpos.
  - rewrite firstn_nil. simpl. split; [lra | lia].
  - assert (Hp : 0 < p) by (apply Hpos; now left).
    assert (Hrest : forall q, In q ps -> 0 < q)
      by (intros q Hq; apply Hpos; now right).
    assert (Htot : 0 <= total ps).
    { clear -Hrest. induction ps as [|q qs IHq]; simpl; [lra|].
      assert (0 < q) by (apply Hrest; now left).
      assert (0 <= total qs)
        by (apply IHq; intros r Hr; apply Hrest; now right).
      lra. }
    destruct k as [|k]; simpl.
    + split; [lra | intros _; lra].
    + destruct (IH k Hrest) as [Hle Hlt]. split; [lra|].
      intros Hk. assert (total (firstn k ps) < total ps) by (apply Hlt; lia).
      lra.
Qed.

(** Of three scores, the probability of the best one is at least a third and
    below one. *)
Lemma best_of_three (xs : list R) :
  List.length xs = 3%nat ->
  1 / 3 <= nth (argmax xs) (softmax xs) 0 < 1.
Proof.
  intros Hlen.
  assert (Hne : xs <> []) by (intros E; now rewrite E in Hlen).
  pose proof (softmax_total xs Hne) as Hsum.
  pose proof (softmax_length xs) as Hlen'. rewrite Hlen in Hlen'.
  pose proof (softmax_positive xs) as Hpos.
  assert (Hpne : softmax xs <> []) by (intros E; now rewrite E in Hlen').
  destruct (argmax_is_maximal (softmax xs) Hpne) as [Hk Hmax].
  rewrite argmax_softmax in Hk, Hmax. rewrite Hlen' in Hk.
  destruct (softmax xs) as [|p0 [|p1 [|p2 [|p3 ps]]]]; try discriminate.
  simpl in Hsum.
  assert (H0 : 0 < p0) by (apply Hpos; simpl; auto).
  assert (H1 : 0 < p1) by (apply Hpos; simpl; auto).
  assert (H2 : 0 < p2) by (apply Hpos; simpl; auto).
  assert (M0 := Hmax p0 (or_introl eq_refl)).
  assert (M1 := Hmax p1 (or_intror (or_introl eq_refl))).
  assert (M2 := Hmax p2 (or_intror (or_intror (or_introl eq_refl)))).
  destruct (argmax xs) as [|[|[|k]]]; simpl in *; try lia; lra.
Qed.

End ScoreBounds.

(** ** Checkpoints and head shapes *)

Module CheckpointFacts.

Import ResNet.

Lemma head_entry_in_state_dict (h : head) (e : entry) :
  In e (head_entries h) -> In (name e, shape e) (state_dict_of h).
Proof.
  intros Hin. unfold state_dict_of. rewrite map_app. apply in_or_app. right.
  now apply (in_map (fun e => (name e, shape e))).
Qed.

Lemma has_entry_witness (sd : state_dict) (kv : string * list nat) :
  has_entry sd kv = true -> exists s, In (fst kv, s) sd.
Proof.
  unfold has_entry. rewrite existsb_exists.
  intros ([k s] & Hin & Heq). apply andb_prop in Heq. destruct Heq as [Hk _].
  apply String.eqb_eq in Hk. simpl in Hk. subst k. now exists s.
Qed.

(** A state dict that loads into one head holds that head's weight under
    that head's key. *)
Lemma matches_has_key (h : head) (sd : state_dict) (e : entry) :
  matches (state_dict_of h) sd = true ->
  In e (head_entries h) ->
  exists s, In (name e, s) sd.
Proof.
  unfold matches. intros Hmatch Hin. apply andb_prop in Hmatch.
  destruct Hmatch as [Hmissing _]. rewrite forallb_forall in Hmissing.
  apply (has_entry_witness sd (name e, shape e)).
  apply Hmissing. now apply head_entry_in_state_dict.
Qed.

Lemma matches_no_unexpected (h : head) (sd : state_dict)
    (kv : string * list nat) :
  matches (state_dict_of h) sd = true ->
  In kv sd -> has_entry (state_dict_of h) kv = true.
Proof.
  unfold matches. intros Hmatch Hin. apply andb_prop in Hmatch.
  destruct Hmatch as [_ Hunexpected]. rewrite forallb_forall in Hunexpected.
  now apply Hunexpected.
Qed.

(** No checkpoint has both head shapes: what loads into the bare-linear head
    makes the dropout-wrapped head fail, and the other way round, so the
    order of the two attempts never decides which head is used. *)
Theorem head_shapes_exclude_each_other (sd : state_dict) :
  matches (state_dict_of BareLinear) sd
  && matches (state_dict_of DropoutLinear) sd = false.
Proof.
  destruct (matches (state_dict_of BareLinear) sd) eqn:Hbare; [|reflexivity].
  destruct (matches (state_dict_of DropoutLinear) sd) eqn:Hwrapped;
    [|reflexivity].
  exfalso.
  destruct (matches_has_key BareLinear sd (param "fc.weight" [3; in_features])
              Hbare (or_introl eq_refl)) as [s Hin].
  pose proof (matches_no_unexpected DropoutLinear sd _ Hwrapped Hin) as Habs.
  cbn [name param] in Habs. vm_compute in Habs. discriminate.
Qed.

(** What a model with one head saves loads into a model with another head
    exactly when the heads are the same. *)
Theorem state_dict_loads_into_same_head_only (saved loading : head) :
  matches (state_dict_of loading) (state_dict_of saved) = true
  <-> saved = loading.
Proof.
  split.
  - destruct saved, loading; vm_compute; intros H; congruence.
  - intros ->. destruct loading; vm_compute; reflexivity.
Qed.

End CheckpointFacts.

(** ** More on the inference service *)

Module ServiceBehaviour.

Import Transforms ResNet Scores Outputs Spec OutputsFacts.

Lemma dict_set_member {V} (k : string) (v : V) (d : dict V)
    (kv : string * V) :
  In kv (dict_set k v d) -> kv = (k, v) \/ In kv d.
Proof.
  induction d as [|[k' v'] d IH]; simpl.
  - intros [<- | []]. now left.
  - destruct (String.eqb_spec k k') as [-> | Hne]; simpl.
    + intros [<- | Hin]; [now left | right; now right].
    + intros [<- | Hin]; [right; now left|].
      destruct (IH Hin) as [-> | Hin']; [now left | right; now right].
Qed.

(** Every entry of a comprehension is one of the pairs it was built from. *)
Lemma dict_of_pairs_member {V} (pairs : list (string * V))
    (kv : string * V) :
  In kv (dict_of_pairs pairs) -> In kv pairs.
Proof.
  unfold dict_of_pairs.
  assert (H : forall d : dict V,
             In kv (fold_left (fun d kv => dict_set (fst kv) (snd kv) d)
                              pairs d) ->
             In kv d \/ In kv pairs).
  { induction pairs as [|[k v] pairs IH]; intros d Hin; simpl in *.
    - now left.
    - destruct (IH _ Hin) as [Hd | Hp]; [|right; now right].
      destruct (dict_set_member k v d kv Hd) as [-> | Hd'];
        [right; now left | now left]. }
  intros Hin. destruct (H [] Hin) as [[] | Hp]. exact Hp.
Qed.

Lemma dict_set_keys_distinct {V} (k : string) (v : V) (d : dict V) :
  NoDup (map fst d) -> NoDup (map fst (dict_set k v d)).
Proof.
  induction d as [|[k' v'] d IH]; simpl; intros Hd.
  - constructor; [intros [] | constructor].
  - inversion Hd as [|? ? Hnotin Hrest]; subst.
    destruct (String.eqb_spec k k') as [-> | Hne]; simpl.
    + now constructor.
    + constructor; [|now apply IH].
      intros Hin. apply in_map_iff in Hin. destruct Hin as ([k0 v0] & Hk & Hin).
      simpl in Hk. subst k0.
      destruct (dict_set_member k v d (k', v0) Hin) as [Heq | Hin'].
      * injection Heq as Heq _. congruence.
      * apply Hnotin. apply in_map_iff. now exists (k', v0).
Qed.

(** A comprehension has each key once. *)
Lemma dict_of_pairs_keys_distinct {V} (pairs : list (string * V)) :
  NoDup (map fst (dict_of_pairs pairs)).
Proof.
  unfold dict_of_pairs.
  assert (H : forall d : dict V,
             NoDup (map fst d) ->
             NoDup (map fst (fold_left
                               (fun d kv => dict_set (fst kv) (snd kv) d)
                               pairs d))).
  { induction pairs as [|[k v] pairs IH]; intros d Hd; simpl; [exact Hd|].
    apply IH. now apply dict_set_keys_distinct. }
  apply H. constructor.
Qed.


Lemma combine_fst_firstn {A B} (l : list A) (l' : list B) :
  map fst (combine l l') = firstn (List.length l') l.
Proof.
  revert l'. induction l as [|a l IH]; intros [|b l']; simpl;
    try reflexivity. now rewrite IH.
Qed.

Section Behaviour.
Context {Img Tensor G : Type} `{V : Vision Img Tensor} `{RNG : TorchRandom G}.
Variable Image_open : string -> result Img.
Variable Image_open_buffer : list Byte.byte -> result Img.
Variable convert_RGB : Img -> result Img.
Variable forward : module -> Tensor -> list R.

Local Abbreviation decode :=
  (decode Image_open Image_open_buffer convert_RGB).
Local Abbreviation predict_try :=
  (predict_try Image_open Image_open_buffer convert_RGB forward).
Local Abbreviation predict :=
  (predict Image_open Image_open_buffer convert_RGB forward).
Local Abbreviation main :=
  (main Image_open Image_open_buffer convert_RGB forward).
Local Abbreviation reachable :=
  (reachable Image_open Image_open_buffer convert_RGB forward).

(** The head [load_model] puts in place has three outputs. *)
Hypothesis forward_length :
  forall m x, List.length (forward m x) = out_features (fc m).

(** What a successful prediction on a serviceable state looks like. *)
Lemma success_inversion (st : @state G) (image_input0 : image_input)
    (classes : list string) (l : string) (c : R) (ps : dict R) :
  serviceable st ->
  fst (predict st image_input0 classes) = Return (success l c ps) ->
  exists outputs,
    List.length outputs = 3
    /\ nth_error classes (argmax outputs) = Some l
    /\ c = nth (argmax outputs) (softmax outputs) 0%R
    /\ ps = dict_of_pairs (zip classes (softmax outputs)).
Proof.
  intros Hst Hsuccess.
  destruct (decode image_input0) as [image | e] eqn:Hdecode.
  - destruct (predict_serviceable Image_open Image_open_buffer convert_RGB
                forward st image_input0 image classes Hst Hdecode)
      as (m & Hout & Hpredict).
    cbn zeta in Hpredict. rewrite Hpredict in Hsuccess.
    exists (forward m (inference_tensor image)).
    split; [now rewrite forward_length|].
    destruct (nth_error classes (argmax (forward m (inference_tensor image))))
      as [l'|]; [|discriminate].
    injection Hsuccess as -> -> ->. repeat split.
  - destruct (ensure_loaded_serviceable st Hst) as (st' & Hload & _).
    rewrite (decode_failure_is_reported Image_open Image_open_buffer
               convert_RGB forward st image_input0 classes e) in Hsuccess;
      [discriminate | now rewrite Hload | exact Hdecode].
Qed.

(** Whatever labels are passed, a prediction that succeeds names one of
    them, reports a confidence of a third or more (to within 1e-4) and at
    most one, and a distribution of at most three entries, under distinct
    keys that are among the labels, each a probability between zero and the
    confidence. *)
Theorem successful_prediction_bounds (st : @state G)
    (image_input0 : image_input) (classes : list string)
    (l : string) (c : R) (ps : dict R) :
  serviceable st ->
  fst (predict st image_input0 classes) = Return (success l c ps) ->
  In l classes
  /\ (1 / 3 - 1 / 10000 <= c <= 1)%R
  /\ List.length ps <= 3
  /\ List.length ps <= List.length classes
  /\ NoDup (map fst ps)
  /\ (forall k p, In (k, p) ps -> In k classes /\ (0 <= p <= c)%R).
Proof.
  intros Hst Hsuccess.
  destruct (success_inversion st image_input0 classes l c ps Hst Hsuccess)
    as (outputs & Hlen & Hnth & -> & ->).
  assert (Hne : softmax outputs <> []).
  { intros E. pose proof (ScoresFacts.softmax_length outputs) as H.
    rewrite E, Hlen in H. discriminate. }
  destruct (ScoresFacts.argmax_is_maximal (softmax outputs) Hne) as [_ Hmax].
  rewrite ScoresFacts.argmax_softmax in Hmax.
  pose proof (PyFacts.dict_of_pairs_length (zip classes (softmax outputs)))
    as Hsize.
  unfold zip in *. rewrite length_combine, ScoresFacts.softmax_length in Hsize.
  pose proof (ScoreBounds.best_of_three outputs Hlen) as Hbest.
  split; [eapply nth_error_In, Hnth|].
  split; [lra|].
  split; [lia|]. split; [lia|].
  split; [apply dict_of_pairs_keys_distinct|].
  intros k p Hin. apply dict_of_pairs_member in Hin.
  split; [eapply in_combine_l, Hin|].
  apply in_combine_r in Hin. split.
  - apply Rlt_le. eapply ScoreBounds.softmax_positive, Hin.
  - now apply Hmax.
Qed.


(** Three distinct labels: the result in closed form. *)
Lemma three_labels_closed_form (st : @state G) (image_input0 : image_input)
    (image : Img) (classes : list string) :
  serviceable st ->
  decode image_input0 = Return image ->
  List.length classes = 3 ->
  NoDup classes ->
  exists outputs l,
    List.length outputs = 3
    /\ nth_error classes (argmax outputs) = Some l
    /\ fst (predict st image_input0 classes)
       = Return (success l (nth (argmax outputs) (softmax outputs) 0%R)
                         (combine classes (softmax outputs))).
Proof.
  intros Hst Hdecode Hlen Hdistinct.
  destruct (predict_serviceable Image_open Image_open_buffer convert_RGB
              forward st image_input0 image classes Hst Hdecode)
    as (m & Hout & Hpredict).
  cbn zeta in Hpredict.
  set (outputs := forward m (inference_tensor image)) in *.
  assert (Houtputs : List.length outputs = 3)
    by (unfold outputs; now rewrite forward_length).
  assert (Hne : softmax outputs <> []).
  { intros E. pose proof (ScoresFacts.softmax_length outputs) as H.
    rewrite E, Houtputs in H. discriminate. }
  destruct (ScoresFacts.argmax_is_maximal (softmax outputs) Hne) as [Hk _].
  rewrite ScoresFacts.argmax_softmax, ScoresFacts.softmax_length in Hk.
  destruct (nth_error classes (argmax outputs)) as [l|] eqn:Hnth.
  2:{ apply nth_error_None in Hnth. lia. }
  exists outputs, l. split; [exact Houtputs|]. split; [exact Hnth|].
  rewrite Hpredict. unfold zip.
  rewrite PyFacts.dict_of_pairs_distinct; [reflexivity|].
  rewrite combine_fst_firstn, firstn_all2
    by (rewrite ScoresFacts.softmax_length; lia).
  exact Hdistinct.
Qed.

(** *** After a failed load *)

Lemma ensure_loaded_failure (st : @state G) (e : exn) :
  MODEL st = None ->
  fst (ensure_loaded st) = Raise e ->
  MODEL (snd (ensure_loaded st)) <> None
  /\ TRANSFORM (snd (ensure_loaded st)) = TRANSFORM st
  /\ (e = missing_file_error \/ e = shape_error).
Proof.
  intros Hmodel. unfold ensure_loaded. rewrite Hmodel.
  destruct (best_model_pth st) as [sd|] eqn:Hfile.
  - destruct (matches (state_dict_of BareLinear) sd) eqn:Hbare.
    + rewrite (load_model_bare st sd Hmodel Hfile Hbare). discriminate.
    + destruct (matches (state_dict_of DropoutLinear) sd) eqn:Hwrapped.
      * rewrite (load_model_fallback st sd Hmodel Hfile Hbare Hwrapped).
        discriminate.
      * rewrite (load_model_no_match st sd Hmodel Hfile Hbare Hwrapped).
        cbn [fst snd MODEL TRANSFORM]. intros Heq. injection Heq as <-.
        repeat split; [discriminate | now right].
  - rewrite (load_model_missing st Hmodel Hfile).
    cbn [fst snd MODEL TRANSFORM]. intros Heq. injection Heq as <-.
    repeat split; [discriminate | now left].
Qed.

(** With [MODEL] set and [TRANSFORM] unset, a call changes nothing and
    reports a failure. *)
Lemma predict_degraded (st : @state G) (image_input0 : image_input)
    (classes : list string) :
  MODEL st <> None ->
  TRANSFORM st = None ->
  predict st image_input0 classes
  = (Return (failure
               match decode image_input0 with
               | Raise e => e
               | Return _ => TypeError "'NoneType' object is not callable"
               end), st).
Proof.
  intros Hmodel Htransform. unfold Outputs.predict, ensure_loaded.
  destruct (MODEL st) as [m|]; [|congruence].
  unfold Outputs.predict_try.
  destruct (decode image_input0) as [image | e]; [|reflexivity].
  now rewrite preprocess_unset.
Qed.

(** A load that fails is never tried again: the first call raises, and from
    then on every call, whatever its input, returns a structured failure
    without reading the checkpoint or changing any global, until the process
    is restarted. *)
Theorem failed_load_is_never_retried (st : @state G) (e : exn)
    (first : image_input) (first_classes : list string) :
  MODEL st = None ->
  TRANSFORM st = None ->
  fst (ensure_loaded st) = Raise e ->
  fst (predict st first first_classes) = Raise e
  /\ forall image_input0 classes,
       exists e',
         predict (snd (predict st first first_classes)) image_input0 classes
         = (Return (failure e'), snd (predict st first first_classes)).
Proof.
  intros Hmodel Htransform Hload.
  destruct (ensure_loaded_failure st e Hmodel Hload) as (Hset & Hkeep & _).
  assert (Hpredict : predict st first first_classes
                     = (Raise e, snd (ensure_loaded st))).
  { apply predict_propagates_load_error.
    destruct (ensure_loaded st) as [r st']. cbn [fst snd] in *. now subst r. }
  rewrite Hpredict. cbn [fst snd]. split; [reflexivity|].
  intros image_input0 classes. eexists.
  apply predict_degraded; [exact Hset | now rewrite Hkeep].
Qed.

(** *** What a prediction depends on *)

(** Once [MODEL] is set, the model's [predict] reads [MODEL], [TRANSFORM],
    the input and the labels, and nothing else of the state. *)
Lemma predict_reads_model_and_transform (st1 st2 : @state G)
    (image_input0 : image_input) (classes : list string) :
  settled st1 ->
  MODEL st1 = MODEL st2 ->
  TRANSFORM st1 = TRANSFORM st2 ->
  fst (predict st1 image_input0 classes)
  = fst (predict st2 image_input0 classes).
Proof.
  intros [Hmodel Htransform] Hsame_model Hsame_transform.
  unfold Outputs.predict, ensure_loaded. rewrite <- Hsame_model.
  destruct (MODEL st1) as [m|] eqn:Hm; [|congruence].
  assert (Htry : fst (predict_try st1 image_input0 classes)
                 = fst (predict_try st2 image_input0 classes)).
  { unfold Outputs.predict_try.
    destruct (decode image_input0) as [image | e]; [|reflexivity].
    destruct Htransform as [Hnone | Hsome].
    - rewrite !preprocess_unset by congruence. reflexivity.
    - rewrite !preprocess_inference by congruence.
      rewrite <- Hsame_model, Hm.
      now destruct (nth_error classes _). }
  destruct (predict_try st1 image_input0 classes) as [[d1 | e1] st1'];
    destruct (predict_try st2 image_input0 classes) as [[d2 | e2] st2'];
    cbn [fst] in *; congruence.
Qed.

(** Predictions are repeatable.  Two states that processes reach by calling
    [predict], with [MODEL] set and the same [MODEL], [DEVICE] and
    [TRANSFORM], give the same result for the same input and labels: the
    state of the random generator and the output so far have no
    influence. *)
Theorem prediction_depends_on_model_and_input_only (st1 st2 : @state G)
    (image_input0 : image_input) (classes : list string) :
  reachable st1 ->
  reachable st2 ->
  MODEL st1 <> None ->
  MODEL st1 = MODEL st2 ->
  DEVICE st1 = DEVICE st2 ->
  TRANSFORM st1 = TRANSFORM st2 ->
  fst (predict st1 image_input0 classes)
  = fst (predict st2 image_input0 classes).
Proof.
  intros Hreach1 _ Hset Hmodel _ Htransform.
  apply predict_reads_model_and_transform; [|exact Hmodel | exact Htransform].
  destruct (reachable_invariant Image_open Image_open_buffer convert_RGB
              forward st1 Hreach1) as [(Hnone & _) | [Hsettled _]];
    [congruence | exact Hsettled].
Qed.

(** *** The outcome of the load *)

(** On a cold service with a checkpoint file, the load succeeds exactly when
    the file has one of the two head shapes; it then leaves a network in
    evaluation mode on the selected device, fully restored from the file,
    with the head the file has, and the inference pipeline.  Otherwise it
    raises the shape error and leaves [TRANSFORM] unset. *)
Theorem load_model_outcome (st : @state G) (sd : state_dict) :
  MODEL st = None ->
  best_model_pth st = Some sd ->
  (fst (load_model st) = Return tt
   <-> matches (state_dict_of BareLinear) sd = true
       \/ matches (state_dict_of DropoutLinear) sd = true)
  /\ (fst (load_model st) = Return tt ->
      MODEL (snd (load_model st))
      = Some (restored (if matches (state_dict_of BareLinear) sd
                        then BareLinear else DropoutLinear)
                       sd (chosen_device st))
      /\ DEVICE (snd (load_model st)) = Some (chosen_device st)
      /\ TRANSFORM (snd (load_model st)) = Some inference_transform)
  /\ (fst (load_model st) <> Return tt ->
      fst (load_model st) = Raise shape_error
      /\ TRANSFORM (snd (load_model st)) = TRANSFORM st).
Proof.
  intros Hmodel Hfile.
  destruct (matches (state_dict_of BareLinear) sd) eqn:Hbare.
  - rewrite (load_model_bare st sd Hmodel Hfile Hbare). cbn [fst snd].
    split; [split; auto|]. split; [intros _; repeat split|].
    intros Hne. now contradiction Hne.
  - destruct (matches (state_dict_of DropoutLinear) sd) eqn:Hwrapped.
    + rewrite (load_model_fallback st sd Hmodel Hfile Hbare Hwrapped).
      cbn [fst snd]. split; [split; auto|].
      split; [intros _; repeat split|].
      intros Hne. now contradiction Hne.
    + rewrite (load_model_no_match st sd Hmodel Hfile Hbare Hwrapped).
      cbn [fst snd MODEL TRANSFORM].
      split; [split; [discriminate | intros [Hx | Hx]; discriminate]|].
      split; [discriminate|]. intros _. split; reflexivity.
Qed.

(** *** What [main] prints *)

Lemma emit_all (lines : list io_event) (st : @state G) :
  fold_left (fun s e => emit e s) lines st
  = {| MODEL := MODEL st; DEVICE := DEVICE st; TRANSFORM := TRANSFORM st;
       cuda_is_available := cuda_is_available st;
       best_model_pth := best_model_pth st;
       torch_rng := torch_rng st; io := io st ++ lines |}.
Proof.
  revert st. induction lines as [|e lines IH]; intros st; simpl.
  - rewrite app_nil_r. now destruct st.
  - rewrite IH. cbn [emit MODEL DEVICE TRANSFORM cuda_is_available
                       best_model_pth torch_rng io].
    now rewrite <- app_assoc.
Qed.

(** [main] hands on what [predict] returns or raises, prints one line for a
    failure and three lines plus one per probability for a success, reads no
    file and touches no global. *)
Theorem main_reports_and_returns (st : @state G)
    (image_obj : image_input) (classes : list string) :
  fst (main st image_obj classes) = fst (predict st image_obj classes)
  /\ match fst (predict st image_obj classes) with
     | Raise _ =>
         snd (main st image_obj classes) = snd (predict st image_obj classes)
     | Return result0 =>
         let st' := snd (predict st image_obj classes) in
         snd (main st image_obj classes)
         = {| MODEL := MODEL st'; DEVICE := DEVICE st';
              TRANSFORM := TRANSFORM st';
              cuda_is_available := cuda_is_available st';
              best_model_pth := best_model_pth st';
              torch_rng := torch_rng st';
              io := io st' ++ report result0 |}
         /\ count_reads (report result0) = 0
         /\ List.length (report result0)
            = (if dict_has "error" result0 then 1
               else 3 + match dict_get "all_probabilities" result0 with
                        | Some (PyDict probs) => List.length probs
                        | _ => 0
                        end)
     end.
Proof.
  unfold Outputs.main.
  destruct (predict st image_obj classes) as [[result0 | e] st'];
    cbn [fst snd]; [|now split].
  split; [reflexivity|]. cbn zeta. split; [|split].
  - rewrite <- emit_all. unfold report, dict_has.
    destruct (dict_get "error" result0) as [message|]; [reflexivity|].
    rewrite fold_left_app. cbn [fold_left].
    destruct (dict_get "all_probabilities" result0) as [[| | |probs]|];
      try reflexivity.
    generalize (emit (Print "All probabilities:" [])
                  (emit (Print "Confidence: {:.3f}"
                           match dict_get "confidence" result0 with
                           | Some v => [v]
                           | None => []
                           end)
                     (emit (Print "Prediction: {}"
                              match dict_get "prediction" result0 with
                              | Some v => [v]
                              | None => []
                              end) st'))).
    induction probs as [|kv probs IH]; intros s0; simpl;
      [reflexivity | apply IH].
  - unfold report. destruct (dict_get "error" result0); [reflexivity|].
    unfold count_reads. rewrite filter_app, length_app. cbn [filter].
    destruct (dict_get "all_probabilities" result0) as [[| | |probs]|];
      try reflexivity.
    induction probs as [|kv probs IH]; simpl; [reflexivity | exact IH].
  - unfold report, dict_has.
    destruct (dict_get "error" result0); [reflexivity|].
    rewrite length_app.
    destruct (dict_get "all_probabilities" result0) as [[| | |probs]|];
      try reflexivity.
    now rewrite length_map.
Qed.

End Behaviour.


Import Examples.

Local Abbreviation served :=
  (@Outputs.predict _ _ _ grid_vision queue_rng
                    open_any open_none keep_RGB flat_scores).

Lemma served_prediction :
  fst (served fresh_process (Path "photo.jpg") app_labels)
  = Return (success "safe" (nth 0 (softmax [0; 0; 0]%R) 0%R)
                    (dict_of_pairs (zip app_labels (softmax [0; 0; 0]%R)))).
Proof.
  destruct (predict_serviceable open_any open_none keep_RGB flat_scores
              fresh_process (Path "photo.jpg") [[1; 2]; [3; 4]] app_labels
              fresh_process_serviceable eq_refl)
    as (m & Hout & Hpredict).
  cbn zeta in Hpredict. unfold flat_scores in Hpredict.
  rewrite Hout in Hpredict. cbn [repeat] in Hpredict.
  rewrite argmax_flat in Hpredict. exact Hpredict.
Qed.


Lemma successful_prediction_bounds_witness :
  In "safe" app_labels
  /\ (1 / 3 - 1 / 10000 <= nth 0 (softmax [0; 0; 0]%R) 0%R <= 1)%R
  /\ List.length (dict_of_pairs (zip app_labels (softmax [0; 0; 0]%R))) <= 3
  /\ List.length (dict_of_pairs (zip app_labels (softmax [0; 0; 0]%R)))
     <= List.length app_labels
  /\ NoDup (map fst (dict_of_pairs (zip app_labels (softmax [0; 0; 0]%R))))
  /\ (forall k p,
        In (k, p) (dict_of_pairs (zip app_labels (softmax [0; 0; 0]%R))) ->
        In k app_labels /\ (0 <= p <= nth 0 (softmax [0; 0; 0]%R) 0%R)%R).
Proof.
  exact (successful_prediction_bounds
           open_any open_none keep_RGB flat_scores flat_scores_length
           fresh_process (Path "photo.jpg") app_labels "safe"
           (nth 0 (softmax [0; 0; 0]%R) 0%R)
           (dict_of_pairs (zip app_labels (softmax [0; 0; 0]%R)))
           fresh_process_serviceable served_prediction).
Defined.


Lemma failed_load_is_never_retried_witness :
  fst (served no_checkpoint_process (Path "photo.jpg") app_labels)
  = Raise missing_file_error
  /\ forall image_input0 classes,
       exists e',
         served
           (snd (served no_checkpoint_process (Path "photo.jpg")
                              app_labels))
           image_input0 classes
         = (Return (failure e'),
            snd (served no_checkpoint_process (Path "photo.jpg")
                              app_labels)).
Proof.
  apply (failed_load_is_never_retried
           open_any open_none keep_RGB flat_scores
           no_checkpoint_process missing_file_error (Path "photo.jpg")
           app_labels); reflexivity.
Defined.

Lemma predict_state_after_load (st : @state (list Q))
    (image_input0 : image_input) (classes : list string) :
  MODEL st = None ->
  TRANSFORM st = None ->
  snd (served st image_input0 classes) = snd (ensure_loaded st).
Proof.
  intros Hmodel Htransform.
  destruct (ensure_loaded_cold st Hmodel Htransform) as [Hsettled _].
  unfold Outputs.predict.
  destruct (ensure_loaded st) as [[[]|e] st1]; cbn [snd] in *; [|reflexivity].
  pose proof (predict_try_settled open_any open_none keep_RGB flat_scores
                st1 image_input0 classes Hsettled) as H.
  now destruct (Outputs.predict_try open_any open_none keep_RGB flat_scores
                  st1 image_input0 classes) as [[d | e] st2].
Qed.

(** The globals after the first call of a process that starts next to the
    training checkpoint, whatever the state of its random generator. *)
Lemma first_call_loads (g : list Q) :
  let st := snd (served (cold false (Some trained_checkpoint) g)
                        (Path "photo.jpg") app_labels) in
  MODEL st = Some (restored DropoutLinear trained_checkpoint cpu)
  /\ DEVICE st = Some cpu
  /\ TRANSFORM st = Some inference_transform.
Proof.
  cbn zeta. rewrite predict_state_after_load by reflexivity.
  unfold ensure_loaded. cbn [cold MODEL].
  rewrite (load_model_fallback _ trained_checkpoint);
    [repeat split | reflexivity | reflexivity | vm_compute; reflexivity
     | vm_compute; reflexivity].
Qed.

Lemma prediction_depends_on_model_and_input_only_witness :
  fst (served (snd (served (cold false (Some trained_checkpoint) [])
                           (Path "photo.jpg") app_labels))
              (Path "road.jpg") app_labels)
  = fst (served (snd (served (cold false (Some trained_checkpoint) [1%Q])
                             (Path "photo.jpg") app_labels))
                (Path "road.jpg") app_labels).
Proof.
  apply (prediction_depends_on_model_and_input_only
           open_any open_none keep_RGB flat_scores
           (snd (served (cold false (Some trained_checkpoint) [])
                        (Path "photo.jpg") app_labels))
           (snd (served (cold false (Some trained_checkpoint) [1%Q])
                        (Path "photo.jpg") app_labels))
           (Path "road.jpg") app_labels).
  - apply reach_predict, reach_cold.
  - apply reach_predict, reach_cold.
  - rewrite (proj1 (first_call_loads [])). discriminate.
  - rewrite (proj1 (first_call_loads [])), (proj1 (first_call_loads [1%Q])).
    reflexivity.
  - rewrite (proj1 (proj2 (first_call_loads []))),
      (proj1 (proj2 (first_call_loads [1%Q]))).
    reflexivity.
  - rewrite (proj2 (proj2 (first_call_loads []))),
      (proj2 (proj2 (first_call_loads [1%Q]))).
    reflexivity.
Defined.

Lemma load_model_outcome_witness :
  (fst (load_model fresh_process) = Return tt
   <-> matches (state_dict_of BareLinear) trained_checkpoint = true
       \/ matches (state_dict_of DropoutLinear) trained_checkpoint = true)
  /\ (fst (load_model fresh_process) = Return tt ->
      MODEL (snd (load_model fresh_process))
      = Some (restored (if matches (state_dict_of BareLinear)
                                   trained_checkpoint
                        then BareLinear else DropoutLinear)
                       trained_checkpoint (chosen_device fresh_process))
      /\ DEVICE (snd (load_model fresh_process))
         = Some (chosen_device fresh_process)
      /\ TRANSFORM (snd (load_model fresh_process))
         = Some inference_transform)
  /\ (fst (load_model fresh_process) <> Return tt ->
      fst (load_model fresh_process) = Raise shape_error
      /\ TRANSFORM (snd (load_model fresh_process))
         = TRANSFORM fresh_process).
Proof.
  exact (load_model_outcome fresh_process trained_checkpoint
           eq_refl eq_refl).
Defined.

End ServiceBehaviour.

(** ** Facts about [app.py] *)

Module AppFacts.

Import Transforms ResNet Scores Outputs Spec OutputsFacts App.

Section HandlerFacts.
Context {Img Tensor G : Type} `{V : Vision Img Tensor} `{RNG : TorchRandom G}.
Variable Image_open : string -> result Img.
Variable Image_open_buffer : list Byte.byte -> result Img.
Variable convert_RGB : Img -> result Img.
Variable forward : module -> Tensor -> list R.

Local Abbreviation predict :=
  (Outputs.predict Image_open Image_open_buffer convert_RGB forward).
Local Abbreviation main :=
  (Outputs.main Image_open Image_open_buffer convert_RGB forward).
Local Abbreviation analyze_image :=
  (App.analyze_image Image_open Image_open_buffer convert_RGB forward).

Lemma main_raises (st st' : @state G) (image_obj : image_input)
    (labels : list string) (e : exn) :
  predict st image_obj labels = (Raise e, st') ->
  main st image_obj labels = (Raise e, st').
Proof. intros H. unfold Outputs.main. now rewrite H. Qed.

Lemma main_returns (st st' : @state G) (image_obj : image_input)
    (labels : list string) (d : dict pyval) :
  predict st image_obj labels = (Return d, st') ->
  fst (main st image_obj labels) = Return d.
Proof. intros H. unfold Outputs.main. now rewrite H. Qed.

(** What [predict] returns is a success naming one of the labels, or a
    failure. *)
Lemma predict_returns_success_or_failure (st : @state G)
    (image_input0 : image_input) (labels : list string) (d : dict pyval) :
  fst (predict st image_input0 labels) = Return d ->
  (exists l c ps, d = success l c ps /\ In l labels)
  \/ exists e, d = failure e.
Proof.
  unfold Outputs.predict.
  destruct (ensure_loaded st) as [[[]|e] st1]; cbn [fst]; [|discriminate].
  destruct (Outputs.predict_try Image_open Image_open_buffer convert_RGB
              forward st1 image_input0 labels) as [[d' | e] st2] eqn:Htry;
    cbn [fst]; intros Heq; injection Heq as <-.
  - left. eapply predict_try_returns_success, Htry.
  - right. now exists e.
Qed.

(** The handler answers 200, 400 or 500.  Every answer other than 200 has
    the single key [error]; a body without the key [error] comes with status
    200 and is a prediction naming one of the three labels; a body with the
    key [error], whatever its status, names no label. *)
Theorem response_carries_error_or_prediction (st : @state G) (req : request) :
  let resp := fst (analyze_image st req) in
  (status resp = 200 \/ status resp = 400 \/ status resp = 500)
  /\ (status resp <> 200 ->
      exists message, body resp = [("error", PyStr message)])
  /\ (dict_has "error" (body resp) = false ->
      status resp = 200
      /\ exists l c ps, body resp = success l c ps /\ In l classes)
  /\ (dict_has "error" (body resp) = true ->
      forall l, dict_get "prediction" (body resp) <> Some (PyStr l)).
Proof.
  cbn zeta. unfold App.analyze_image.
  destruct (dict_get "image" (files req)) as [file|].
  2:{ cbn. repeat split; auto; try discriminate.
      intros _. now eexists. }
  assert (Hrejected :
            forall message code (s : @state G),
              code = 400 \/ code = 500 ->
              let resp := fst (error_response message code, s) in
              (status resp = 200 \/ status resp = 400 \/ status resp = 500)
              /\ (status resp <> 200 ->
                  exists m, body resp = [("error", PyStr m)])
              /\ (dict_has "error" (body resp) = false ->
                  status resp = 200
                  /\ exists l c ps, body resp = success l c ps
                                    /\ In l classes)
              /\ (dict_has "error" (body resp) = true ->
                  forall l, dict_get "prediction" (body resp)
                            <> Some (PyStr l))).
  { intros message code s Hcode. cbn.
    repeat split; try discriminate; [tauto | now eexists]. }
  assert (Hcontinue :
            let resp :=
              fst match Image_open_buffer (content file) with
                  | Raise e => (error_response (str e) 500, st)
                  | Return image =>
                      match main st (Image image) classes with
                      | (Raise e, st') => (error_response (str e) 500, st')
                      | (Return result0, st') =>
                          ({| body := result0; status := 200 |}, st')
                      end
                  end in
            (status resp = 200 \/ status resp = 400 \/ status resp = 500)
            /\ (status resp <> 200 ->
                exists m, body resp = [("error", PyStr m)])
            /\ (dict_has "error" (body resp) = false ->
                status resp = 200
                /\ exists l c ps, body resp = success l c ps /\ In l classes)
            /\ (dict_has "error" (body resp) = true ->
                forall l, dict_get "prediction" (body resp)
                          <> Some (PyStr l))).
  { destruct (Image_open_buffer (content file)) as [image | e];
      [|apply Hrejected; now right].
    destruct (predict st (Image image) classes) as [[d | e] st'] eqn:Hpredict.
    - pose proof (main_returns st st' (Image image) classes d Hpredict)
        as Hmain.
      destruct (main st (Image image) classes) as [r st''].
      cbn [fst] in Hmain. subst r.
      assert (Hd : fst (predict st (Image image) classes) = Return d)
        by now rewrite Hpredict.
      cbn [fst body status]. split; [now left|].
      split; [intros Hne; now contradiction Hne|].
      destruct (predict_returns_success_or_failure st (Image image) classes d
                  Hd) as [(l & c & ps & -> & Hin) | (e & ->)].
      + split; [intros _; split; [reflexivity | now exists l, c, ps]|].
        cbn. discriminate.
      + split; [cbn; discriminate|]. intros _ l. cbn. discriminate.
    - rewrite (main_raises st st' (Image image) classes e Hpredict).
      apply Hrejected. now right. }
  destruct (filename file) as [[|a name]|]; try exact Hcontinue.
  apply Hrejected. now left.
Qed.

(** The handler answers 400 exactly when the request has no [image] field or
    the uploaded file has an empty name, and then the service is left as it
    was: nothing is loaded, read or printed. *)
Theorem bad_request_is_rejected_before_the_model (st : @state G)
    (req : request) :
  (status (fst (analyze_image st req)) = 400
   <-> dict_get "image" (files req) = None
       \/ exists file, dict_get "image" (files req) = Some file
                       /\ filename file = Some "")
  /\ (status (fst (analyze_image st req)) = 400 ->
      snd (analyze_image st req) = st).
Proof.
  unfold App.analyze_image.
  destruct (dict_get "image" (files req)) as [file|].
  2:{ cbn. split; [split; auto|reflexivity]. }
  assert (Hcontinue :
            status (fst match Image_open_buffer (content file) with
                        | Raise e => (error_response (str e) 500, st)
                        | Return image =>
                            match main st (Image image) classes with
                            | (Raise e, st') =>
                                (error_response (str e) 500, st')
                            | (Return result0, st') =>
                                ({| body := result0; status := 200 |}, st')
                            end
                        end) <> 400).
  { destruct (Image_open_buffer (content file)) as [image | e];
      [|cbn; discriminate].
    destruct (main st (Image image) classes) as [[d | e] st'];
      cbn; discriminate. }
  destruct (filename file) as [[|a name]|] eqn:Hname.
  - cbn. split; [|reflexivity]. split; [|reflexivity].
    intros _. right. now exists file.
  - split; [|intros H; now contradiction Hcontinue].
    split; [intros H; now contradiction Hcontinue|].
    intros [H | (f & Hf & Hempty)]; [discriminate|].
    injection Hf as <-. congruence.
  - split; [|intros H; now contradiction Hcontinue].
    split; [intros H; now contradiction Hcontinue|].
    intros [H | (f & Hf & Hempty)]; [discriminate|].
    injection Hf as <-. congruence.
Qed.

(** A valid upload goes to [main] as a PIL image with the three labels. *)
Lemma analyze_valid_upload (st : @state G) (req : request) (image : Img) :
  valid_upload Image_open_buffer req image ->
  analyze_image st req
  = match main st (Image image) classes with
    | (Raise e, st') => (error_response (str e) 500, st')
    | (Return result0, st') => ({| body := result0; status := 200 |}, st')
    end.
Proof.
  intros (file & Hfile & Hname & Hopen). unfold App.analyze_image.
  rewrite Hfile, Hopen.
  destruct (filename file) as [[|a name]|]; [congruence | | ]; reflexivity.
Qed.

Lemma classes_distinct : NoDup classes.
Proof. repeat constructor; cbn; intuition discriminate. Qed.

(** End to end: an upload that PIL opens and converts, on a service whose
    model is or can be loaded, is answered with status 200 and a body without
    [error], whose distribution has one entry for each of [safe],
    [too_close] and [danger] and no other, with probabilities that sum to
    one (to within 1e-4); the prediction is one of the three labels, the
    confidence is its probability, no entry is larger, and it is a third or
    more (to within 1e-4). *)
Theorem valid_upload_is_classified (st : @state G) (req : request)
    (image rgb : Img) :
  (forall m x, List.length (forward m x) = out_features (fc m)) ->
  serviceable st ->
  valid_upload Image_open_buffer req image ->
  convert_RGB image = Return rgb ->
  let resp := fst (analyze_image st req) in
  exists l c ps,
    status resp = 200
    /\ dict_has "error" (body resp) = false
    /\ dict_get "prediction" (body resp) = Some (PyStr l)
    /\ dict_get "confidence" (body resp) = Some (PyFloat c)
    /\ dict_get "all_probabilities" (body resp) = Some (PyDict ps)
    /\ Permutation (map fst ps) classes
    /\ (Rabs (Scores.total (map snd ps) - 1) <= 1 / 10000)%R
    /\ In l classes
    /\ dict_get l ps = Some c
    /\ (forall k p, In (k, p) ps -> (0 <= p <= c)%R)
    /\ (1 / 3 - 1 / 10000 <= c <= 1)%R.
Proof.
  intros Hforward Hst Hupload Hconvert. cbn zeta.
  rewrite (analyze_valid_upload st req image Hupload).
  destruct (ServiceBehaviour.three_labels_closed_form
              Image_open Image_open_buffer convert_RGB forward Hforward
              st (Image image) rgb classes Hst Hconvert eq_refl
              classes_distinct)
    as (outputs & l & Hlen & Hnth & Hpredict).
  destruct (predict st (Image image) classes) as [r st'] eqn:Hrun.
  cbn [fst] in Hpredict. subst r.
  pose proof (main_returns st st' (Image image) classes _ Hrun) as Hmain.
  destruct (main st (Image image) classes) as [r st''].
  cbn [fst] in Hmain. subst r. cbn [fst body status].
  pose proof (ScoresFacts.softmax_length outputs) as Hplen.
  assert (Hne : outputs <> []) by (intros E; now rewrite E in Hlen).
  assert (Hsne : softmax outputs <> [])
    by (intros E; rewrite E in Hplen; cbn in Hplen; lia).
  destruct (ScoresFacts.argmax_is_maximal (softmax outputs) Hsne)
    as [Hk Hmax].
  rewrite ScoresFacts.argmax_softmax in Hk, Hmax.
  pose proof (ScoreBounds.best_of_three outputs Hlen) as Hbest.
  exists l, (nth (argmax outputs) (softmax outputs) 0%R),
         (combine classes (softmax outputs)).
  split; [reflexivity|]. split; [reflexivity|]. split; [reflexivity|].
  split; [reflexivity|]. split; [reflexivity|].
  rewrite combine_fst, combine_snd by (cbn; lia).
  split; [apply Permutation_refl|].
  split.
  { rewrite (ScoresFacts.softmax_total outputs Hne).
    replace (1 - 1)%R with 0%R by lra. rewrite Rabs_R0. lra. }
  split; [eapply nth_error_In, Hnth|].
  split.
  { apply PyFacts.dict_get_in.
    - rewrite combine_fst by (cbn; lia). exact classes_distinct.
    - apply nth_error_nth with (d := "") in Hnth. rewrite <- Hnth.
      rewrite <- (combine_nth classes (softmax outputs) (argmax outputs)
                    "" 0%R) by (cbn; lia).
      apply nth_In. rewrite length_combine.
      change (List.length classes) with 3. lia. }
  split; [|lra].
  intros k p Hin. apply in_combine_r in Hin. split.
  - apply Rlt_le. eapply ScoreBounds.softmax_positive, Hin.
  - now apply Hmax.
Qed.

(** When the load fails, the first upload is answered 500 with the error's
    message, and every later upload is answered 200 with a failure body: the
    same fault changes its status code after the first request. *)
Theorem load_failure_is_500_then_200 (st : @state G) (e : exn)
    (req1 req2 : request) (image1 image2 : Img) :
  MODEL st = None ->
  TRANSFORM st = None ->
  fst (ensure_loaded st) = Raise e ->
  valid_upload Image_open_buffer req1 image1 ->
  valid_upload Image_open_buffer req2 image2 ->
  fst (analyze_image st req1) = error_response (str e) 500
  /\ exists e',
       fst (analyze_image (snd (analyze_image st req1)) req2)
       = {| body := failure e'; status := 200 |}.
Proof.
  intros Hmodel Htransform Hload Hreq1 Hreq2.
  destruct (ServiceBehaviour.ensure_loaded_failure st e Hmodel Hload)
    as (Hset & Hkeep & _).
  assert (Hpredict : predict st (Image image1) classes
                     = (Raise e, snd (ensure_loaded st))).
  { apply predict_propagates_load_error.
    destruct (ensure_loaded st) as [r st']. cbn [fst snd] in *. now subst r. }
  rewrite (analyze_valid_upload st req1 image1 Hreq1).
  rewrite (main_raises st _ (Image image1) classes e Hpredict).
  cbn [fst snd]. split; [reflexivity|].
  rewrite (analyze_valid_upload _ req2 image2 Hreq2).
  pose proof (ServiceBehaviour.predict_degraded
                Image_open Image_open_buffer convert_RGB forward
                (snd (ensure_loaded st)) (Image image2) classes Hset)
    as Hnext.
  rewrite Hkeep in Hnext. specialize (Hnext Htransform).
  pose proof (main_returns _ _ (Image image2) classes _ Hnext) as Hmain.
  destruct (main (snd (ensure_loaded st)) (Image image2) classes)
    as [r st''].
  cbn [fst] in Hmain. subst r. cbn [fst]. now eexists.
Qed.

End HandlerFacts.


Import Examples.

Local Abbreviation handled :=
  (@App.analyze_image _ _ _ grid_vision queue_rng
                      open_any open_every keep_RGB flat_scores).

Lemma road_upload_valid : valid_upload open_every road_upload [[1; 2]; [3; 4]].
Proof.
  exists {| filename := Some "road.jpg"; content := [] |}.
  repeat split. discriminate.
Qed.

Lemma valid_upload_is_classified_witness :
  let resp := fst (handled fresh_process road_upload) in
  exists l c ps,
    status resp = 200
    /\ dict_has "error" (body resp) = false
    /\ dict_get "prediction" (body resp) = Some (PyStr l)
    /\ dict_get "confidence" (body resp) = Some (PyFloat c)
    /\ dict_get "all_probabilities" (body resp) = Some (PyDict ps)
    /\ Permutation (map fst ps) classes
    /\ (Rabs (Scores.total (map snd ps) - 1) <= 1 / 10000)%R
    /\ In l classes
    /\ dict_get l ps = Some c
    /\ (forall k p, In (k, p) ps -> (0 <= p <= c)%R)
    /\ (1 / 3 - 1 / 10000 <= c <= 1)%R.
Proof.
  exact (valid_upload_is_classified
           open_any open_every keep_RGB flat_scores
           fresh_process road_upload [[1; 2]; [3; 4]] [[1; 2]; [3; 4]]
           flat_scores_length fresh_process_serviceable road_upload_valid
           eq_refl).
Defined.

Lemma load_failure_is_500_then_200_witness :
  fst (handled no_checkpoint_process road_upload)
  = error_response (str missing_file_error) 500
  /\ exists e',
       fst (handled (snd (handled no_checkpoint_process road_upload))
                    road_upload)
       = {| body := failure e'; status := 200 |}.
Proof.
  exact (load_failure_is_500_then_200
           open_any open_every keep_RGB flat_scores
           no_checkpoint_process missing_file_error road_upload road_upload
           [[1; 2]; [3; 4]] [[1; 2]; [3; 4]]
           eq_refl eq_refl eq_refl road_upload_valid road_upload_valid).
Defined.

End AppFacts.

(** ** More on the dataset *)

Module DatasetFacts.

Import Transforms ResNet Cnn Spec.

Lemma scan_class_returns fs data_dir class_idx class_name found :
  scan_class fs data_dir class_idx class_name = Return found ->
  found = class_samples fs data_dir class_idx class_name.
Proof.
  unfold scan_class, class_samples, exists_, listdir.
  destruct (fs (path_join data_dir class_name)) as [[|files]|]; simpl;
    intros H; [discriminate | now injection H as <- | now injection H as <-].
Qed.

(** Whenever indexing returns, it returns the index of the directory. *)
Lemma scan_classes_returns fs data_dir class_names :
  forall class_idx found,
    scan_classes fs data_dir class_idx class_names = Return found ->
    found = index_from fs data_dir class_idx class_names.
Proof.
  induction class_names as [|c rest IH]; intros class_idx found; simpl.
  - now intros H; injection H as <-.
  - destruct (scan_class fs data_dir class_idx c) as [here|] eqn:Hhere;
      simpl; [|discriminate].
    destruct (scan_classes fs data_dir (S class_idx) rest) as [others|]
      eqn:Hothers; simpl; [|discriminate].
    intros H. injection H as <-.
    now rewrite (scan_class_returns _ _ _ _ _ Hhere), (IH _ _ Hothers).
Qed.

Lemma class_samples_member fs data_dir class_idx class_name path label :
  In (path, label) (class_samples fs data_dir class_idx class_name) ->
  label = class_idx
  /\ exists files file,
       fs (path_join data_dir class_name) = Some (Directory files)
       /\ In file files
       /\ endswith_any file image_extensions = true
       /\ path = path_join (path_join data_dir class_name) file.
Proof.
  unfold class_samples.
  destruct (fs (path_join data_dir class_name)) as [[|files]|];
    try (intros []).
  rewrite in_map_iff. intros (file & Heq & Hin).
  injection Heq as <- <-. apply filter_In in Hin. destruct Hin as [Hin Hext].
  split; [reflexivity|]. now exists files, file.
Qed.

Lemma index_from_member fs data_dir class_names path label :
  forall class_idx,
    In (path, label) (index_from fs data_dir class_idx class_names) ->
    class_idx <= label
    /\ exists class_name files file,
         nth_error class_names (label - class_idx) = Some class_name
         /\ fs (path_join data_dir class_name) = Some (Directory files)
         /\ In file files
         /\ endswith_any file image_extensions = true
         /\ path = path_join (path_join data_dir class_name) file.
Proof.
  induction class_names as [|c rest IH]; intros class_idx; simpl;
    [intros []|].
  intros Hin. apply in_app_or in Hin. destruct Hin as [Hin | Hin].
  - destruct (class_samples_member _ _ _ _ _ _ Hin)
      as (-> & files & file & Hdir & Hfile & Hext & Hpath).
    split; [lia|]. exists c, files, file. rewrite Nat.sub_diag. now simpl.
  - destruct (IH _ Hin)
      as (Hle & c' & files & file & Hnth & Hdir & Hfile & Hext & Hpath).
    split; [lia|]. exists c', files, file.
    replace (label - class_idx) with (S (label - S class_idx)) by lia.
    now simpl.
Qed.

Lemma class_samples_labels fs data_dir class_idx class_name :
  map snd (class_samples fs data_dir class_idx class_name)
  = repeat class_idx
           (List.length (class_samples fs data_dir class_idx class_name)).
Proof.
  unfold class_samples.
  destruct (fs (path_join data_dir class_name)) as [[|files]|];
    try reflexivity.
  induction (filter _ files) as [|f fs' IH]; simpl; [reflexivity|].
  now rewrite IH.
Qed.

Lemma count_occ_repeat_other (a b n : nat) :
  a <> b -> count_occ Nat.eq_dec (repeat a n) b = 0.
Proof.
  intros Hne. induction n as [|n IH]; simpl; [reflexivity|].
  destruct (Nat.eq_dec a b); [contradiction | exact IH].
Qed.

Lemma count_occ_repeat_same (a n : nat) :
  count_occ Nat.eq_dec (repeat a n) a = n.
Proof.
  induction n as [|n IH]; simpl; [reflexivity|].
  destruct (Nat.eq_dec a a); [now rewrite IH | contradiction].
Qed.

Lemma index_from_below fs data_dir class_names :
  forall class_idx label,
    label < class_idx ->
    count_occ Nat.eq_dec
              (map snd (index_from fs data_dir class_idx class_names)) label
    = 0.
Proof.
  induction class_names as [|c rest IH]; intros class_idx label Hlt; simpl;
    [reflexivity|].
  rewrite map_app, count_occ_app, class_samples_labels.
  rewrite count_occ_repeat_other by lia. rewrite IH by lia. reflexivity.
Qed.

Lemma index_from_count fs data_dir class_names :
  forall class_idx j class_name,
    nth_error class_names j = Some class_name ->
    count_occ Nat.eq_dec
              (map snd (index_from fs data_dir class_idx class_names))
              (class_idx + j)
    = List.length (class_samples fs data_dir (class_idx + j) class_name).
Proof.
  induction class_names as [|c rest IH]; intros class_idx j class_name;
    [destruct j; discriminate|].
  simpl index_from. rewrite map_app, count_occ_app, class_samples_labels.
  destruct j as [|j]; simpl nth_error.
  - intros H. injection H as <-. rewrite Nat.add_0_r.
    rewrite count_occ_repeat_same, index_from_below by lia. lia.
  - intros Hnth. rewrite count_occ_repeat_other by lia.
    replace (class_idx + S j) with (S class_idx + j) by lia.
    now rewrite (IH (S class_idx) j class_name Hnth).
Qed.

Lemma init_invariant
    (fs : filesystem) (data_dir : string) (class_names : list string)
    (tr : list Transforms.transform) (ds : SimpleDataset) (found : nat) :
  SimpleDataset_init fs data_dir class_names tr = Return (ds, found) ->
  found = len ds
  /\ List.length (labels ds) = len ds
  /\ transform ds = tr
  /\ (forall idx path label,
        nth_error (images ds) idx = Some path ->
        nth_error (labels ds) idx = Some label ->
        exists class_name, nth_error class_names label = Some class_name).
Proof.
  unfold SimpleDataset_init, len.
  destruct (scan_classes fs data_dir 0 class_names) as [samples|] eqn:Hscan;
    simpl; [|discriminate].
  intros H. injection H as <- <-. simpl.
  apply scan_classes_returns in Hscan. subst samples.
  split; [reflexivity|]. split; [now rewrite !length_map|].
  split; [reflexivity|].
  intros idx path label Hpath Hlabel.
  rewrite nth_error_map in Hpath, Hlabel.
  destruct (nth_error (index_from fs data_dir 0 class_names) idx)
    as [[path' label']|] eqn:Hnth; [|discriminate].
  simpl in Hpath, Hlabel. injection Hpath as ->. injection Hlabel as ->.
  apply nth_error_In in Hnth.
  destruct (index_from_member _ _ _ _ _ _ Hnth)
    as (_ & c & files & file & Hc & Hrest).
  rewrite Nat.sub_0_r in Hc. now exists c.
Qed.

(** Whatever indexing returns is consistent: as many labels as images; the
    sample at each position is an image file (by extension) of the
    subdirectory of the class its label names, at the path of that file; and
    each class has as many samples as its subdirectory has image files. *)
Theorem indexed_samples_are_labelled_images
    (fs : filesystem) (data_dir : string) (class_names : list string)
    (tr : list Transforms.transform) (ds : SimpleDataset) (found : nat) :
  SimpleDataset_init fs data_dir class_names tr = Return (ds, found) ->
  found = len ds
  /\ List.length (labels ds) = len ds
  /\ classes ds = class_names
  /\ (forall idx path label,
        nth_error (images ds) idx = Some path ->
        nth_error (labels ds) idx = Some label ->
        exists class_name files file,
          nth_error class_names label = Some class_name
          /\ fs (path_join data_dir class_name) = Some (Directory files)
          /\ In file files
          /\ endswith_any file image_extensions = true
          /\ path = path_join (path_join data_dir class_name) file)
  /\ (forall label class_name,
        nth_error class_names label = Some class_name ->
        count_occ Nat.eq_dec (labels ds) label
        = List.length (class_samples fs data_dir label class_name)).
Proof.
  unfold SimpleDataset_init, len.
  destruct (scan_classes fs data_dir 0 class_names) as [samples|] eqn:Hscan;
    simpl; [|discriminate].
  intros H. injection H as <- <-. simpl.
  apply scan_classes_returns in Hscan. subst samples.
  split; [reflexivity|]. split; [now rewrite !length_map|].
  split; [reflexivity|]. split.
  - intros idx path label Hpath Hlabel.
    rewrite nth_error_map in Hpath, Hlabel.
    destruct (nth_error (index_from fs data_dir 0 class_names) idx)
      as [[path' label']|] eqn:Hnth; [|discriminate].
    simpl in Hpath, Hlabel. injection Hpath as ->. injection Hlabel as ->.
    apply nth_error_In in Hnth.
    destruct (index_from_member _ _ _ _ _ _ Hnth)
      as (_ & c & files & file & Hc & Hrest).
    rewrite Nat.sub_0_r in Hc. now exists c, files, file.
  - intros label class_name Hnth.
    exact (index_from_count fs data_dir class_names 0 label class_name Hnth).
Qed.

Section ItemFacts.
Context {Img Tensor G : Type} `{V : Vision Img Tensor} `{RNG : TorchRandom G}.
Variable Image_open : string -> result Img.
Variable convert_RGB : Img -> result Img.

Lemma compose_app (ts ts' : list Transforms.transform) (x : pic Img Tensor)
    (g : G) :
  compose (ts ++ ts') x g
  = match compose ts x g with
    | (Return y, g') => compose ts' y g'
    | (Raise e, g') => (Raise e, g')
    end.
Proof.
  revert x g. induction ts as [|t ts IH]; intros x g; simpl; [reflexivity|].
  destruct (apply_transform t x g) as [[y | e] g']; [apply IH | reflexivity].
Qed.

(** What the augmenting pipeline returns is a tensor. *)
Lemma training_transform_gives_tensor (x y : pic Img Tensor) (g g' : G) :
  compose training_transform x g = (Return y, g') -> exists t, y = Tens t.
Proof.
  change training_transform
    with ([ Resize 256 256; RandomCrop 224; RandomHorizontalFlip 0.5%Q;
            RandomRotation 15%Q; ColorJitter 0.4%Q 0.4%Q 0.4%Q 0.1%Q;
            RandomGrayscale 0.1%Q; ToTensor ]
          ++ [ Normalize imagenet_mean imagenet_std ]).
  rewrite compose_app.
  destruct (compose _ x g) as [[z | e] g1]; [|discriminate].
  simpl. destruct z as [i | t]; [discriminate|].
  intros H. injection H as <- _. now eexists.
Qed.

(** An index at or beyond the dataset's length raises [IndexError] before
    any file is opened; an item that is returned carries the label stored at
    its index, which names one of the classes, and, under the training
    pipeline, a tensor, never a PIL image. *)
Theorem getitem_in_and_out_of_range
    (fs : filesystem) (data_dir : string) (class_names : list string)
    (tr : list Transforms.transform) (ds : SimpleDataset) (found idx : nat)
    (g : G) :
  SimpleDataset_init fs data_dir class_names tr = Return (ds, found) ->
  (found <= idx ->
   getitem Image_open convert_RGB ds idx g
   = (Raise (IndexError "list index out of range"), g))
  /\ (forall x label g',
        getitem Image_open convert_RGB ds idx g = (Return (x, label), g') ->
        idx < found
        /\ nth_error (labels ds) idx = Some label
        /\ label < List.length class_names
        /\ (tr = training_transform -> exists t, x = Tens t)).
Proof.
  intros Hinit.
  destruct (init_invariant fs data_dir class_names tr ds found Hinit)
    as (Hfound & Hlabels & Htr & Hmember).
  unfold getitem. split.
  - intros Hout. subst found.
    destruct (nth_error (images ds) idx) eqn:Hnth; [|reflexivity].
    assert (idx < List.length (images ds))
      by (apply nth_error_Some; congruence).
    unfold len in *. lia.
  - intros x label g'.
    destruct (nth_error (images ds) idx) as [path|] eqn:Hpath;
      [|discriminate].
    destruct (img <- Image_open path ;; convert_RGB img) as [image|];
      [|discriminate].
    destruct (nth_error (labels ds) idx) as [label'|] eqn:Hlabel;
      [|discriminate].
    destruct (compose (transform ds) (PIL image) g) as [[y | e] g1] eqn:Hrun;
      [|discriminate].
    intros H. injection H as <- <- <-.
    split; [subst found; unfold len; apply nth_error_Some; congruence|].
    split; [reflexivity|].
    destruct (Hmember idx path label' Hpath Hlabel) as (c & Hc).
    split; [apply nth_error_Some; congruence|].
    intros ->. rewrite Htr in Hrun.
    eapply training_transform_gives_tensor, Hrun.
Qed.

End ItemFacts.


Import Examples.

Lemma small_corpus_indexed :
  SimpleDataset_init small_corpus "data" ["safe"; "too_close"; "danger"]
                     training_transform
  = Return (small_dataset, 2).
Proof. reflexivity. Qed.

Lemma indexed_samples_are_labelled_images_witness :
  2 = len small_dataset
  /\ List.length (labels small_dataset) = len small_dataset
  /\ classes small_dataset = ["safe"; "too_close"; "danger"]
  /\ (forall idx path label,
        nth_error (images small_dataset) idx = Some path ->
        nth_error (labels small_dataset) idx = Some label ->
        exists class_name files file,
          nth_error ["safe"; "too_close"; "danger"] label = Some class_name
          /\ small_corpus (path_join "data" class_name)
             = Some (Directory files)
          /\ In file files
          /\ endswith_any file image_extensions = true
          /\ path = path_join (path_join "data" class_name) file)
  /\ (forall label class_name,
        nth_error ["safe"; "too_close"; "danger"] label = Some class_name ->
        count_occ Nat.eq_dec (labels small_dataset) label
        = List.length (class_samples small_corpus "data" label class_name)).
Proof.
  exact (indexed_samples_are_labelled_images
           small_corpus "data" ["safe"; "too_close"; "danger"]
           training_transform small_dataset 2 small_corpus_indexed).
Defined.

Local Abbreviation item :=
  (@getitem _ _ _ grid_vision queue_rng open_any keep_RGB).

Lemma getitem_in_and_out_of_range_witness :
  (2 <= 0 ->
   item small_dataset 0 []
   = (Raise (IndexError "list index out of range"), []))
  /\ (forall x label g',
        item small_dataset 0 [] = (Return (x, label), g') ->
        0 < 2
        /\ nth_error (labels small_dataset) 0 = Some label
        /\ label < List.length ["safe"; "too_close"; "danger"]
        /\ (training_transform = training_transform -> exists t, x = Tens t)).
Proof.
  exact (getitem_in_and_out_of_range
           open_any keep_RGB
           small_corpus "data" ["safe"; "too_close"; "danger"]
           training_transform small_dataset 2 0 [] small_corpus_indexed).
Defined.


(** *** The sizes of the two subsets *)


Section SizeFacts.
Context {G : Type} `{RNG : TorchRandom G}.


End SizeFacts.



End DatasetFacts.

(** ** The whole training run *)

Module TrainingRun.

Import Transforms ResNet Cnn Spec.
Local Open Scope nat_scope.

Lemma Forall2_map_self {A} (R : A -> A -> Prop) (f : A -> A) (l : list A) :
  (forall a, R a (f a)) -> Forall2 R l (map f l).
Proof. intros H. induction l; simpl; constructor; auto. Qed.

Lemma Forall2_compose {A} (R S T : A -> A -> Prop) :
  (forall a b c, R a b -> S b c -> T a c) ->
  forall l1 l2 l3, Forall2 R l1 l2 -> Forall2 S l2 l3 -> Forall2 T l1 l3.
Proof.
  intros H l1 l2 l3 H12. revert l3.
  induction H12 as [|a b l1 l2 Hab _ IH]; intros l3 H23;
    inversion H23; subst; constructor; eauto.
Qed.

Section RunFacts.
Context {D Gr B : Type}.
Variable torch : @Torch D Gr B.

(** One parameter after some optimisation steps: same name, shape and flag,
    and the same contents if it needs no gradient. *)
Local Abbreviation kept :=
  (fun p p' : @parameter D Gr =>
     p_name p' = p_name p
     /\ p_shape p' = p_shape p
     /\ requires_grad p' = requires_grad p
     /\ (requires_grad p = false -> data p' = data p)).

Lemma kept_refl (net : @network D Gr) : Forall2 kept net net.
Proof. induction net; constructor; auto. Qed.

Lemma kept_trans (n1 n2 n3 : @network D Gr) :
  Forall2 kept n1 n2 -> Forall2 kept n2 n3 -> Forall2 kept n1 n3.
Proof.
  apply Forall2_compose.
  intros a b c (Hn & Hs & Hr & Hd) (Hn' & Hs' & Hr' & Hd').
  repeat split; try congruence.
  intros Hf. rewrite Hd' by congruence. now apply Hd.
Qed.

Lemma batch_keeps (opt : Adam) (batch : B) (net : @network D Gr) :
  Forall2 kept net
          (step (adam_update torch) opt
                (backward (gradient torch) batch (zero_grad opt net))).
Proof.
  unfold step, backward, zero_grad.
  set (gr := gradient torch _ batch). clearbody gr.
  rewrite !map_map. apply Forall2_map_self. intros p.
  unfold in_group, set_grad, set_data.
  destruct (existsb (String.eqb (p_name p)) (param_group opt)) eqn:Hgroup;
    destruct (requires_grad p) eqn:Hrg; cbn;
    rewrite ?Hgroup, ?Hrg; cbn; rewrite ?Hgroup; cbn;
    try (destruct (grad p)); cbn; repeat split; auto; discriminate.
Qed.

Lemma train_pass_keeps (opt : Adam) (i : nat) (net : @network D Gr) :
  Forall2 kept net (fst (fst (fst (train_pass torch opt i net)))).
Proof.
  unfold train_pass.
  assert (H : forall batches n loss total n_correct,
             Forall2 kept net n ->
             Forall2 kept net
               (fst (fst (fst (fold_left (train_batch torch opt) batches
                                         (n, loss, total, n_correct)))))).
  { induction batches as [|b batches IH]; intros n loss total n_correct Hn;
      simpl; [exact Hn|].
    apply IH. eapply kept_trans; [exact Hn | apply batch_keeps]. }
  apply H, kept_refl.
Qed.

Lemma epoch_keeps (opt : Adam) (epochs i : nat) (st : tstate) :
  Forall2 kept (net st) (net (snd (epoch torch opt epochs i st))).
Proof.
  unfold epoch.
  pose proof (train_pass_keeps opt i (net st)) as Hpass.
  destruct (train_pass torch opt i (net st))
    as [[[net1 train_loss] train_total] train_correct].
  cbn [fst] in Hpass.
  destruct (eval_pass torch i net1) as [val_total val_correct].
  unfold end_of_epoch.
  destruct (accuracy train_correct train_total) as [train_acc | e];
    [|exact Hpass].
  destruct (accuracy val_correct val_total) as [val_acc | e]; [|exact Hpass].
  cbn [emit with_net best_acc net training_mode best_model_pth out].
  now destruct (Qlt_le_dec (best_acc st) val_acc).
Qed.

Lemma epochs_from_keeps (opt : Adam) (epochs : nat) :
  forall (todo i : nat) (st : tstate),
    Forall2 kept (net st)
            (net (snd (epochs_from torch opt epochs todo i st))).
Proof.
  induction todo as [|todo IH]; intros i st; [apply kept_refl|].
  cbn [epochs_from].
  pose proof (epoch_keeps opt epochs i st) as Hnext.
  destruct (epoch torch opt epochs i st) as [[[] | e] st']; cbn [snd] in *.
  - eapply kept_trans; [exact Hnext | apply IH].
  - exact Hnext.
Qed.

Lemma freeze_layers_agrees (net0 n : @network D Gr) :
  Forall2 kept (fst (freeze_layers net0)) n -> agrees_when_frozen net0 n.
Proof.
  unfold freeze_layers, agrees_when_frozen. cbn [fst].
  apply Forall2_compose
    with (R := fun p q => q = set_requires_grad (unfrozen (p_name p)) p).
  - intros a b c -> (Hn & Hs & Hr & Hd). cbn in *. auto.
  - now apply Forall2_map_self.
Qed.

Lemma agrees_then_kept (net0 n n' : @network D Gr) :
  agrees_when_frozen net0 n -> Forall2 kept n n' ->
  agrees_when_frozen net0 n'.
Proof.
  unfold agrees_when_frozen. apply Forall2_compose.
  intros p q r (Hn & Hs & Hr & Hd) (Hn' & Hs' & Hr' & Hd').
  repeat split; try congruence.
  intros Hf. rewrite Hd' by congruence. now apply Hd.
Qed.

(** Freezing holds for the parameters of the model throughout
    [Model.train].  After [freeze_layers] and any number of optimisation
    steps ([zero_grad], [backward], [step]) on any batches, and so after any
    part of the training loop and at the end of a run, the model has its
    parameters one for one, under their names and shapes; the flags are
    those of the freezing rule; and a parameter outside [layer4] and [fc]
    has the contents it started with.  (The running statistics of the batch
    normalisation layers are buffers, not parameters, and are not covered.) *)
Theorem frozen_parameters_survive_training
    (epochs : nat) (net0 : @network D Gr) (file : option (@snapshot D)) :
  let frozen := fst (freeze_layers net0) in
  let optimizer := make_optimizer frozen in
  agrees_when_frozen net0 frozen
  /\ (forall (batches : list B) (n : @network D Gr)
             (train_loss : Q) (train_total train_correct : nat),
        agrees_when_frozen net0 n ->
        agrees_when_frozen net0
          (fst (fst (fst (fold_left (train_batch torch optimizer) batches
                                    (n, train_loss, train_total,
                                     train_correct))))))
  /\ agrees_when_frozen net0 (net (snd (train torch epochs net0 file))).
Proof.
  cbn zeta. split; [apply freeze_layers_agrees, kept_refl|]. split.
  - intros batches. induction batches as [|b batches IH];
      intros n train_loss train_total train_correct Hn; [exact Hn|].
    cbn [fold_left train_batch]. apply IH.
    eapply agrees_then_kept; [exact Hn | apply batch_keeps].
  - unfold train.
    destruct (freeze_layers net0) as [frozen [trainable total]] eqn:Hfreeze.
    assert (Hfrozen : frozen = fst (freeze_layers net0))
      by now rewrite Hfreeze.
    set (st0 := {| net := frozen; training_mode := true; best_acc := 0%Q;
                   best_model_pth := file;
                   out := [PrintTrainable trainable total] |}).
    pose proof (epochs_from_keeps (make_optimizer frozen) epochs epochs 0 st0)
      as Hnet.
    change (net st0) with frozen in Hnet.
    apply freeze_layers_agrees. rewrite <- Hfrozen.
    destruct (epochs_from torch (make_optimizer frozen) epochs epochs 0 st0)
      as [[[] | e] st1]; cbn [snd emit net] in *; exact Hnet.
Qed.

End RunFacts.

End TrainingRun.

(** ** The training script *)

Module ScriptFacts.

Import Transforms ResNet Cnn Spec.
Local Open Scope nat_scope.

Lemma put_same (path : string) (n : node) (fs : filesystem) :
  put path n fs path = Some n.
Proof. unfold put. now rewrite String.eqb_refl. Qed.

Lemma put_other (path p : string) (n : node) (fs : filesystem) :
  p <> path -> put path n fs p = fs p.
Proof.
  intros Hne. unfold put. destruct (String.eqb_spec p path); congruence.
Qed.

Lemma mkdir_in_returns (fs fs' : filesystem) (head tail : string)
    (entries : list string) :
  mkdir_in fs head entries tail = Return fs' ->
  (exists files, fs' (path_join head tail) = Some (Directory files))
  /\ (forall p n, fs p = Some n -> p <> head -> fs' p = Some n).
Proof.
  unfold mkdir_in.
  destruct (fs (path_join head tail)) as [[|files]|] eqn:Hname;
    [discriminate | |]; intros H; injection H as <-.
  - split; [now exists files | auto].
  - split; [exists []; apply put_same|].
    intros p n Hp Hne.
    rewrite put_other by congruence. now rewrite put_other.
Qed.

(** What [os.makedirs] leaves when it returns: the directory is there, and
    nothing that existed is gone or replaced, the listing of [head] apart. *)
Lemma makedirs_returns (fs fs' : filesystem) (head tail : string) :
  makedirs fs head tail = Return fs' ->
  (exists files, fs' (path_join head tail) = Some (Directory files))
  /\ (forall p n, fs p = Some n -> p <> head -> fs' p = Some n).
Proof.
  unfold makedirs. destruct (fs head) as [[|entries]|] eqn:Hhead;
    [discriminate | apply mkdir_in_returns |].
  intros H. apply mkdir_in_returns in H. destruct H as [Hdir Hkeep].
  split; [exact Hdir|]. intros p n Hp Hne. apply Hkeep; [|exact Hne].
  now rewrite put_other.
Qed.

Lemma makedirs_all_returns (head : string) (folders : list string) :
  (forall c, In c folders -> path_join head c <> head) ->
  forall fs fs1,
    makedirs_all fs head folders = (Return tt, fs1) ->
    (forall c, In c folders ->
               exists files, fs1 (path_join head c) = Some (Directory files))
    /\ (forall p n, fs p = Some n -> p <> head -> fs1 p = Some n).
Proof.
  induction folders as [|folder rest IH]; intros Hpaths fs fs1; simpl.
  - intros H. injection H as <-. split; [intros c [] | auto].
  - destruct (makedirs fs head folder) as [fs'|e] eqn:Hmake; [|discriminate].
    intros Hrest. apply makedirs_returns in Hmake.
    destruct Hmake as [(files & Hdir) Hkeep].
    destruct (IH (fun c Hc => Hpaths c (or_intror Hc)) fs' fs1 Hrest)
      as [Hdirs Hkeep'].
    split.
    + intros c [<- | Hc]; [|now apply Hdirs].
      exists files. apply Hkeep'; [exact Hdir|]. apply Hpaths. now left.
    + intros p n Hp Hne. apply Hkeep'; [|exact Hne]. now apply Hkeep.
Qed.

Lemma makedirs_all_raises (head : string) (folders : list string) :
  forall fs fs1 e,
    makedirs_all fs head folders = (Raise e, fs1) ->
    forall p n, fs p = Some n -> p <> head -> fs1 p = Some n.
Proof.
  induction folders as [|folder rest IH]; intros fs fs1 e; simpl;
    [discriminate|].
  destruct (makedirs fs head folder) as [fs'|e'] eqn:Hmake.
  - intros Hrest p n Hp Hne. apply makedirs_returns in Hmake.
    destruct Hmake as [_ Hkeep]. eapply IH; eauto.
  - intros H. injection H as <- <-. auto.
Qed.

(** The loop of [main] that counts images and the loop of
    [SimpleDataset.__init__] that collects them walk the same directories:
    one fails exactly when the other does, with the same error, and the
    count is the number of samples collected. *)
Lemma count_images_agrees_with_scan (fs : filesystem) (data_dir : string) :
  forall (folders : list string) (class_idx total_images : nat),
    match scan_classes fs data_dir class_idx folders with
    | Return samples =>
        count_images fs data_dir folders total_images
        = (Return (total_images + List.length samples),
           map (fun c => CountLine c (List.length
                                         (class_samples fs data_dir 0 c)))
               (filter (fun c => exists_ fs (path_join data_dir c)) folders))
    | Raise e =>
        fst (count_images fs data_dir folders total_images) = Raise e
    end.
Proof.
  induction folders as [|folder rest IH]; intros class_idx total_images.
  - simpl. now rewrite Nat.add_0_r.
  - cbn [scan_classes count_images filter]. unfold scan_class, class_samples.
    unfold exists_, listdir.
    destruct (fs (path_join data_dir folder)) as [[|files]|] eqn:Hdir;
      cbn [bind fst].
    + reflexivity.
    + specialize (IH (S class_idx)
                     (total_images
                      + List.length
                          (filter (fun f => endswith_any f image_extensions)
                                  files))).
      destruct (scan_classes fs data_dir (S class_idx) rest)
        as [others | e]; cbn [bind].
      * rewrite IH. cbn [map]. rewrite Hdir.
        rewrite length_app, !length_map. f_equal. f_equal. lia.
      * destruct (count_images fs data_dir rest _) as [r lines].
        exact IH.
    + specialize (IH (S class_idx) total_images).
      destruct (scan_classes fs data_dir (S class_idx) rest)
        as [others | e]; cbn [bind]; exact IH.
Qed.

Lemma class_paths_are_below_data (c : string) :
  In c main_classes -> path_join "data" c <> "data".
Proof. intros [<- | [<- | [<- | []]]]; discriminate. Qed.

Lemma filter_all {A} (f : A -> bool) (l : list A) :
  (forall a, In a l -> f a = true) -> filter f l = l.
Proof.
  induction l as [|a l IH]; intros H; simpl; [reflexivity|].
  rewrite (H a (or_introl eq_refl)), IH; [reflexivity|].
  intros b Hb. apply H. now right.
Qed.

Section MainFacts.
Context {World : Type}.
Variable build_and_train :
  filesystem -> string -> list string -> World -> result unit * World.

Local Abbreviation main := (Cnn.main build_and_train).

(** [cnn.main] removes and replaces nothing that exists below [data].  If it
    cannot create one of the class directories it raises before printing.
    Otherwise the three class directories exist, its counting loop cannot
    fail, the total it tests is the size of the dataset that [Model] will
    index in the same directories, and each line it prints gives a class's
    number of samples: it stops with [No images found!], without building a
    model, exactly when that dataset is empty, and otherwise builds and
    trains. *)
Theorem main_trains_exactly_on_a_nonempty_index
    (fs : filesystem) (w : World) (tr : list Transforms.transform) :
  let prepared := makedirs_all fs "data" main_classes in
  let fs1 := snd prepared in
  (forall p n, fs p = Some n -> p <> "data" -> fs1 p = Some n)
  /\ match fst prepared with
     | Raise e => main fs w = (Raise e, fs1, [], w)
     | Return _ =>
         (forall c, In c main_classes ->
                    exists files,
                      fs1 (path_join "data" c) = Some (Directory files))
         /\ exists ds,
              SimpleDataset_init fs1 "data" main_classes tr
              = Return (ds, len ds)
              /\ let counts :=
                   map (fun c =>
                          CountLine c (List.length
                                         (class_samples fs1 "data" 0 c)))
                       main_classes in
                 main fs w
                 = if (len ds =? 0)%nat then
                     (Return false, fs1,
                      main_banner ++ counts
                      ++ [Line "No images found! Add some images first."], w)
                   else
                     match build_and_train fs1 "data" main_classes w with
                     | (Raise e, w') =>
                         (Raise e, fs1, main_banner ++ counts, w')
                     | (Return _, w') =>
                         (Return true, fs1,
                          main_banner ++ counts ++ main_epilogue, w')
                     end
     end.
Proof.
  cbn zeta. unfold Cnn.main.
  destruct (makedirs_all fs "data" main_classes) as [[[] | e] fs1] eqn:Hmake;
    cbn [fst snd].
  2:{ split; [|reflexivity]. eapply makedirs_all_raises, Hmake. }
  destruct (makedirs_all_returns "data" main_classes
              class_paths_are_below_data fs fs1 Hmake) as [Hdirs Hkeep].
  split; [exact Hkeep|]. split; [exact Hdirs|].
  assert (Hscan : scan_classes fs1 "data" 0 main_classes
                  = Return (index_from fs1 "data" 0 main_classes)).
  { apply CnnFacts.scan_classes_spec. intros c Hc.
    destruct (Hdirs c Hc) as (files & ->). discriminate. }
  pose proof (count_images_agrees_with_scan fs1 "data" main_classes 0 0)
    as Hcount.
  rewrite Hscan in Hcount.
  rewrite filter_all in Hcount.
  2:{ intros c Hc. unfold exists_. now destruct (Hdirs c Hc) as (files & ->). }
  unfold SimpleDataset_init. rewrite Hscan. cbn [bind].
  eexists. split; [reflexivity|].
  rewrite Hcount. unfold len. cbn [images]. rewrite length_map.
  reflexivity.
Qed.

End MainFacts.

End ScriptFacts.

(** ** [Model.predict] *)

Module ModelPredictFacts.

Import Transforms ResNet Scores Cnn Spec.
Local Open Scope nat_scope.

Section Outcomes.
Context {Img Tensor G : Type} `{V : Vision Img Tensor} `{RNG : TorchRandom G}.
Context {D Gr : Type}.
Variable Image_open : string -> result Img.
Variable convert_RGB : Img -> result Img.
Variable forward : @network D Gr -> Tensor -> list R.

Local Abbreviation Model_predict :=
  (Cnn.Model_predict Image_open convert_RGB forward).

(** [Model.predict] has no error handling of its own.  A file that cannot be
    opened or converted makes it raise that error, before any random number
    is drawn; what it returns is one of the class names with a confidence of
    a third or more (to within 1e-4) and at most one; and with three or more
    class names the only errors are those of decoding and of the
    transform. *)
Theorem model_predict_outcomes (net0 : @network D Gr)
    (class_names : list string) (image_path : string) (g : G) :
  (forall n x, List.length (forward n x) = 3) ->
  (forall e,
     (img <- Image_open image_path ;; convert_RGB img) = Raise e ->
     Model_predict net0 class_names image_path g = (Raise e, g))
  /\ (forall label confidence g',
        Model_predict net0 class_names image_path g
        = (Return (label, confidence), g') ->
        In label class_names
        /\ (1 / 3 - 1 / 10000 <= confidence <= 1)%R)
  /\ (3 <= List.length class_names ->
      forall e g',
        Model_predict net0 class_names image_path g = (Raise e, g') ->
        (img <- Image_open image_path ;; convert_RGB img) = Raise e
        \/ exists image,
             (img <- Image_open image_path ;; convert_RGB img) = Return image
             /\ Model_transform image g = (Raise e, g')).
Proof.
  intros Hforward. unfold Cnn.Model_predict.
  destruct (img <- Image_open image_path ;; convert_RGB img)
    as [image | e0].
  2:{ split; [|split].
      - intros e H. now injection H as <-.
      - discriminate.
      - intros _ e g' H. injection H as <- <-. now left. }
  split; [discriminate|].
  destruct (Model_transform image g) as [[image_tensor | e0] g1] eqn:Hrun.
  2:{ split; [discriminate|]. intros _ e g' H. injection H as <- <-.
      right. now exists image. }
  set (outputs := forward net0 image_tensor).
  assert (Hlen : List.length outputs = 3) by apply Hforward.
  destruct (nth_error class_names (argmax outputs)) as [l|] eqn:Hnth.
  - split; [|discriminate].
    intros label confidence g' H. injection H as <- <- <-.
    split; [eapply nth_error_In, Hnth|].
    pose proof (ScoreBounds.best_of_three outputs Hlen). lra.
  - split; [discriminate|]. intros Hclasses. exfalso.
    apply nth_error_None in Hnth.
    assert (Hne : softmax outputs <> []).
    { intros E. pose proof (ScoresFacts.softmax_length outputs) as H.
      rewrite E, Hlen in H. discriminate. }
    destruct (ScoresFacts.argmax_is_maximal (softmax outputs) Hne) as [Hk _].
    rewrite ScoresFacts.argmax_softmax, ScoresFacts.softmax_length in Hk.
    lia.
Qed.

End Outcomes.

Import Examples.

Lemma even_scores_length (n : @network unit unit) (x : list (list nat)) :
  List.length (even_scores n x) = 3.
Proof. reflexivity. Qed.

Local Abbreviation judged :=
  (@Cnn.Model_predict _ _ _ grid_vision queue_rng unit unit
                      open_any keep_RGB even_scores).

Lemma model_predict_outcomes_witness :
  (forall e,
     (img <- open_any "test.jpg" ;; keep_RGB img) = Raise e ->
     judged [] main_classes "test.jpg" [] = (Raise e, []))
  /\ (forall label confidence g',
        judged [] main_classes "test.jpg" []
        = (Return (label, confidence), g') ->
        In label main_classes
        /\ (1 / 3 - 1 / 10000 <= confidence <= 1)%R)
  /\ (3 <= List.length main_classes ->
      forall e g',
        judged [] main_classes "test.jpg" [] = (Raise e, g') ->
        (img <- open_any "test.jpg" ;; keep_RGB img) = Raise e
        \/ exists image,
             (img <- open_any "test.jpg" ;; keep_RGB img) = Return image
             /\ @Model_transform _ _ _ grid_vision queue_rng image []
                = (Raise e, g')).
Proof.
  exact (model_predict_outcomes open_any keep_RGB even_scores
           [] main_classes "test.jpg" [] even_scores_length).
Defined.

End ModelPredictFacts.
